(** * Lakers dashboard: the cache in front of the BallDontLie API

    A shallow embedding of [main.py] (the cache store, [get_fixed_team],
    [get_team_games]) and of [services/nba.py] ([get_lakers_games]),
    followed by the properties of the design document that concern them.

    Conventions of the embedding.
    - Python objects decoded from JSON are values of [pyval]; JSON numbers
      are integers here (scores and identifiers are), floating point
      numbers are not part of the model. A string is the sequence of its
      UTF-8 bytes, whose lexicographic order is the order of Python strings
      by code point.
    - A Python function is a computation [M A]: it receives the state of
      the process (the [_cache] dictionary, the wall clock, the HTTP
      requests issued so far) and gives back either a value or a raised
      exception, together with the new state.
    - [datetime.now()] reads the field [clock], in microseconds, the
      resolution of [datetime]. A query reads the clock at most once before
      its HTTP request and at most once after it: the environment sets the
      clock when the request returns, and the caller sets it between calls.
    - [print] calls have no effect on the state and are left out, as is the
      Authorization header, which is the same in every request. *)

From Stdlib Require OrderedTypeEx.
From stdpp Require Import gmap strings pretty list sorting.

Open Scope Z_scope.

(** ** Python values and the operations the code applies to them *)

Module Py.

#[warnings="-register-all"]
Inductive pyval : Type :=
| PNone
| PBool (b : bool)
| PInt (n : Z)
| PStr (s : string)
| PList (l : list pyval)
| PTuple (l : list pyval)
| PDict (d : list (string * pyval)).

(** Exceptions, by class; all of them derive from [Exception]. *)
Inductive exn : Type :=
| AttributeError
| TypeError
| KeyError
| ValueError
| RequestException.

Inductive result (A : Type) : Type :=
| Ok (a : A)
| Raise (e : exn).
Arguments Ok {A} a.
Arguments Raise {A} e.

#[export] Instance result_ret : MRet result := λ A a, Ok a.
#[export] Instance result_bind : MBind result := λ A B f r,
  match r with
  | Ok a => f a
  | Raise e => Raise e
  end.

(** [d[k]] of a decoded JSON object: the keys of [d] are distinct and the
    first binding of [k] is its value. *)
Fixpoint dict_lookup {A : Type} (k : string) (d : list (string * A)) : option A :=
  match d with
  | [] => None
  | (k', v) :: d' => if String.eqb k k' then Some v else dict_lookup k d'
  end.

(** [bool(v)], as tested by [if v:]. *)
Definition py_truthy (v : pyval) : bool :=
  match v with
  | PNone => false
  | PBool b => b
  | PInt n => negb (n =? 0)
  | PStr s => negb (String.eqb s "")
  | PList l => match l with [] => false | _ => true end
  | PTuple l => match l with [] => false | _ => true end
  | PDict d => match d with [] => false | _ => true end
  end.

(** [v is not None]. *)
Definition py_is_not_none (v : pyval) : bool :=
  match v with
  | PNone => false
  | _ => true
  end.

(** The integer a value stands for in arithmetic: [bool] is a subclass of
    [int]. *)
Definition py_num (v : pyval) : option Z :=
  match v with
  | PInt n => Some n
  | PBool b => Some (if b then 1 else 0)
  | _ => None
  end.

(** [a == b]. *)
Fixpoint py_eq (a b : pyval) : bool :=
  let fix eq_seq (l1 l2 : list pyval) : bool :=
    match l1, l2 with
    | [], [] => true
    | x :: l1', y :: l2' => py_eq x y && eq_seq l1' l2'
    | _, _ => false
    end in
  let fix sub_dict (d1 d2 : list (string * pyval)) : bool :=
    match d1 with
    | [] => true
    | (k, v) :: d1' =>
        match dict_lookup k d2 with
        | Some w => py_eq v w
        | None => false
        end && sub_dict d1' d2
    end in
  match a, b with
  | PNone, PNone => true
  | PStr s, PStr t => String.eqb s t
  | PList l1, PList l2 => eq_seq l1 l2
  | PTuple l1, PTuple l2 => eq_seq l1 l2
  | PDict d1, PDict d2 => (length d1 =? length d2)%nat && sub_dict d1 d2
  | _, _ =>
      match py_num a, py_num b with
      | Some m, Some n => m =? n
      | _, _ => false
      end
  end.

Inductive cmpop : Type := OpLt | OpGt.

Definition cmp_int (op : cmpop) (m n : Z) : bool :=
  match op with
  | OpLt => m <? n
  | OpGt => n <? m
  end.

Definition cmp_str (op : cmpop) (s t : string) : bool :=
  match op with
  | OpLt => String.ltb s t
  | OpGt => String.ltb t s
  end.

Definition cmp_len (op : cmpop) (m n : nat) : bool :=
  match op with
  | OpLt => (m <? n)%nat
  | OpGt => (n <? m)%nat
  end.

(** [a < b] and [a > b]: integers, strings (by code point) and sequences
    (by the first pair of items that differ, else by length) are ordered;
    every other pair raises [TypeError]. *)
Fixpoint py_richcmp (op : cmpop) (a b : pyval) : result bool :=
  let fix cmp_seq (l1 l2 : list pyval) : result bool :=
    match l1, l2 with
    | x :: l1', y :: l2' => if py_eq x y then cmp_seq l1' l2' else py_richcmp op x y
    | _, _ => Ok (cmp_len op (length l1) (length l2))
    end in
  match a, b with
  | PStr s, PStr t => Ok (cmp_str op s t)
  | PList l1, PList l2 => cmp_seq l1 l2
  | PTuple l1, PTuple l2 => cmp_seq l1 l2
  | _, _ =>
      match py_num a, py_num b with
      | Some m, Some n => Ok (cmp_int op m n)
      | _, _ => Raise TypeError
      end
  end.

Definition py_lt : pyval → pyval → result bool := py_richcmp OpLt.
Definition py_gt : pyval → pyval → result bool := py_richcmp OpGt.

(** [a - b]: defined on integers only. *)
Definition py_sub (a b : pyval) : result pyval :=
  match py_num a, py_num b with
  | Some m, Some n => Ok (PInt (m - n))
  | _, _ => Raise TypeError
  end.

(** [v.get(k, default)]: only a dict has the method. *)
Definition py_get (v : pyval) (k : string) (default : pyval) : result pyval :=
  match v with
  | PDict d => Ok (match dict_lookup k d with Some x => x | None => default end)
  | _ => Raise AttributeError
  end.

(** [v[k]] for a string [k]. *)
Definition py_getitem (v : pyval) (k : string) : result pyval :=
  match v with
  | PDict d => match dict_lookup k d with Some x => Ok x | None => Raise KeyError end
  | _ => Raise TypeError
  end.

(** The items [for x in v] runs through: the items of a sequence, the keys
    of a dict, the characters of a string. *)
Definition py_iter (v : pyval) : result (list pyval) :=
  match v with
  | PList l => Ok l
  | PTuple l => Ok l
  | PDict d => Ok (map (λ kv, PStr kv.1) d)
  | PStr s => Ok (map (λ c, PStr (String c EmptyString)) (String.list_ascii_of_string s))
  | _ => Raise TypeError
  end.

End Py.
Export Py.

(** ** The process state and the monad of Python computations *)

Module Proc.

(** An HTTP request as built by the callers of [requests.get]. *)
Record request : Type := Request {
  req_url : string;
  req_params : list (string * Z);
  req_timeout : option Z
}.

(** What [response.json()] decodes: [None] when the body is not JSON and
    the call raises. *)
Record response : Type := Response {
  status_code : Z;
  json_body : option pyval
}.

(** The environment's answer to a request: a response or an exception
    (connection error, timeout), and the time on the clock when
    [requests.get] returns or raises. *)
Record reply : Type := Reply {
  rep_outcome : result response;
  rep_clock : Z
}.

Record world : Type := World {
  cache : gmap string (pyval * Z);
  clock : Z;
  http_log : list request
}.

Definition M (A : Type) : Type := world → result A * world.

#[export] Instance M_ret : MRet M := λ A a w, (Ok a, w).
#[export] Instance M_bind : MBind M := λ A B f m w,
  match m w with
  | (Ok a, w') => f a w'
  | (Raise e, w') => (Raise e, w')
  end.

Definition raise {A : Type} (e : exn) : M A := λ w, (Raise e, w).

Definition lift {A : Type} (r : result A) : M A := λ w, (r, w).

(** [try: body except Exception as e: handler e]. *)
Definition try_except {A : Type} (body : M A) (handler : exn → M A) : M A :=
  λ w, match body w with
       | (Ok a, w') => (Ok a, w')
       | (Raise e, w') => handler e w'
       end.

Definition read_cache : M (gmap string (pyval * Z)) := λ w, (Ok (cache w), w).

Definition write_cache (key : string) (entry : pyval * Z) : M unit :=
  λ w, (Ok tt, World (<[key := entry]> (cache w)) (clock w) (http_log w)).

Definition datetime_now : M Z := λ w, (Ok (clock w), w).

(** [requests.get(url, ...)] against an environment [upstream]. *)
Definition requests_get (upstream : request → reply) (req : request) : M response :=
  λ w, (rep_outcome (upstream req),
        World (cache w) (rep_clock (upstream req)) (http_log w ++ [req])).

Definition response_json (r : response) : M pyval :=
  match json_body r with
  | Some v => mret v
  | None => raise ValueError
  end.

End Proc.
Export Proc.

(** ** main.py: the cache store and the two cached queries *)

Module Main.

Definition BASE_URL : string := "https://api.balldontlie.io/v1".
Definition FIXED_TEAM_ID : Z := 14.

(** [timedelta(minutes=5)], in microseconds. *)
Definition CACHE_DURATION : Z := 5 * 60 * 1000000.

Definition get_cached (key : string) (allow_stale : bool) : M (pyval * bool) :=
  _cache ← read_cache;
  match _cache !! key with
  | Some (data, timestamp) =>
      now ← datetime_now;
      let is_fresh := now - timestamp <? CACHE_DURATION in
      if is_fresh then mret (data, true)
      else if allow_stale then mret (data, false)
      else mret (PNone, false)
  | None => mret (PNone, false)
  end.

Definition set_cache (key : string) (data : pyval) : M unit :=
  now ← datetime_now;
  write_cache key (data, now).

Section Queries.

Variable upstream : request → reply.

Definition get_fixed_team : M pyval :=
  let cache_key := "team_" +:+ pretty FIXED_TEAM_ID in
  '(cached, is_fresh) ← get_cached cache_key false;
  if py_is_not_none cached && is_fresh then mret cached
  else
    let url := BASE_URL +:+ "/teams/" +:+ pretty FIXED_TEAM_ID in
    try_except
      (response ← requests_get upstream (Request url [] (Some 10));
       if negb (status_code response =? 200) then
         '(stale_data, _) ← get_cached cache_key true;
         if py_truthy stale_data then mret stale_data
         else mret PNone
       else
         body ← response_json response;
         data ← lift (py_getitem body "data");
         team_name ← lift (py_getitem data "name");
         team_city ← lift (py_getitem data "city");
         team_abbreviation ← lift (py_getitem data "abbreviation");
         let result := PTuple [team_name; team_city; team_abbreviation] in
         set_cache cache_key result;;
         mret result)
      (λ e,
         '(stale_data, _) ← get_cached cache_key true;
         if py_truthy stale_data then mret stale_data
         else mret PNone).

Definition get_team_games (team_id season per_page : Z) : M pyval :=
  let cache_key :=
    "games_" +:+ pretty team_id +:+ "_" +:+ pretty season +:+ "_" +:+ pretty per_page in
  '(cached, is_fresh) ← get_cached cache_key false;
  if py_is_not_none cached && is_fresh then mret cached
  else
    let url := BASE_URL +:+ "/games" in
    let params :=
      [("team_ids[]", team_id); ("seasons[]", season); ("per_page", per_page)] in
    try_except
      (response ← requests_get upstream (Request url params (Some 10));
       if negb (status_code response =? 200) then
         '(stale_data, _) ← get_cached cache_key true;
         if py_truthy stale_data then mret stale_data
         else mret (PList [])
       else
         body ← response_json response;
         data ← lift (py_get body "data" (PList []));
         set_cache cache_key data;;
         mret data)
      (λ e,
         '(stale_data, _) ← get_cached cache_key true;
         if py_truthy stale_data then mret stale_data
         else mret (PList [])).

End Queries.

End Main.

(** ** services/nba.py: fetching and normalising the Lakers' games *)

Module Nba.

Definition BASE_URL : string := "https://api.balldontlie.io/v1".
Definition LAKERS_TEAM_ID : Z := 14.

(** The body of the loop [for game in games]: the dictionary appended to
    [processed_games] for one raw record. *)
Definition process_game (game : pyval) : result pyval :=
  home_team ← py_get game "home_team" (PDict []);
  visitor_team ← py_get game "visitor_team" (PDict []);
  home_score ← py_get game "home_team_score" (PInt 0);
  visitor_score ← py_get game "visitor_team_score" (PInt 0);
  home_id ← py_get home_team "id" PNone;
  let is_lakers_home := py_eq home_id (PInt LAKERS_TEAM_ID) in
  '(lakers_score, opponent_score, opponent_name, location) ←
    (if is_lakers_home then
       opponent_name ← py_get visitor_team "full_name" (PStr "Unknown");
       mret (home_score, visitor_score, opponent_name, PStr "Home")
     else
       opponent_name ← py_get home_team "full_name" (PStr "Unknown");
       mret (visitor_score, home_score, opponent_name, PStr "Away"));
  won ← py_gt lakers_score opponent_score;
  point_diff ← py_sub lakers_score opponent_score;
  date ← py_get game "date" (PStr "");
  status ← py_get game "status" (PStr "");
  mret (PDict [("date", date);
               ("lakers_score", lakers_score);
               ("opponent_score", opponent_score);
               ("opponent", opponent_name);
               ("location", location);
               ("won", PBool won);
               ("point_diff", point_diff);
               ("status", status)]).

(** [l.sort(key=key)]: the key of every item is computed first, then the
    items are sorted on their keys by a stable sort that compares keys with
    [<] only; an exception raised by [key] or by a comparison ends the sort.
    The sort is written as an insertion sort: [sort_insert] puts an item,
    which preceded those of [l] in the original list, in front of the first
    item of [l] whose key is not smaller. *)
Fixpoint sort_insert (kx : pyval * pyval) (l : list (pyval * pyval))
    : result (list (pyval * pyval)) :=
  match l with
  | [] => mret [kx]
  | ky :: l' =>
      b ← py_lt ky.1 kx.1;
      if b : bool then r ← sort_insert kx l'; mret (ky :: r)
      else mret (kx :: ky :: l')
  end.

Fixpoint sort_keyed (l : list (pyval * pyval)) : result (list (pyval * pyval)) :=
  match l with
  | [] => mret []
  | kx :: l' => r ← sort_keyed l'; sort_insert kx r
  end.

Definition list_sort (key : pyval → result pyval) (l : list pyval) : result (list pyval) :=
  keys ← mapM key l;
  sorted ← sort_keyed (zip keys l);
  mret (sorted.*2).

Section Queries.

Variable upstream : request → reply.

Definition get_lakers_games (season per_page : Z) : M pyval :=
  let url := BASE_URL +:+ "/games" in
  let params :=
    [("team_ids[]", LAKERS_TEAM_ID); ("seasons[]", season); ("per_page", per_page)] in
  response ← requests_get upstream (Request url params None);
  if negb (status_code response =? 200) then mret (PList [])
  else
    body ← response_json response;
    games ← lift (py_get body "data" (PList []));
    items ← lift (py_iter games);
    processed_games ← lift (mapM process_game items);
    sorted_games ← lift (list_sort (λ x, py_getitem x "date") processed_games);
    mret (PList sorted_games).

End Queries.

End Nba.

(** ** The design document's contract, written from its words

    Section 4.1 (Cache Store) and 4.2 (Fetch-With-Fallback) of the design
    document, as a second definition to compare the code with. *)

Module Spec.

(** "TTL is a fixed configuration constant (e.g., 5 minutes)". *)
Definition TTL : Z := 5 * 60 * 1000000.

(** "Returns absent if no entry exists for key. Otherwise returns the
    stored value and whether now - storedAt < TTL. Does not mutate state." *)
Definition get (key : string) : M (option (pyval * bool)) :=
  store ← read_cache;
  match store !! key with
  | None => mret None
  | Some (value, storedAt) =>
      now ← datetime_now;
      mret (Some (value, now - storedAt <? TTL))
  end.

(** "Same lookup, ignoring freshness". *)
Definition getAllowingStale (key : string) : M (option pyval) :=
  store ← read_cache;
  mret (fst <$> store !! key).

(** "Unconditionally stores value with storedAt = now, replacing any prior
    entry for key." *)
Definition set (key : string) (value : pyval) : M unit :=
  now ← datetime_now;
  write_cache key (value, now).

(** The contract of section 4.2, steps 1 to 3; [absent] is the "empty
    result, per the caller's expected shape". *)
Definition fetchWithFallback (key : string) (upstreamFetch : M pyval) (absent : pyval)
    : M pyval :=
  entry ← get key;
  match entry with
  | Some (value, true) => mret value
  | _ =>
      fetched ← try_except (value ← upstreamFetch; mret (Some value)) (λ _, mret None);
      match fetched with
      | Some value => set key value;; mret value
      | None =>
          stale ← getAllowingStale key;
          match stale with
          | Some value => mret value
          | None => mret absent
          end
      end
  end.

Section Upstream.

Variable upstream : request → reply.

(** The upstream operation of "get team info": one request to the team
    endpoint; it fails on a network error, on a status other than 200 and
    on a body without the three members of the team. *)
Definition team_info_upstream : M pyval :=
  response ← requests_get upstream
    (Request (Main.BASE_URL +:+ "/teams/" +:+ pretty Main.FIXED_TEAM_ID) [] (Some 10));
  if negb (status_code response =? 200) then raise RequestException
  else
    body ← response_json response;
    data ← lift (py_getitem body "data");
    team_name ← lift (py_getitem data "name");
    team_city ← lift (py_getitem data "city");
    team_abbreviation ← lift (py_getitem data "abbreviation");
    mret (PTuple [team_name; team_city; team_abbreviation]).

(** The upstream operation of "get team's games for a season": one request
    to the games endpoint; it fails on a network error, on a status other
    than 200 and on a body that is not a JSON object. *)
Definition team_games_upstream (team_id season per_page : Z) : M pyval :=
  response ← requests_get upstream
    (Request (Main.BASE_URL +:+ "/games")
       [("team_ids[]", team_id); ("seasons[]", season); ("per_page", per_page)]
       (Some 10));
  if negb (status_code response =? 200) then raise RequestException
  else
    body ← response_json response;
    lift (py_get body "data" (PList [])).

Definition get_team_info : M pyval :=
  fetchWithFallback ("team_" +:+ pretty Main.FIXED_TEAM_ID) team_info_upstream PNone.

Definition get_team_games (team_id season per_page : Z) : M pyval :=
  fetchWithFallback
    ("games_" +:+ pretty team_id +:+ "_" +:+ pretty season +:+ "_" +:+ pretty per_page)
    (team_games_upstream team_id season per_page) (PList []).

End Upstream.

End Spec.

(** ** Vocabulary of the properties *)

Module Props.

(** The state once the clock shows [t]. *)
Definition at_time (t : Z) (w : world) : world :=
  World (cache w) t (http_log w).

(** The two cached queries of [main.py], with the cache key and the request
    each of them builds and the value each of them returns for "no data". *)
Inductive query : Type :=
| TeamInfo
| TeamGames (team_id season per_page : Z).

Definition key_of (q : query) : string :=
  match q with
  | TeamInfo => "team_" +:+ pretty Main.FIXED_TEAM_ID
  | TeamGames team_id season per_page =>
      "games_" +:+ pretty team_id +:+ "_" +:+ pretty season +:+ "_" +:+ pretty per_page
  end.

Definition request_of (q : query) : request :=
  match q with
  | TeamInfo =>
      Request (Main.BASE_URL +:+ "/teams/" +:+ pretty Main.FIXED_TEAM_ID) [] (Some 10)
  | TeamGames team_id season per_page =>
      Request (Main.BASE_URL +:+ "/games")
        [("team_ids[]", team_id); ("seasons[]", season); ("per_page", per_page)]
        (Some 10)
  end.

Definition no_data (q : query) : pyval :=
  match q with
  | TeamInfo => PNone
  | TeamGames _ _ _ => PList []
  end.

Definition run (upstream : request → reply) (q : query) : M pyval :=
  match q with
  | TeamInfo => Main.get_fixed_team upstream
  | TeamGames team_id season per_page =>
      Main.get_team_games upstream team_id season per_page
  end.

Definition spec_run (upstream : request → reply) (q : query) : M pyval :=
  match q with
  | TeamInfo => Spec.get_team_info upstream
  | TeamGames team_id season per_page =>
      Spec.get_team_games upstream team_id season per_page
  end.

(** The upstream call fails: [requests.get] raises (network error,
    timeout) or the response has a status other than 200. *)
Definition upstream_fails (r : reply) : Prop :=
  match rep_outcome r with
  | Raise _ => True
  | Ok response => status_code response ≠ 200
  end.

(** A stored value that query [q] hands back whenever it finds it: one that
    Python treats as true or, for the games, the empty list. *)
Definition servable (q : query) (v : pyval) : bool :=
  py_truthy v ||
  match q, v with
  | TeamGames _ _ _, PList [] => true
  | _, _ => false
  end.

(** The entry of [q] in the cache, if there is one, is servable. *)
Definition entry_servable (q : query) (w : world) : bool :=
  match cache w !! key_of q with
  | Some (v, _) => servable q v
  | None => true
  end.

(** The request of [get_lakers_games]. *)
Definition lakers_request (season per_page : Z) : request :=
  Request (Nba.BASE_URL +:+ "/games")
    [("team_ids[]", Nba.LAKERS_TEAM_ID); ("seasons[]", season); ("per_page", per_page)]
    None.

(** *** Normalised game records *)

(** Field [k] of a dictionary. *)
Definition record_field (r : pyval) (k : string) : option pyval :=
  match r with
  | PDict d => dict_lookup k d
  | _ => None
  end.

(** The dictionary literal that [process_game] builds. *)
Definition game_record (date lakers_score opponent_score opponent location won
    point_diff status : pyval) : pyval :=
  PDict [("date", date);
         ("lakers_score", lakers_score);
         ("opponent_score", opponent_score);
         ("opponent", opponent);
         ("location", location);
         ("won", won);
         ("point_diff", point_diff);
         ("status", status)].

(** Field [k] of a raw record, or [dflt] when it is missing: the value of
    [game.get(k, dflt)]. *)
Definition raw_field (d : list (string * pyval)) (k : string) (dflt : pyval) : pyval :=
  default dflt (dict_lookup k d).

(** [normalised game r]: the raw record [game] is one that [process_game]
    accepts and [r] is its normalised record, by the side the Lakers play
    on. *)
Inductive normalised : pyval → pyval → Prop :=
| normalised_home d home_team visitor_team m n :
    raw_field d "home_team" (PDict []) = PDict home_team →
    py_eq (raw_field home_team "id" PNone) (PInt Nba.LAKERS_TEAM_ID) = true →
    raw_field d "visitor_team" (PDict []) = PDict visitor_team →
    py_num (raw_field d "home_team_score" (PInt 0)) = Some m →
    py_num (raw_field d "visitor_team_score" (PInt 0)) = Some n →
    normalised (PDict d)
      (game_record (raw_field d "date" (PStr ""))
         (raw_field d "home_team_score" (PInt 0))
         (raw_field d "visitor_team_score" (PInt 0))
         (raw_field visitor_team "full_name" (PStr "Unknown"))
         (PStr "Home") (PBool (n <? m)) (PInt (m - n))
         (raw_field d "status" (PStr "")))
| normalised_away d home_team m n :
    raw_field d "home_team" (PDict []) = PDict home_team →
    py_eq (raw_field home_team "id" PNone) (PInt Nba.LAKERS_TEAM_ID) = false →
    py_num (raw_field d "visitor_team_score" (PInt 0)) = Some m →
    py_num (raw_field d "home_team_score" (PInt 0)) = Some n →
    normalised (PDict d)
      (game_record (raw_field d "date" (PStr ""))
         (raw_field d "visitor_team_score" (PInt 0))
         (raw_field d "home_team_score" (PInt 0))
         (raw_field home_team "full_name" (PStr "Unknown"))
         (PStr "Away") (PBool (n <? m)) (PInt (m - n))
         (raw_field d "status" (PStr ""))).


(** The raw record [g] names its two teams and gives their scores. *)
Definition raw_game_has (g : list (string * pyval))
    (home_team visitor_team home_score visitor_score : pyval) : Prop :=
  dict_lookup "home_team" g = Some home_team ∧
  dict_lookup "visitor_team" g = Some visitor_team ∧
  dict_lookup "home_team_score" g = Some home_score ∧
  dict_lookup "visitor_team_score" g = Some visitor_score.

(** Records whose date is a string, and their order by date: the order
    of Python strings, by code point. *)
Definition str_dated (r : pyval) : Prop :=
  ∃ s, record_field r "date" = Some (PStr s).


Definition date_le (r1 r2 : pyval) : Prop :=
  ∃ s1 s2,
    record_field r1 "date" = Some (PStr s1) ∧
    record_field r2 "date" = Some (PStr s2) ∧
    String.leb s1 s2 = true.

(** The same on the pairs (key, item) that [list_sort] sorts. *)
Definition str_key (p : pyval * pyval) : Prop :=
  ∃ s, p.1 = PStr s.

Definition key_le (p q : pyval * pyval) : Prop :=
  ∃ s t, p.1 = PStr s ∧ q.1 = PStr t ∧ String.leb s t = true.

(** The pair (key, item) carries the date of its item. *)
Definition dated (p : pyval * pyval) : Prop :=
  ∃ s, p.1 = PStr s ∧ record_field p.2 "date" = Some (PStr s).

(** The sort key of [get_lakers_games]: [lambda x: x["date"]]. *)
Definition date_key (x : pyval) : result pyval := py_getitem x "date".

(** *** Dates written year, month, day *)

(** The decimal digit [n] as a character. *)
Definition digit (n : nat) : Ascii.ascii := Ascii.ascii_of_nat (48 + n).

(** The last [width] decimal digits of [n], most significant first. *)
Fixpoint digits (width n : nat) : string :=
  match width with
  | O => ""
  | S width' => String (digit ((n / 10 ^ width') `mod` 10)%nat) (digits width' n)
  end.

(** A date as the API writes it, "2024-03-01". *)
Definition iso_date (year month day : nat) : string :=
  digits 4 year +:+ "-" +:+ digits 2 month +:+ "-" +:+ digits 2 day.

(** The day as one number, 20240301: the order of days in time. *)
Definition day_number (year month day : nat) : nat :=
  (year * (100 * 100) + month * 100 + day)%nat.

(** *** Raw records with missing fields *)

Definition is_dict (v : pyval) : bool :=
  match v with PDict _ => true | _ => false end.

Definition is_number (v : pyval) : bool :=
  match py_num v with Some _ => true | None => false end.

Definition is_str (v : pyval) : bool :=
  match v with PStr _ => true | _ => false end.

(** Field [k] of [d] is missing or has the type [ty]. *)
Definition opt_field (d : list (string * pyval)) (k : string) (ty : pyval → bool) : bool :=
  match dict_lookup k d with
  | Some v => ty v
  | None => true
  end.

(** A raw game record of the API in which any field may be missing: the
    fields that are there have the type the API gives them. *)
Definition partial_game (game : pyval) : bool :=
  match game with
  | PDict d =>
      opt_field d "home_team" is_dict && opt_field d "visitor_team" is_dict &&
      opt_field d "home_team_score" is_number &&
      opt_field d "visitor_team_score" is_number &&
      opt_field d "date" is_str
  | _ => false
  end.

(** Member [k] of the team stored under [side] in the raw record. *)
Definition team_member (game : pyval) (side k : string) : option pyval :=
  match record_field game side with
  | Some team => record_field team k
  | None => None
  end.

(** The defaults of [process_game], read off a raw record [game] and its
    normalised record [r]: a missing score is 0 on the side it belongs to,
    a missing name of the opponent is "Unknown", a missing status or date
    is the empty string. *)
Definition defaults_applied (game r : pyval) : Prop :=
  (record_field game "date" = None → record_field r "date" = Some (PStr "")) ∧
  (record_field game "status" = None → record_field r "status" = Some (PStr "")) ∧
  (record_field r "location" = Some (PStr "Home") →
     (record_field game "home_team_score" = None →
        record_field r "lakers_score" = Some (PInt 0)) ∧
     (record_field game "visitor_team_score" = None →
        record_field r "opponent_score" = Some (PInt 0)) ∧
     (team_member game "visitor_team" "full_name" = None →
        record_field r "opponent" = Some (PStr "Unknown"))) ∧
  (record_field r "location" = Some (PStr "Away") →
     (record_field game "visitor_team_score" = None →
        record_field r "lakers_score" = Some (PInt 0)) ∧
     (record_field game "home_team_score" = None →
        record_field r "opponent_score" = Some (PInt 0)) ∧
     (team_member game "home_team" "full_name" = None →
        record_field r "opponent" = Some (PStr "Unknown"))) ∧
  (record_field r "location" = Some (PStr "Home") ∨
   record_field r "location" = Some (PStr "Away")).

End Props.

(** ** Sample data: responses of the API and states of the process *)

Module Sample.

Definition boot : world := World ∅ 0 [].

Definition lakers : list (string * pyval) :=
  [("id", PInt 14); ("abbreviation", PStr "LAL"); ("city", PStr "Los Angeles");
   ("full_name", PStr "Los Angeles Lakers"); ("name", PStr "Lakers")].

Definition celtics : list (string * pyval) :=
  [("id", PInt 2); ("abbreviation", PStr "BOS"); ("city", PStr "Boston");
   ("full_name", PStr "Boston Celtics"); ("name", PStr "Celtics")].

Definition raw_game (date : string) (home_team : list (string * pyval)) (home_score : Z)
    (visitor_team : list (string * pyval)) (visitor_score : Z) : list (string * pyval) :=
  [("date", PStr date);
   ("home_team", PDict home_team);
   ("home_team_score", PInt home_score);
   ("status", PStr "Final");
   ("visitor_team", PDict visitor_team);
   ("visitor_team_score", PInt visitor_score)].

Definition home_game : list (string * pyval) := raw_game "2024-01-10" lakers 100 celtics 90.
Definition away_game : list (string * pyval) := raw_game "2024-01-10" celtics 90 lakers 100.

(** Three games in the order the API sent them, and their normalised
    records in the order of their dates. *)
Definition three_games : list pyval :=
  [PDict (raw_game "2024-03-01" lakers 120 celtics 115);
   PDict (raw_game "2024-01-10" celtics 101 lakers 99);
   PDict (raw_game "2024-02-15" lakers 110 celtics 110)].

Definition three_records : list pyval :=
  [Props.game_record (PStr "2024-01-10") (PInt 99) (PInt 101) (PStr "Boston Celtics")
     (PStr "Away") (PBool false) (PInt (-2)) (PStr "Final");
   Props.game_record (PStr "2024-02-15") (PInt 110) (PInt 110) (PStr "Boston Celtics")
     (PStr "Home") (PBool false) (PInt 0) (PStr "Final");
   Props.game_record (PStr "2024-03-01") (PInt 120) (PInt 115) (PStr "Boston Celtics")
     (PStr "Home") (PBool true) (PInt 5) (PStr "Final")].

(** Two records with fields missing: one with nothing but the home team,
    one with nothing at all. *)
Definition sparse_games : list pyval :=
  [PDict [("home_team", PDict [("id", PInt 14)])]; PDict []].

Definition sparse_records : list pyval :=
  [Props.game_record (PStr "") (PInt 0) (PInt 0) (PStr "Unknown")
     (PStr "Home") (PBool false) (PInt 0) (PStr "");
   Props.game_record (PStr "") (PInt 0) (PInt 0) (PStr "Unknown")
     (PStr "Away") (PBool false) (PInt 0) (PStr "")].

Definition games_body (games : pyval) : pyval := PDict [("data", games)].

Definition team_body : pyval := PDict [("data", PDict lakers)].

Definition lakers_tuple : pyval :=
  PTuple [PStr "Lakers"; PStr "Los Angeles"; PStr "LAL"].

(** Environments: the API answers every request with the same response, or
    cannot be reached; the clock shows [t] when the call is over. *)
Definition answers (status : Z) (body : option pyval) (t : Z) : request → reply :=
  λ _, Reply (Ok (Response status body)) t.

Definition unreachable (t : Z) : request → reply :=
  λ _, Reply (Raise RequestException) t.

End Sample.

(** ** Vocabulary of the further properties *)

Module Outcome.
Import Props.

(** What a cached query makes of the body of a 200 response: the team as a
    tuple of its three members, or the list under "data". *)
Definition decoded (q : query) (body : pyval) : result pyval :=
  match q with
  | TeamInfo =>
      data ← py_getitem body "data";
      team_name ← py_getitem data "name";
      team_city ← py_getitem data "city";
      team_abbreviation ← py_getitem data "abbreviation";
      mret (PTuple [team_name; team_city; team_abbreviation])
  | TeamGames _ _ _ => py_get body "data" (PList [])
  end.

(** The value a cached query obtains from the answer of the API, or the
    exception that ends its [try] block: a network error, a status other
    than 200, a body that is not JSON or does not decode. *)
Definition fetch_result (q : query) (r : reply) : result pyval :=
  match rep_outcome r with
  | Raise e => Raise e
  | Ok response =>
      if negb (status_code response =? 200) then Raise RequestException
      else
        match json_body response with
        | None => Raise ValueError
        | Some body => decoded q body
        end
  end.

(** The value the first lines of a cached query return at once, if any:
    that of an entry that is fresh and not [None]. *)
Definition fresh_value (q : query) (w : world) : option pyval :=
  match cache w !! key_of q with
  | Some (v, ts) =>
      if py_is_not_none v && (clock w - ts <? Main.CACHE_DURATION) then Some v else None
  | None => None
  end.

(** The value the fallback lines of a cached query return. *)
Definition fallback_value (q : query) (w : world) : pyval :=
  match cache w !! key_of q with
  | Some (v, _) => if py_truthy v then v else no_data q
  | None => no_data q
  end.

(** The state after the one request of query [q], with cache [c]. *)
Definition requested (up : request → reply) (q : query) (w : world)
    (c : gmap string (pyval * Z)) : world :=
  World c (rep_clock (up (request_of q))) (http_log w ++ [request_of q]).

(** The states of a running process: it starts with an empty cache, time
    passes, and the cached queries and [get_lakers_games] are called
    against whatever the API answers. *)
Inductive reachable : world → Prop :=
| reachable_boot t : reachable (World ∅ t [])
| reachable_tick t w : reachable w → reachable (at_time t w)
| reachable_query up q w : reachable w → reachable (run up q w).2
| reachable_lakers up season per_page w :
    reachable w → reachable (Nba.get_lakers_games up season per_page w).2.

(** A tuple of three items. *)
Definition is_triple (v : pyval) : bool :=
  match v with
  | PTuple [_; _; _] => true
  | _ => false
  end.

(** The record [r] is dated [s]. *)
Definition dated_on (s : string) (r : pyval) : bool :=
  match record_field r "date" with
  | Some (PStr t) => String.eqb s t
  | _ => false
  end.

(** The same on the pairs (key, item) that [list_sort] sorts. *)
Definition keyed_on (s : string) (p : pyval * pyval) : bool :=
  match p.1 with
  | PStr t => String.eqb s t
  | _ => false
  end.

End Outcome.

(** ** More of Python: loops, sums and the string method of the pages *)

Module PyMore.
Import Stdlib.Strings.Ascii.

(** [for x in l: body], where the body updates the variables [s] of the
    enclosing function; the first exception ends the loop. *)
Fixpoint for_loop {A S : Type} (body : A → S → result S) (l : list A) (s : S) : result S :=
  match l with
  | [] => mret s
  | x :: l' => s' ← body x s; for_loop body l' s'
  end.

(** [[x for x in l if test(x)]]. *)
Fixpoint filter_result {A : Type} (test : A → result bool) (l : list A) : result (list A) :=
  match l with
  | [] => mret []
  | x :: l' =>
      b ← test x;
      r ← filter_result test l';
      mret (if b : bool then x :: r else r)
  end.

(** [sum(1 for x in l if test(x))]. *)
Fixpoint count_if {A : Type} (test : A → result bool) (l : list A) : result Z :=
  match l with
  | [] => mret 0
  | x :: l' =>
      b ← test x;
      n ← count_if test l';
      mret (if b : bool then 1 + n else n)
  end.

(** [sum(l)]: the items are added to the integer 0 one after the other,
    so each of them has to be a number. *)
Fixpoint py_sum_from (acc : Z) (l : list pyval) : result Z :=
  match l with
  | [] => mret acc
  | x :: l' =>
      match py_num x with
      | Some n => py_sum_from (acc + n) l'
      | None => Raise TypeError
      end
  end.

Definition py_sum (l : list pyval) : result Z := py_sum_from 0 l.

(** [sum(l) / len(l) if l else 0]. The quotient is a float: it is kept as
    its two operands, the division itself is not part of the model. *)
Inductive average : Type :=
| Quotient (total count : Z)
| Zero.

Definition py_average (l : list pyval) : result average :=
  match l with
  | [] => mret Zero
  | _ :: _ => total ← py_sum l; mret (Quotient total (Z.of_nat (length l)))
  end.

(** [a, b, c = v]. *)
Definition py_unpack3 (v : pyval) : result (pyval * pyval * pyval) :=
  items ← py_iter v;
  match items with
  | [a; b; c] => mret (a, b, c)
  | _ => Raise ValueError
  end.

(** [s.replace(old, new)] for an [old] of one ASCII character. *)
Fixpoint str_replace_char (old : Ascii.ascii) (new : string) (s : string) : string :=
  match s with
  | EmptyString => EmptyString
  | String c s' =>
      if Ascii.eqb c old then new +:+ str_replace_char old new s'
      else String c (str_replace_char old new s')
  end.

(** [v.replace("Z", "+00:00")]: only a string has the method. *)
Definition py_replace_Z (v : pyval) : result string :=
  match v with
  | PStr s => Ok (str_replace_char "Z"%char "+00:00" s)
  | _ => Raise AttributeError
  end.

End PyMore.
Export PyMore.

(** ** main.py: the [/team] page and the data of the legacy chart

    [datetime.fromisoformat] is taken as it comes: a function from strings
    to dates that may raise. A page is described by the values its handler
    computes and hands to plotly and to the text of the page; the HTML
    itself and the figures of plotly are not part of the model. *)

Module Pages.

Section Pages.

Variable datetime : Type.
Variable fromisoformat : string → result datetime.
Variable upstream : request → reply.

(** [datetime.fromisoformat(v)]: the argument has to be a string. *)
Definition py_fromisoformat (v : pyval) : result datetime :=
  match v with
  | PStr s => fromisoformat s
  | _ => Raise TypeError
  end.

(** The six lists that the loop of [get_team_info] fills. *)
Record chart_lists : Type := ChartLists {
  dates : list datetime;
  lakers_scores : list pyval;
  opponent_scores : list pyval;
  opponents : list pyval;
  point_diffs : list pyval;
  locations : list pyval
}.

Record team_stats : Type := TeamStats {
  total_wins : Z;
  total_losses : Z;
  avg_lakers : average;
  avg_opponent : average
}.

(** What [get_team_info] returns: the error page, or the page of the team
    with either the message that there is no game data or the charts and
    the four statistics. *)
Inductive team_page : Type :=
| ErrorPage
| TeamPage (team_name team_city team_abbreviation : pyval)
    (content : option (chart_lists * team_stats)).

(** The body of the loop [for g in games] of [get_team_info]. *)
Definition chart_row (g : pyval) (acc : chart_lists) : result chart_lists :=
  raw_date ← py_getitem g "date";
  date_str ← py_replace_Z raw_date;
  date ← fromisoformat date_str;
  home_team ← py_getitem g "home_team";
  home_id ← py_getitem home_team "id";
  '(lakers_score, opponent_score, opponent_name, location) ←
    (if py_eq home_id (PInt Main.FIXED_TEAM_ID) then
       lakers_score ← py_getitem g "home_team_score";
       opponent_score ← py_getitem g "visitor_team_score";
       visitor_team ← py_getitem g "visitor_team";
       opponent_name ← py_getitem visitor_team "abbreviation";
       mret (lakers_score, opponent_score, opponent_name, PStr "Home")
     else
       lakers_score ← py_getitem g "visitor_team_score";
       opponent_score ← py_getitem g "home_team_score";
       home_team' ← py_getitem g "home_team";
       opponent_name ← py_getitem home_team' "abbreviation";
       mret (lakers_score, opponent_score, opponent_name, PStr "Away"));
  point_diff ← py_sub lakers_score opponent_score;
  mret (ChartLists (dates acc ++ [date])
          (lakers_scores acc ++ [lakers_score])
          (opponent_scores acc ++ [opponent_score])
          (opponents acc ++ [opponent_name])
          (point_diffs acc ++ [point_diff])
          (locations acc ++ [location])).

(** The part of [get_team_info] between the call of [get_team_games] and
    the figures: nothing for the message that there is no game data, or
    the six lists and the statistics. *)
Definition page_content (games : pyval) : result (option (chart_lists * team_stats)) :=
  if negb (py_truthy games) then mret None
  else
    items ← py_iter games;
    lists ← for_loop chart_row items (ChartLists [] [] [] [] [] []);
    total_wins ← count_if (λ diff, py_gt diff (PInt 0)) (point_diffs lists);
    let total_losses := Z.of_nat (length (point_diffs lists)) - total_wins in
    avg_lakers ← py_average (lakers_scores lists);
    avg_opponent ← py_average (opponent_scores lists);
    mret (Some (lists, TeamStats total_wins total_losses avg_lakers avg_opponent)).

Definition get_team_info : M team_page :=
  result ← Main.get_fixed_team upstream;
  if negb (py_is_not_none result) then mret ErrorPage
  else
    '(team_name, team_city, team_abbreviation) ← lift (py_unpack3 result);
    games ← Main.get_team_games upstream Main.FIXED_TEAM_ID 2024 25;
    content ← lift (page_content games);
    mret (TeamPage team_name team_city team_abbreviation content).

(** The four lists of the legacy chart, filled when the module is loaded. *)
Record sample_lists : Type := SampleLists {
  sample_dates : list datetime;
  sample_lakers_scores : list pyval;
  sample_opponent_scores : list pyval;
  sample_opponents : list pyval
}.

Definition LAL_TEAM_ID : Z := 14.

(** The body of the loop [for g in games_sample]; [dates.append(date)]
    stands in the [else] branch. *)
Definition sample_row (g : pyval) (acc : sample_lists) : result sample_lists :=
  raw_date ← py_getitem g "date";
  date ← py_fromisoformat raw_date;
  home_team ← py_getitem g "home_team";
  home_id ← py_getitem home_team "id";
  if py_eq home_id (PInt LAL_TEAM_ID) then
    lakers_score ← py_getitem g "home_team_score";
    opponent_score ← py_getitem g "visitor_team_score";
    visitor_team ← py_getitem g "visitor_team";
    opponent_name ← py_getitem visitor_team "abbreviation";
    mret (SampleLists (sample_dates acc)
            (sample_lakers_scores acc ++ [lakers_score])
            (sample_opponent_scores acc ++ [opponent_score])
            (sample_opponents acc ++ [opponent_name]))
  else
    lakers_score ← py_getitem g "visitor_team_score";
    opponent_score ← py_getitem g "home_team_score";
    home_team' ← py_getitem g "home_team";
    opponent_name ← py_getitem home_team' "abbreviation";
    mret (SampleLists (sample_dates acc ++ [date])
            (sample_lakers_scores acc ++ [lakers_score])
            (sample_opponent_scores acc ++ [opponent_score])
            (sample_opponents acc ++ [opponent_name])).

(** The loop over [games_sample], and the statements of the module from
    [games_sample = ...] to the figure of the legacy chart. *)
Definition sample_lists_of (games_sample : pyval) : result sample_lists :=
  items ← py_iter games_sample;
  for_loop sample_row items (SampleLists [] [] [] []).

Definition legacy_chart_lists : M sample_lists :=
  games_sample ← Main.get_team_games upstream Main.FIXED_TEAM_ID 2024 5;
  lift (sample_lists_of games_sample).

End Pages.

Arguments ChartLists {datetime} _ _ _ _ _ _.
Arguments dates {datetime} _.
Arguments lakers_scores {datetime} _.
Arguments opponent_scores {datetime} _.
Arguments opponents {datetime} _.
Arguments point_diffs {datetime} _.
Arguments locations {datetime} _.
Arguments ErrorPage {datetime}.
Arguments TeamPage {datetime} _ _ _ _.
Arguments SampleLists {datetime} _ _ _ _.
Arguments sample_dates {datetime} _.
Arguments sample_lakers_scores {datetime} _.
Arguments sample_opponent_scores {datetime} _.
Arguments sample_opponents {datetime} _.

End Pages.

(** ** dashboard.py: the data of the Dash application

    The layout is described by the values [create_dash_app] computes and
    hands to plotly and to the components of Dash. *)

Module Dash.

Record dash_lists : Type := DashLists {
  dates : list pyval;
  lakers_scores : list pyval;
  opponent_scores : list pyval;
  opponents : list pyval;
  point_diffs : list pyval;
  locations : list pyval;
  wins : list pyval
}.

(** [colors] holds [true] for the purple of a win. *)
Record dash_stats : Type := DashStats {
  colors : list bool;
  home_wins : Z;
  home_losses : Z;
  away_wins : Z;
  away_losses : Z;
  total_wins : Z;
  total_losses : Z;
  avg_lakers_score : average;
  avg_opponent_score : average
}.

Inductive dash_layout : Type :=
| NoGameData
| Dashboard (lists : dash_lists) (stats : dash_stats).

(** [g["location"] == name]. *)
Definition located (name : string) (g : pyval) : result bool :=
  location ← py_getitem g "location";
  mret (py_eq location (PStr name)).

(** [g["won"]] as a condition. *)
Definition won (g : pyval) : result bool :=
  w ← py_getitem g "won";
  mret (py_truthy w).

(** The part of [create_dash_app] that follows the call of
    [get_lakers_games]. *)
Definition layout_of (games : pyval) : result dash_layout :=
  if negb (py_truthy games) then mret NoGameData
  else
    items ← py_iter games;
    dates ← mapM (λ g, py_getitem g "date") items;
    lakers_scores ← mapM (λ g, py_getitem g "lakers_score") items;
    opponent_scores ← mapM (λ g, py_getitem g "opponent_score") items;
    opponents ← mapM (λ g, py_getitem g "opponent") items;
    point_diffs ← mapM (λ g, py_getitem g "point_diff") items;
    locations ← mapM (λ g, py_getitem g "location") items;
    wins ← mapM (λ g, py_getitem g "won") items;
    colors ← mapM (λ diff, py_gt diff (PInt 0)) point_diffs;
    home_games ← filter_result (located "Home") items;
    away_games ← filter_result (located "Away") items;
    home_wins ← count_if won home_games;
    let home_losses := Z.of_nat (length home_games) - home_wins in
    away_wins ← count_if won away_games;
    let away_losses := Z.of_nat (length away_games) - away_wins in
    total_wins ← count_if won items;
    let total_losses := Z.of_nat (length items) - total_wins in
    avg_lakers_score ← py_average lakers_scores;
    avg_opponent_score ← py_average opponent_scores;
    mret (Dashboard
            (DashLists dates lakers_scores opponent_scores opponents point_diffs
               locations wins)
            (DashStats colors home_wins home_losses away_wins away_losses
               total_wins total_losses avg_lakers_score avg_opponent_score)).

Section Dash.

Variable upstream : request → reply.

Definition create_dash_app : M dash_layout :=
  games ← Nba.get_lakers_games upstream 2023 50;
  lift (layout_of games).

End Dash.

End Dash.

(** ** Vocabulary of the properties of the pages *)

Module Tally.
Import Props.

(** Field [k] of a record that has it. *)
Definition field (k : string) (r : pyval) : pyval :=
  default PNone (record_field r k).

(** The tests of [create_dash_app] on a record: played at home, played
    away, won. *)
Definition at_home (r : pyval) : bool := py_eq (field "location" r) (PStr "Home").
Definition away (r : pyval) : bool := py_eq (field "location" r) (PStr "Away").
Definition is_win (r : pyval) : bool := py_truthy (field "won" r).

(** The number of items of [l] that pass [test]. *)
Definition count {A : Type} (test : A → bool) (l : list A) : Z :=
  Z.of_nat (length (List.filter test l)).

(** A record as [process_game] writes it: the eight keys in their order,
    one of the two locations, [won] and [point_diff] computed from the two
    scores. *)
Definition processed_record (r : pyval) : Prop :=
  ∃ date lakers_score opponent_score opponent (home : bool) (m n : Z) status,
    r = game_record date lakers_score opponent_score opponent
          (PStr (if home then "Home" else "Away")) (PBool (n <? m)) (PInt (m - n)) status ∧
    py_num lakers_score = Some m ∧ py_num opponent_score = Some n.

(** The test of the legacy loop on a raw record: the home team is the
    Lakers. *)
Definition lakers_at_home (g : pyval) : bool :=
  match home_team ← py_getitem g "home_team"; py_getitem home_team "id" with
  | Ok home_id => py_eq home_id (PInt Pages.LAL_TEAM_ID)
  | Raise _ => false
  end.




End Tally.

(** ** Sample data of the pages *)

Module PageSample.

(** The API answers with the three sample games. *)
Definition three_games_api (t : Z) : request → reply :=
  Sample.answers 200 (Some (Sample.games_body (PList Sample.three_games))) t.

(** What the dashboard shows of the three sample games. *)
Definition three_lists : Dash.dash_lists :=
  Dash.DashLists
    [PStr "2024-01-10"; PStr "2024-02-15"; PStr "2024-03-01"]
    [PInt 99; PInt 110; PInt 120]
    [PInt 101; PInt 110; PInt 115]
    [PStr "Boston Celtics"; PStr "Boston Celtics"; PStr "Boston Celtics"]
    [PInt (-2); PInt 0; PInt 5]
    [PStr "Away"; PStr "Home"; PStr "Home"]
    [PBool false; PBool false; PBool true].

Definition three_stats : Dash.dash_stats :=
  Dash.DashStats [false; false; true] 1 1 0 1 1 2 (Quotient 329 3) (Quotient 326 3).

(** The API answers the request for the team with the Lakers and every
    request for games with [games]. *)
Definition api (games : list pyval) (t : Z) : request → reply :=
  λ req,
    Reply (Ok (Response 200
                 (Some (match req_params req with
                        | [] => Sample.team_body
                        | _ :: _ => Sample.games_body (PList games)
                        end)))) t.

(** A [fromisoformat] that takes every string for a date. *)
Definition any_date (s : string) : result string := Ok s.

End PageSample.

(** * Lemmas on the embedding *)

(** ** The cached queries *)

Module CacheFacts.
Import Main Props.

(** The keys the two queries build, on the calls of the [/team] page. *)
Example key_of_team : key_of TeamInfo = "team_14"%string.
Proof. reflexivity. Qed.

Example key_of_games : key_of (TeamGames 14 2024 25) = "games_14_2024_25"%string.
Proof. reflexivity. Qed.

Lemma get_cached_run (key : string) (allow_stale : bool) (w : world) :
  get_cached key allow_stale w =
  (Ok (match cache w !! key with
       | Some (data, timestamp) =>
           if clock w - timestamp <? CACHE_DURATION then (data, true)
           else if allow_stale then (data, false)
           else (PNone, false)
       | None => (PNone, false)
       end), w).
Proof.
  unfold get_cached, mbind, M_bind, read_cache, datetime_now, mret, M_ret.
  destruct (cache w !! key) as [[data timestamp]|]; [|reflexivity].
  simpl.
  destruct (clock w - timestamp <? CACHE_DURATION); [reflexivity|].
  destruct allow_stale; reflexivity.
Qed.

Ltac open_query q :=
  destruct q as [|team_id season per_page];
  unfold run, spec_run, get_fixed_team, get_team_games,
    Spec.get_team_info, Spec.get_team_games, Spec.fetchWithFallback,
    Spec.team_info_upstream, Spec.team_games_upstream;
  cbv zeta;
  [ change ("team_" +:+ pretty FIXED_TEAM_ID) with (key_of TeamInfo) in *;
    change (Request (BASE_URL +:+ "/teams/" +:+ pretty FIXED_TEAM_ID) [] (Some 10))
      with (request_of TeamInfo) in *;
    generalize dependent (key_of TeamInfo); generalize dependent (request_of TeamInfo)
  | change ("games_" +:+ pretty team_id +:+ "_" +:+ pretty season +:+ "_" +:+ pretty per_page)
      with (key_of (TeamGames team_id season per_page)) in *;
    change (Request (BASE_URL +:+ "/games")
              [("team_ids[]", team_id); ("seasons[]", season); ("per_page", per_page)]
              (Some 10))
      with (request_of (TeamGames team_id season per_page)) in *;
    generalize dependent (key_of (TeamGames team_id season per_page));
    generalize dependent (request_of (TeamGames team_id season per_page)) ];
  intros req key.

Ltac run_m :=
  repeat first
    [ rewrite get_cached_run
    | progress unfold mbind, M_bind, mret, M_ret, try_except, requests_get, lift,
        raise, response_json, set_cache, write_cache, datetime_now, read_cache,
        Spec.get, Spec.set, Spec.getAllowingStale
    | progress simpl ].

Ltac crunch Hk :=
  repeat first
    [ progress (run_m; rewrite ?Hk; simpl)
    | match goal with
      | |- context [json_body ?r] => destruct (json_body r); simpl
      | |- context [py_getitem ?a ?k] => destruct (py_getitem a k); simpl
      | |- context [py_get ?a ?k ?d] => destruct (py_get a k d); simpl
      | |- context [?a - ?b <? CACHE_DURATION] =>
          destruct (a - b <? CACHE_DURATION); simpl
      | |- context [py_truthy ?v] => destruct (py_truthy v) eqn:?; simpl in *
      end ].

Lemma fresh_hit up q w v ts :
  cache w !! key_of q = Some (v, ts) →
  clock w - ts < CACHE_DURATION →
  v ≠ PNone →
  run up q w = (Ok v, w).
Proof.
  open_query q; intros Hk Hf Hv; run_m; rewrite Hk;
    apply Z.ltb_lt in Hf; rewrite Hf; destruct v; try congruence; reflexivity.
Qed.


Lemma miss_failure up q w :
  upstream_fails (up (request_of q)) →
  (∀ v ts, cache w !! key_of q = Some (v, ts) →
           v = PNone ∨ CACHE_DURATION ≤ clock w - ts) →
  run up q w =
  (Ok (match cache w !! key_of q with
       | Some (v, _) => if py_truthy v then v else no_data q
       | None => no_data q
       end),
   World (cache w) (rep_clock (up (request_of q))) (http_log w ++ [request_of q])).
Proof.
  unfold upstream_fails.
  open_query q; intros Hfail Hmiss; run_m.
  all: destruct (cache w !! key) as [[v ts]|] eqn:Hk; simpl.
  all: try (destruct (Hmiss v ts eq_refl) as [->|Hstale];
            [ destruct (clock w - ts <? CACHE_DURATION); simpl
            | apply Z.ltb_ge in Hstale; rewrite Hstale, andb_false_r ]).
  all: destruct (rep_outcome (up req)) as [resp|e]; simpl in *.
  all: try (apply Z.eqb_neq in Hfail; rewrite Hfail; simpl).
  all: run_m; rewrite ?Hk; simpl.
  all: repeat match goal with
         | |- context [?a - ?b <? CACHE_DURATION] =>
             destruct (a - b <? CACHE_DURATION); simpl
         end.
  all: try reflexivity.
  all: destruct (py_truthy v); reflexivity.
Qed.

Lemma pyval_none_or_not (v : pyval) : v = PNone ∨ v ≠ PNone.
Proof. destruct v; auto. Qed.

Lemma servable_spec q v :
  servable q v = true →
  py_is_not_none v = true ∧ (if py_truthy v then v else no_data q) = v.
Proof.
  unfold servable. destruct (py_truthy v) eqn:Ht; simpl.
  - intros _. split; [|reflexivity]. destruct v; [discriminate|reflexivity..].
  - destruct q; [discriminate|]. destruct v as [| | | |[|? ?]| |]; try discriminate.
    by intros _.
Qed.

Lemma entry_servable_spec q w v ts :
  entry_servable q w = true → cache w !! key_of q = Some (v, ts) → servable q v = true.
Proof. unfold entry_servable. intros H Hk. by rewrite Hk in H. Qed.

Lemma run_refines_spec up q w :
  entry_servable q w = true → run up q w = spec_run up q w.
Proof.
  intros Hserv.
  assert (Hs : ∀ v ts, cache w !! key_of q = Some (v, ts) →
            py_is_not_none v = true ∧ (if py_truthy v then v else no_data q) = v).
  { intros v ts Hk. eapply servable_spec, entry_servable_spec; eassumption. }
  clear Hserv. revert Hs.
  open_query q; intros Hs; run_m; change Spec.TTL with CACHE_DURATION.
  all: destruct (cache w !! key) as [[v ts]|] eqn:Hk; simpl.
  all: try (destruct (Hs v ts eq_refl) as [Hnn Hv]; simpl in Hv;
            destruct (clock w - ts <? CACHE_DURATION); simpl;
            [rewrite Hnn; reflexivity|]).
  all: destruct (rep_outcome (up req)) as [resp|e]; simpl.
  all: try destruct (status_code resp =? 200); simpl.
  all: crunch Hk; congruence.
Qed.

End CacheFacts.

(** ** The order of strings *)


Module StrOrder.

Lemma ltb_leb (s t : string) : String.ltb s t = true → String.leb s t = true.
Proof. unfold String.ltb, String.leb. destruct (String.compare s t); done. Qed.

Lemma ltb_false_leb (s t : string) : String.ltb s t = false → String.leb t s = true.
Proof.
  unfold String.ltb, String.leb. rewrite (String.compare_antisym s t).
  destruct (String.compare t s); done.
Qed.

Lemma compare_lt_trans (a b c : string) :
  String.compare a b = Lt → String.compare b c = Lt → String.compare a c = Lt.
Proof.
  intros Hab Hbc.
  apply OrderedTypeEx.String_as_OT.cmp_lt.
  eapply OrderedTypeEx.String_as_OT.lt_trans;
    apply OrderedTypeEx.String_as_OT.cmp_lt; eassumption.
Qed.

Lemma leb_trans (a b c : string) :
  String.leb a b = true → String.leb b c = true → String.leb a c = true.
Proof.
  unfold String.leb.
  destruct (String.compare a b) eqn:Hab; [| |discriminate]; intros _;
    destruct (String.compare b c) eqn:Hbc; [| |discriminate| | |discriminate]; intros _.
  - apply String.compare_eq_iff in Hab as ->. by rewrite Hbc.
  - apply String.compare_eq_iff in Hab as ->. by rewrite Hbc.
  - apply String.compare_eq_iff in Hbc as <-. by rewrite Hab.
  - by rewrite (compare_lt_trans a b c).
Qed.

End StrOrder.

(** ** Normalisation and sorting *)

Module NbaFacts.
Import Nba Props.

(** *** Loops and sorting in the [result] monad *)

Lemma result_bind_Ok {A B : Type} (f : A → result B) (a : A) : Ok a ≫= f = f a.
Proof. reflexivity. Qed.

Lemma mapM_result_cons {A B : Type} (f : A → result B) (x : A) (l : list A) :
  mapM f (x :: l) =
  match f x with
  | Ok y => match mapM f l with Ok ys => Ok (y :: ys) | Raise e => Raise e end
  | Raise e => Raise e
  end.
Proof. reflexivity. Qed.

Lemma mapM_result_Forall2 {A B : Type} (f : A → result B) (l : list A) (r : list B) :
  mapM f l = Ok r → Forall2 (λ x y, f x = Ok y) l r.
Proof.
  revert r. induction l as [|x l IH]; intros r.
  - intros [= <-]. constructor.
  - rewrite mapM_result_cons.
    destruct (f x) as [y|e] eqn:Hx; [|discriminate].
    destruct (mapM f l) as [ys|e]; [|discriminate].
    intros [= <-]. constructor; [assumption|]. by apply IH.
Qed.

Lemma mapM_result_total {A B : Type} (f : A → result B) (l : list A) :
  Forall (λ x, ∃ y, f x = Ok y) l → ∃ r, mapM f l = Ok r.
Proof.
  induction 1 as [|x l [y Hy] _ [r IH]].
  - by eexists.
  - rewrite mapM_result_cons, Hy, IH. by eexists.
Qed.

Lemma sort_insert_perm kx l r : sort_insert kx l = Ok r → r ≡ₚ kx :: l.
Proof.
  revert r. induction l as [|ky l IH]; intros r; simpl.
  - by intros [= <-].
  - unfold mbind, result_bind, mret, result_ret.
    destruct (py_lt ky.1 kx.1) as [[]|]; [| |discriminate].
    + destruct (sort_insert kx l) as [r'|]; [|discriminate].
      intros [= <-]. rewrite (IH r' eq_refl). apply Permutation_swap.
    + by intros [= <-].
Qed.

Lemma sort_keyed_perm l r : sort_keyed l = Ok r → r ≡ₚ l.
Proof.
  revert r. induction l as [|kx l IH]; intros r; simpl.
  - by intros [= <-].
  - unfold mbind, result_bind.
    destruct (sort_keyed l) as [r'|]; [|discriminate].
    intros Hins. rewrite (sort_insert_perm _ _ _ Hins). by rewrite (IH r' eq_refl).
Qed.

Lemma list_sort_perm key l r : list_sort key l = Ok r → r ≡ₚ l.
Proof.
  unfold list_sort.
  destruct (mapM key l) as [keys|] eqn:Hkeys; [|discriminate].
  rewrite result_bind_Ok.
  destruct (sort_keyed (zip keys l)) as [sorted|] eqn:Hs; [|discriminate].
  intros [= <-]. rewrite (sort_keyed_perm _ _ Hs).
  rewrite snd_zip; [done|].
  apply mapM_result_Forall2, Forall2_length in Hkeys. lia.
Qed.


Lemma py_lt_str (s t : string) : py_lt (PStr s) (PStr t) = Ok (String.ltb s t).
Proof. reflexivity. Qed.

Lemma sort_insert_sorted kx l :
  str_key kx → Forall str_key l → StronglySorted key_le l →
  ∃ r, sort_insert kx l = Ok r ∧ StronglySorted key_le r.
Proof.
  intros [sx Hx] Hl Hs. induction l as [|ky l IH]; simpl.
  - eexists. split; [reflexivity|]. repeat constructor.
  - apply Forall_cons in Hl as [[sy Hy] Hl].
    apply StronglySorted_inv in Hs as [Hs Hky].
    rewrite Hx, Hy, py_lt_str. unfold mbind, result_bind, mret, result_ret.
    destruct (String.ltb sy sx) eqn:Hlt.
    + destruct (IH Hl Hs) as (r & Hr & Hsr). rewrite Hr.
      eexists. split; [reflexivity|]. constructor; [assumption|].
      rewrite (sort_insert_perm _ _ _ Hr). constructor; [|assumption].
      exists sy, sx. eauto using StrOrder.ltb_leb.
    + eexists. split; [reflexivity|].
      assert (Hxy : key_le kx ky).
      { exists sx, sy. eauto using StrOrder.ltb_false_leb. }
      constructor; [by constructor|]. constructor; [assumption|].
      eapply Forall_impl; [exact Hky|].
      intros kz (s1 & s2 & H1 & H2 & H12). 
      exists sx, s2. split_and!; [assumption..|].
      assert (s1 = sy) as -> by congruence.
      eauto using StrOrder.leb_trans, StrOrder.ltb_false_leb.
Qed.

Lemma sort_keyed_sorted l :
  Forall str_key l → ∃ r, sort_keyed l = Ok r ∧ StronglySorted key_le r.
Proof.
  induction 1 as [|kx l Hx Hl (r & Hr & Hs)]; simpl.
  - eexists. split; [reflexivity|]. constructor.
  - unfold mbind, result_bind. rewrite Hr.
    apply sort_insert_sorted; [assumption| |assumption].
    by rewrite (sort_keyed_perm _ _ Hr).
Qed.

Lemma date_key_str x s : record_field x "date" = Some (PStr s) → date_key x = Ok (PStr s).
Proof.
  unfold date_key, record_field, py_getitem. destruct x; try discriminate.
  by intros ->.
Qed.

Lemma mapM_date_key l :
  Forall str_dated l →
  ∃ keys, mapM date_key l = Ok keys ∧ length keys = length l ∧ Forall dated (zip keys l).
Proof.
  induction 1 as [|x l [s Hx] _ (keys & Hkeys & Hlen & Hd)].
  - exists []. by repeat split.
  - exists (PStr s :: keys). rewrite mapM_result_cons, (date_key_str _ _ Hx), Hkeys.
    split_and!; [done|simpl; lia|]. constructor; [|assumption]. by exists s.
Qed.

Lemma dated_key_le p q : dated p → dated q → key_le p q → date_le p.2 q.2.
Proof.
  intros (s & Hs & Hps) (t & Ht & Hqt) (s' & t' & Hs' & Ht' & Hle).
  exists s, t. split_and!; [assumption..|]. congruence.
Qed.

Lemma list_sort_sorted l :
  Forall str_dated l →
  ∃ r, list_sort date_key l = Ok r ∧ StronglySorted date_le r.
Proof.
  intros Hl. destruct (mapM_date_key l Hl) as (keys & Hkeys & Hlen & Hd).
  destruct (sort_keyed_sorted (zip keys l)) as (sorted & Hsorted & Hs).
  { eapply Forall_impl; [exact Hd|]. intros p (s & ? & _). by exists s. }
  exists (sorted.*2). unfold list_sort.
  rewrite Hkeys, result_bind_Ok, Hsorted. split; [reflexivity|].
  assert (Hd' : Forall dated sorted) by by rewrite (sort_keyed_perm _ _ Hsorted).
  clear Hsorted. induction Hs as [|p sorted Hs IH Hp]; simpl; [constructor|].
  apply Forall_cons in Hd' as [Hdp Hd'].
  constructor; [by apply IH|].
  apply Forall_fmap. rewrite Forall_forall in Hp, Hd' |- *.
  intros q Hq. apply dated_key_le; auto.
Qed.


(** *** [get_lakers_games] step by step *)

Lemma get_lakers_games_world up season per_page w :
  (get_lakers_games up season per_page w).2 =
  World (cache w) (rep_clock (up (lakers_request season per_page)))
    (http_log w ++ [lakers_request season per_page]).
Proof.
  unfold get_lakers_games. cbv zeta.
  change (Request _ _ None) with (lakers_request season per_page).
  generalize (lakers_request season per_page). intros req.
  unfold mbind at 1. unfold M_bind, requests_get.
  destruct (rep_outcome (up req)) as [resp|e]; [|reflexivity].
  destruct (negb (status_code resp =? 200)); [reflexivity|].
  unfold mbind, M_bind, response_json, lift, mret, M_ret, raise.
  destruct (json_body resp) as [body|]; [|reflexivity].
  destruct (py_get body "data" (PList [])) as [games|]; [|reflexivity].
  destruct (py_iter games) as [items|]; [|reflexivity].
  destruct (mapM process_game items) as [processed|]; [|reflexivity].
  destruct (list_sort _ processed); reflexivity.
Qed.

Lemma get_lakers_games_200 up season per_page w resp body games items processed sorted :
  rep_outcome (up (lakers_request season per_page)) = Ok resp →
  status_code resp = 200 →
  json_body resp = Some body →
  py_get body "data" (PList []) = Ok games →
  py_iter games = Ok items →
  mapM process_game items = Ok processed →
  list_sort date_key processed = Ok sorted →
  (get_lakers_games up season per_page w).1 = Ok (PList sorted).
Proof.
  intros Hresp Hst Hbody Hgames Hitems Hproc Hsort.
  unfold get_lakers_games. cbv zeta.
  change (Request _ _ None) with (lakers_request season per_page).
  unfold mbind at 1. unfold M_bind, requests_get. rewrite Hresp, Hst. simpl.
  unfold mbind, M_bind, response_json, lift, mret, M_ret.
  rewrite Hbody, Hgames, Hitems, Hproc.
  change (λ x, py_getitem x "date") with date_key. by rewrite Hsort.
Qed.

Lemma get_lakers_games_Ok up season per_page w v :
  (get_lakers_games up season per_page w).1 = Ok v →
  ∃ resp,
    rep_outcome (up (lakers_request season per_page)) = Ok resp ∧
    ((status_code resp ≠ 200 ∧ v = PList []) ∨
     (status_code resp = 200 ∧
      ∃ body games items processed sorted,
        json_body resp = Some body ∧
        py_get body "data" (PList []) = Ok games ∧
        py_iter games = Ok items ∧
        mapM process_game items = Ok processed ∧
        list_sort date_key processed = Ok sorted ∧
        v = PList sorted)).
Proof.
  unfold get_lakers_games. cbv zeta.
  change (Request _ _ None) with (lakers_request season per_page).
  generalize (lakers_request season per_page). intros req.
  unfold mbind at 1. unfold M_bind, requests_get.
  destruct (rep_outcome (up req)) as [resp|e]; [|intros H; simpl in H; discriminate H].
  intros Hrun. exists resp. split; [reflexivity|].
  destruct (status_code resp =? 200) eqn:Hst; simpl in Hrun.
  - right. apply Z.eqb_eq in Hst. split; [assumption|].
    unfold mbind, M_bind, response_json, lift, mret, M_ret, raise in Hrun.
    change (λ x, py_getitem x "date") with date_key in Hrun.
    destruct (json_body resp) as [body|] eqn:Hbody; [|discriminate].
    destruct (py_get body "data" (PList [])) as [games|] eqn:Hgames; [|discriminate].
    destruct (py_iter games) as [items|] eqn:Hitems; [|discriminate].
    destruct (mapM process_game items) as [processed|] eqn:Hproc; [|discriminate].
    destruct (list_sort date_key processed) as [sorted|] eqn:Hsort; [|discriminate].
    injection Hrun as <-. by exists body, games, items, processed, sorted.
  - left. apply Z.eqb_neq in Hst. split; [assumption|]. by injection Hrun as <-.
Qed.


(** *** [process_game] as a relation *)

Lemma py_get_dict d k dflt : py_get (PDict d) k dflt = Ok (raw_field d k dflt).
Proof. reflexivity. Qed.

Lemma py_richcmp_num op a b m n :
  py_num a = Some m → py_num b = Some n → py_richcmp op a b = Ok (cmp_int op m n).
Proof.
  destruct a; try discriminate; destruct b; try discriminate; simpl;
    by intros [= <-] [= <-].
Qed.

Lemma py_sub_Ok a b v :
  py_sub a b = Ok v → ∃ m n, py_num a = Some m ∧ py_num b = Some n ∧ v = PInt (m - n).
Proof.
  unfold py_sub. destruct (py_num a) as [m|]; [|discriminate].
  destruct (py_num b) as [n|]; [|discriminate]. intros [= <-]. eauto.
Qed.

Ltac step_result :=
  repeat first
    [ rewrite py_get_dict
    | rewrite result_bind_Ok
    | progress cbv beta iota zeta ].

Lemma process_game_normalised game r : process_game game = Ok r ↔ normalised game r.
Proof.
  split.
  - destruct game as [| | | | | |d]; try discriminate.
    unfold process_game. step_result.
    destruct (raw_field d "home_team" (PDict [])) as [| | | | | |home_team] eqn:Hhome;
      try discriminate.
    step_result.
    destruct (py_eq (raw_field home_team "id" PNone) (PInt LAKERS_TEAM_ID)) eqn:Hid.
    + destruct (raw_field d "visitor_team" (PDict [])) as [| | | | | |visitor_team] eqn:Hvis;
        try discriminate.
      step_result.
      destruct (py_sub (raw_field d "home_team_score" (PInt 0))
                  (raw_field d "visitor_team_score" (PInt 0))) as [diff|] eqn:Hsub.
      2:{ destruct (py_gt (raw_field d "home_team_score" (PInt 0))
                      (raw_field d "visitor_team_score" (PInt 0))); discriminate. }
      apply py_sub_Ok in Hsub as (m & n & Hm & Hn & ->).
      unfold py_gt. rewrite (py_richcmp_num _ _ _ m n Hm Hn). step_result.
      intros [= <-]. by eapply normalised_home.
    + step_result.
      destruct (py_sub (raw_field d "visitor_team_score" (PInt 0))
                  (raw_field d "home_team_score" (PInt 0))) as [diff|] eqn:Hsub.
      2:{ destruct (py_gt (raw_field d "visitor_team_score" (PInt 0))
                      (raw_field d "home_team_score" (PInt 0))); discriminate. }
      apply py_sub_Ok in Hsub as (m & n & Hm & Hn & ->).
      unfold py_gt. rewrite (py_richcmp_num _ _ _ m n Hm Hn). step_result.
      intros [= <-]. by eapply normalised_away.
  - intros [d home_team visitor_team m n Hhome Hid Hvis Hm Hn
           |d home_team m n Hhome Hid Hm Hn];
      unfold process_game; step_result; rewrite Hhome; step_result;
      rewrite Hid, ?Hvis; step_result;
      unfold py_gt, py_sub; rewrite (py_richcmp_num _ _ _ m n Hm Hn), Hm, Hn;
      reflexivity.
Qed.


Lemma won_iff_positive_diff (m n : Z) : (n <? m) = (0 <? m - n).
Proof. destruct (Z.ltb_spec n m), (Z.ltb_spec 0 (m - n)); lia || reflexivity. Qed.


Lemma raw_field_missing d k dflt : dict_lookup k d = None → raw_field d k dflt = dflt.
Proof. unfold raw_field. by intros ->. Qed.

Lemma team_name_missing d side team :
  raw_field d side (PDict []) = PDict team →
  team_member (PDict d) side "full_name" = None →
  raw_field team "full_name" (PStr "Unknown") = PStr "Unknown".
Proof.
  unfold team_member, raw_field at 1. simpl.
  destruct (dict_lookup side d) as [t|]; simpl.
  - intros -> Hname. by apply raw_field_missing.
  - by intros [= <-] _.
Qed.

Lemma normalised_defaults game r : normalised game r → defaults_applied game r.
Proof.
  intros [d home_team visitor_team m n Hhome _ Hvis _ _|d home_team m n Hhome _ _ _];
    unfold defaults_applied; simpl; split_and!.
  all: try (by left); try (by right).
  all: try (intros Hloc; discriminate Hloc).
  all: try (intros _; split_and!).
  all: intros Hmiss; rewrite ?(raw_field_missing _ _ _ Hmiss); try reflexivity.
  all: f_equal; eapply team_name_missing; eassumption.
Qed.

Lemma normalised_date game r :
  partial_game game = true → normalised game r → str_dated r.
Proof.
  intros Hpart Hnorm.
  assert (∃ d, game = PDict d ∧ str_dated (PDict [("date", raw_field d "date" (PStr ""))]))
    as (d & -> & s & Hs).
  { destruct game as [| | | | | |d]; try discriminate. exists d. split; [reflexivity|].
    simpl in Hpart. repeat (apply andb_true_iff in Hpart as [Hpart ?]).
    unfold opt_field, raw_field in *. unfold str_dated. simpl.
    destruct (dict_lookup "date" d) as [[]|]; try discriminate; simpl; eauto. }
  simpl in Hs. injection Hs as Hs.
  inversion Hnorm; subst; exists s; simpl; by rewrite Hs.
Qed.

Lemma partial_game_normalised game : partial_game game = true → ∃ r, normalised game r.
Proof.
  destruct game as [| | | | | |d]; try discriminate. simpl. intros Hpart.
  repeat (apply andb_true_iff in Hpart as [Hpart ?]).
  assert (∃ home_team, raw_field d "home_team" (PDict []) = PDict home_team) as [ht Hht].
  { unfold opt_field, raw_field in *.
    destruct (dict_lookup "home_team" d) as [[]|]; try discriminate; simpl; eauto. }
  assert (∃ visitor_team, raw_field d "visitor_team" (PDict []) = PDict visitor_team)
    as [vt Hvt].
  { unfold opt_field, raw_field in *.
    destruct (dict_lookup "visitor_team" d) as [[]|]; try discriminate; simpl; eauto. }
  assert (∃ m, py_num (raw_field d "home_team_score" (PInt 0)) = Some m) as [m Hm].
  { unfold opt_field, raw_field, is_number in *.
    destruct (dict_lookup "home_team_score" d) as [v|]; simpl; [|eauto].
    destruct (py_num v); [eauto|discriminate]. }
  assert (∃ n, py_num (raw_field d "visitor_team_score" (PInt 0)) = Some n) as [n Hn].
  { unfold opt_field, raw_field, is_number in *.
    destruct (dict_lookup "visitor_team_score" d) as [v|]; simpl; [|eauto].
    destruct (py_num v); [eauto|discriminate]. }
  destruct (py_eq (raw_field ht "id" PNone) (PInt LAKERS_TEAM_ID)) eqn:Hid.
  - eexists. by eapply normalised_home.
  - eexists. by eapply normalised_away.
Qed.


Lemma processed_str_dated items processed :
  Forall (λ game, partial_game game = true) items →
  Forall2 (λ game r, process_game game = Ok r) items processed →
  Forall str_dated processed.
Proof.
  intros Hpart Hall. revert Hpart.
  induction Hall as [|game r items processed Hr _ IH]; intros Hpart; [constructor|].
  apply Forall_cons in Hpart as [Hgame Hpart].
  constructor; [|by apply IH].
  eapply normalised_date; [exact Hgame|]. by apply process_game_normalised.
Qed.


End NbaFacts.

(** ** Dates written year, month, day sort in the order of time *)

Module IsoDate.
Import Props.
#[local] Open Scope nat_scope.

Example iso_date_2024_03_01 : iso_date 2024 3 1 = "2024-03-01"%string.
Proof. reflexivity. Qed.

Lemma compare_digit (a b : nat) :
  (a < 10)%nat → (b < 10)%nat → Ascii.compare (digit a) (digit b) = Nat.compare a b.
Proof.
  intros Ha Hb.
  do 10 (destruct a as [|a]; [do 10 (destruct b as [|b]; [reflexivity|]); lia|]).
  lia.
Qed.

Lemma compare_digits (width m n : nat) :
  String.compare (digits width m) (digits width n) =
  Nat.compare (m `mod` 10 ^ width) (n `mod` 10 ^ width).
Proof.
  induction width as [|width IH].
  - by rewrite !Nat.mod_1_r.
  - cbn [digits String.compare].
    rewrite compare_digit by (apply Nat.mod_upper_bound; lia).
    rewrite IH. clear IH.
    replace (10 ^ S width)%nat with (10 ^ width * 10)%nat by (simpl; lia).
    rewrite !Nat.Div0.mod_mul_r.
    pose proof (Nat.mod_upper_bound m (10 ^ width)) as Hm.
    pose proof (Nat.mod_upper_bound n (10 ^ width)) as Hn.
    assert (Hpow : (10 ^ width ≠ 0)%nat) by (apply Nat.pow_nonzero; lia).
    specialize (Hm Hpow). specialize (Hn Hpow).
    generalize dependent (m `mod` 10 ^ width). intros r Hr.
    generalize dependent (n `mod` 10 ^ width). intros r' Hr'.
    generalize ((m / 10 ^ width) `mod` 10)%nat ((n / 10 ^ width) `mod` 10)%nat.
    intros q q'.
    destruct (Nat.compare_spec q q') as [->|Hq|Hq].
    + destruct (Nat.compare_spec r r') as [->|Hrr|Hrr]; symmetry.
      * apply Nat.compare_eq_iff. reflexivity.
      * apply Nat.compare_lt_iff. lia.
      * apply Nat.compare_gt_iff. lia.
    + symmetry. apply Nat.compare_lt_iff. nia.
    + symmetry. apply Nat.compare_gt_iff. nia.
Qed.

Lemma length_digits (width n : nat) : String.length (digits width n) = width.
Proof. induction width as [|width IH]; simpl; by rewrite ?IH. Qed.

Lemma compare_append (a b s t : string) :
  String.length a = String.length b →
  String.compare (a +:+ s) (b +:+ t) =
  match String.compare a b with
  | Eq => String.compare s t
  | c => c
  end.
Proof.
  revert b. induction a as [|c a IH]; intros [|c' b]; try discriminate; simpl.
  - reflexivity.
  - intros [= Hlen]. destruct (Ascii.compare c c'); [by apply IH|reflexivity..].
Qed.

Lemma compare_cons_same (c : Ascii.ascii) (s t : string) :
  String.compare (String c s) (String c t) = String.compare s t.
Proof.
  simpl. replace (Ascii.compare c c) with Eq; [reflexivity|].
  symmetry. apply N.compare_refl.
Qed.

Lemma append_char (c : Ascii.ascii) (s : string) :
  String c EmptyString +:+ s = String c s.
Proof. reflexivity. Qed.

Lemma compare_iso_date (y m d y' m' d' : nat) :
  y < 10 ^ 4 → m < 10 ^ 2 → d < 10 ^ 2 →
  y' < 10 ^ 4 → m' < 10 ^ 2 → d' < 10 ^ 2 →
  String.compare (iso_date y m d) (iso_date y' m' d') =
  Nat.compare (day_number y m d) (day_number y' m' d').
Proof.
  intros Hy Hm Hd Hy' Hm' Hd'. unfold iso_date, day_number.
  rewrite compare_append by (by rewrite !length_digits).
  rewrite ?append_char, compare_cons_same.
  rewrite compare_append by (by rewrite !length_digits).
  rewrite ?append_char, compare_cons_same.
  rewrite !compare_digits, !Nat.mod_small by assumption.
  change (10 ^ 4) with (100 * 100) in Hy, Hy'. change (10 ^ 2) with 100 in *.
  destruct (Nat.compare_spec y y') as [->|Hyy|Hyy];
    [destruct (Nat.compare_spec m m') as [->|Hmm|Hmm];
       [destruct (Nat.compare_spec d d') as [->|Hdd|Hdd]|..]|..];
    symmetry;
    first [ apply Nat.compare_eq_iff; reflexivity
          | apply Nat.compare_lt_iff; lia
          | apply Nat.compare_gt_iff; lia ].
Qed.

(** Two records dated in this format are in the order of [date_le] exactly
    when the first is not the later of the two. *)
Lemma date_le_iso (r1 r2 : pyval) (y m d y' m' d' : nat) :
  y < 10 ^ 4 → m < 10 ^ 2 → d < 10 ^ 2 →
  y' < 10 ^ 4 → m' < 10 ^ 2 → d' < 10 ^ 2 →
  record_field r1 "date" = Some (PStr (iso_date y m d)) →
  record_field r2 "date" = Some (PStr (iso_date y' m' d')) →
  date_le r1 r2 ↔ day_number y m d ≤ day_number y' m' d'.
Proof.
  intros Hy Hm Hd Hy' Hm' Hd' H1 H2.
  assert (Hleb : String.leb (iso_date y m d) (iso_date y' m' d') = true ↔
                 day_number y m d ≤ day_number y' m' d').
  { unfold String.leb. rewrite compare_iso_date by assumption.
    destruct (Nat.compare_spec (day_number y m d) (day_number y' m' d'));
      split; (lia || done). }
  rewrite <- Hleb. split.
  - intros (s1 & s2 & Hs1 & Hs2 & Hle). congruence.
  - intros Hle. by exists (iso_date y m d), (iso_date y' m' d').
Qed.

End IsoDate.

(** * Properties of the design document *)

Import Main Nba Props.

(** ** The cache store *)

(** C1, as the code has it. An entry stored at time T is read back fresh,
    with its value, at every time in [T, T + 5 minutes), whatever
    [allow_stale] is. From T + 5 minutes on, [get_cached] with
    [allow_stale=False] withholds the value and returns [(None, False)];
    only with [allow_stale=True] does it return the stored value, with
    [is_fresh = False]. A read never changes the state. *)
Theorem freshness_window (key : string) (v : pyval) (w : world) (t : Z) :
  clock w ≤ t →
  let w' := at_time t (set_cache key v w).2 in
  (t < clock w + CACHE_DURATION →
   ∀ allow_stale, get_cached key allow_stale w' = (Ok (v, true), w')) ∧
  (clock w + CACHE_DURATION ≤ t →
   get_cached key false w' = (Ok (PNone, false), w') ∧
   get_cached key true w' = (Ok (v, false), w')).
Proof.
  intros _ w'.
  assert (Hk : cache w' !! key = Some (v, clock w)) by apply lookup_insert_eq.
  split.
  - intros Hfresh allow_stale. rewrite CacheFacts.get_cached_run, Hk.
    replace (clock w' - clock w <? CACHE_DURATION) with true; [reflexivity|].
    symmetry. apply Z.ltb_lt. simpl. lia.
  - intros Hstale. rewrite !CacheFacts.get_cached_run, Hk.
    replace (clock w' - clock w <? CACHE_DURATION) with false; [done|].
    symmetry. apply Z.ltb_ge. simpl. lia.
Qed.

(** C1 at a concrete state: the team stored at time 0, read one
    microsecond before the five minutes are over and again when they are. *)
Lemma freshness_window_at_ttl :
  let stored := (set_cache "team_14" Sample.lakers_tuple Sample.boot).2 in
  (clock Sample.boot ≤ 299999999 ∧ clock Sample.boot ≤ 300000000) ∧
  get_cached "team_14" false (at_time 299999999 stored) =
    (Ok (Sample.lakers_tuple, true), at_time 299999999 stored) ∧
  get_cached "team_14" false (at_time 300000000 stored) =
    (Ok (PNone, false), at_time 300000000 stored) ∧
  get_cached "team_14" true (at_time 300000000 stored) =
    (Ok (Sample.lakers_tuple, false), at_time 300000000 stored).
Proof.
  intros stored.
  assert (Hbefore : clock Sample.boot ≤ 299999999) by (simpl; lia).
  assert (Hafter : clock Sample.boot ≤ 300000000) by (simpl; lia).
  split; [by split|]. split.
  - apply (freshness_window "team_14" Sample.lakers_tuple Sample.boot 299999999 Hbefore).
    unfold CACHE_DURATION. simpl. lia.
  - apply (freshness_window "team_14" Sample.lakers_tuple Sample.boot 300000000 Hafter).
    unfold CACHE_DURATION. simpl. lia.
Defined.

(** C1 as stated fails: five minutes after the team was stored, the read
    with [allow_stale=False] does not return the stored value. *)
Lemma stale_read_withholds_value :
  let w' := at_time 300000000 (set_cache "team_14" Sample.lakers_tuple Sample.boot).2 in
  (get_cached "team_14" false w').1 = Ok (PNone, false) ∧
  (get_cached "team_14" false w').1 ≠ Ok (Sample.lakers_tuple, false).
Proof. split; [vm_compute; reflexivity|vm_compute; discriminate]. Qed.

(** ** Fetch with fallback: [get_fixed_team] and [get_team_games] *)

(** C3, as the code has it. When the cache holds a fresh entry for the key
    of the query and the stored value is not [None], the query returns the
    stored value and leaves the state as it was: no request is recorded.
    A fresh entry whose value is [None] does not count as a hit. *)
Theorem fresh_hit_skips_upstream up (q : query) (w : world) (v : pyval) (ts : Z) :
  cache w !! key_of q = Some (v, ts) →
  clock w - ts < CACHE_DURATION →
  v ≠ PNone →
  run up q w = (Ok v, w) ∧ http_log (run up q w).2 = http_log w.
Proof.
  intros Hk Hfresh Hv. by rewrite (CacheFacts.fresh_hit up q w v ts).
Qed.

(** C3 at a concrete state: four minutes after three games were stored,
    [get_team_games] serves them although the API cannot be reached. *)
Lemma fresh_hit_after_four_minutes :
  let q := TeamGames 14 2024 25 in
  let w := at_time 240000000 (set_cache (key_of q) (PList Sample.three_games) Sample.boot).2 in
  cache w !! key_of q = Some (PList Sample.three_games, 0) ∧
  clock w - 0 < CACHE_DURATION ∧
  PList Sample.three_games ≠ PNone ∧
  run (Sample.unreachable 240000001) q w = (Ok (PList Sample.three_games), w) ∧
  http_log (run (Sample.unreachable 240000001) q w).2 = http_log w.
Proof.
  intros q w.
  assert (Hk : cache w !! key_of q = Some (PList Sample.three_games, 0))
    by (vm_compute; reflexivity).
  assert (Hfresh : clock w - 0 < CACHE_DURATION) by (vm_compute; reflexivity).
  assert (Hv : PList Sample.three_games ≠ PNone) by discriminate.
  split_and!; [exact Hk|exact Hfresh|exact Hv|..];
    apply (fresh_hit_skips_upstream (Sample.unreachable 240000001) q w _ 0 Hk Hfresh Hv).
Defined.

(** C3 as stated fails: the API answers a first call with a body whose
    "data" member is null; the value stored is [None], the entry is fresh,
    and yet a second call at once sends a second request. *)
Lemma fresh_null_entry_is_refetched :
  let up := Sample.answers 200 (Some (Sample.games_body PNone)) 0 in
  let w1 := (get_team_games up 14 2024 5 Sample.boot).2 in
  cache w1 !! key_of (TeamGames 14 2024 5) = Some (PNone, 0) ∧
  clock w1 - 0 < CACHE_DURATION ∧
  length (http_log w1) = 1%nat ∧
  length (http_log (get_team_games up 14 2024 5 w1).2) = 2%nat.
Proof. vm_compute. by repeat split. Qed.

(** C4, as the code has it. When the upstream call fails and the cache
    holds an entry for the key, of any age, whose value [v] Python treats
    as true (or, for the games, is the empty list), the query returns [v].
    The fallback tests the stored value with [if stale_data:], so a value
    that tests false is not returned. *)
Theorem stale_fallback_on_failure up (q : query) (w : world) (v : pyval) (ts : Z) :
  cache w !! key_of q = Some (v, ts) →
  upstream_fails (up (request_of q)) →
  servable q v = true →
  (run up q w).1 = Ok v.
Proof.
  intros Hk Hfail Hserv.
  destruct (CacheFacts.servable_spec q v Hserv) as [Hnn Hv].
  assert (Hvn : v ≠ PNone) by (intros ->; discriminate).
  destruct (decide (clock w - ts < CACHE_DURATION)) as [Hfresh|Hstale].
  - by rewrite (CacheFacts.fresh_hit up q w v ts).
  - rewrite CacheFacts.miss_failure; [rewrite Hk; simpl; by rewrite Hv|assumption|].
    intros v' ts' Hk'. right. assert (ts' = ts) by congruence. lia.
Qed.

(** C4 at a concrete state: the team stored at time 0 is served an hour
    later when the API cannot be reached. *)
Lemma stale_team_served_after_an_hour :
  let w := at_time 3600000000 (set_cache (key_of TeamInfo) Sample.lakers_tuple Sample.boot).2 in
  let up := Sample.unreachable 3600000001 in
  cache w !! key_of TeamInfo = Some (Sample.lakers_tuple, 0) ∧
  upstream_fails (up (request_of TeamInfo)) ∧
  servable TeamInfo Sample.lakers_tuple = true ∧
  (run up TeamInfo w).1 = Ok Sample.lakers_tuple.
Proof.
  intros w up.
  assert (Hk : cache w !! key_of TeamInfo = Some (Sample.lakers_tuple, 0))
    by (vm_compute; reflexivity).
  assert (Hfail : upstream_fails (up (request_of TeamInfo))) by exact I.
  assert (Hserv : servable TeamInfo Sample.lakers_tuple = true) by reflexivity.
  split_and!; [exact Hk|exact Hfail|exact Hserv|].
  apply (stale_fallback_on_failure up TeamInfo w _ 0 Hk Hfail Hserv).
Defined.

(** C4 as stated fails: the API answers a first call with an empty JSON
    object (or null) as "data"; ten minutes later it cannot be reached and
    [get_team_games] returns the empty list, not the stored value. *)
Lemma falsy_entry_is_not_served :
  let stored_then_down data :=
    let w1 :=
      (get_team_games (Sample.answers 200 (Some (Sample.games_body data)) 0)
         14 2024 5 Sample.boot).2 in
    (cache w1 !! key_of (TeamGames 14 2024 5),
     (get_team_games (Sample.unreachable 600000001) 14 2024 5 (at_time 600000000 w1)).1) in
  stored_then_down (PDict []) = (Some (PDict [], 0), Ok (PList [])) ∧
  stored_then_down PNone = (Some (PNone, 0), Ok (PList [])).
Proof. vm_compute. by split. Qed.

(** C5. When the upstream call fails and the cache has no entry for the
    key, the query returns its no-data value, [None] for [get_fixed_team]
    and the empty list for [get_team_games]; it returns, so no exception
    reaches the caller. *)
Theorem no_data_on_failure up (q : query) (w : world) :
  cache w !! key_of q = None →
  upstream_fails (up (request_of q)) →
  match q with
  | TeamInfo => (get_fixed_team up w).1 = Ok PNone
  | TeamGames team_id season per_page =>
      (get_team_games up team_id season per_page w).1 = Ok (PList [])
  end.
Proof.
  intros Hk Hfail.
  assert (Hrun : (run up q w).1 = Ok (no_data q)).
  { rewrite CacheFacts.miss_failure; [by rewrite Hk|assumption|].
    intros v ts Hk'. congruence. }
  by destruct q.
Qed.

(** C5 at a concrete state: a process that has just started, and an API
    that answers 429 to the request for the games. *)
Lemma no_games_when_rate_limited_at_boot :
  let q := TeamGames 14 2024 25 in
  let up := Sample.answers 429 None 1 in
  cache Sample.boot !! key_of q = None ∧
  upstream_fails (up (request_of q)) ∧
  (get_team_games up 14 2024 25 Sample.boot).1 = Ok (PList []).
Proof.
  intros q up.
  assert (Hk : cache Sample.boot !! key_of q = None) by (vm_compute; reflexivity).
  assert (Hfail : upstream_fails (up (request_of q))) by (vm_compute; discriminate).
  split_and!; [exact Hk|exact Hfail|].
  apply (no_data_on_failure up q Sample.boot Hk Hfail).
Defined.

(** C10. When the upstream call fails, the query leaves the cache as it
    found it: every key keeps its value and the time it was stored at; a
    stale entry served as fallback keeps its old timestamp. *)
Theorem failure_leaves_cache up (q : query) (w : world) :
  upstream_fails (up (request_of q)) →
  cache (run up q w).2 = cache w.
Proof.
  intros Hfail.
  destruct (cache w !! key_of q) as [[v ts]|] eqn:Hk.
  - destruct (CacheFacts.pyval_none_or_not v) as [->|Hv].
    + rewrite CacheFacts.miss_failure; [reflexivity|assumption|].
      intros v' ts' Hk'. left. congruence.
    + destruct (decide (clock w - ts < CACHE_DURATION)) as [Hfresh|Hstale].
      * by rewrite (CacheFacts.fresh_hit up q w v ts).
      * rewrite CacheFacts.miss_failure; [reflexivity|assumption|].
        intros v' ts' Hk'. right. assert (ts' = ts) by congruence. lia.
  - rewrite CacheFacts.miss_failure; [reflexivity|assumption|].
    intros v' ts' Hk'. congruence.
Qed.

(** C10 at a concrete state: the team stored at time 0 and served as
    fallback an hour later is still stored with time 0. *)
Lemma stale_team_keeps_its_timestamp :
  let w := at_time 3600000000 (set_cache (key_of TeamInfo) Sample.lakers_tuple Sample.boot).2 in
  let up := Sample.unreachable 3600000001 in
  upstream_fails (up (request_of TeamInfo)) ∧
  cache (run up TeamInfo w).2 = cache w ∧
  cache w !! key_of TeamInfo = Some (Sample.lakers_tuple, 0).
Proof.
  intros w up.
  assert (Hfail : upstream_fails (up (request_of TeamInfo))) by exact I.
  split_and!; [exact Hfail| |vm_compute; reflexivity].
  apply (failure_leaves_cache up TeamInfo w Hfail).
Defined.

(** ** The public entry points and the contract of the design document *)

(** C2, as the code has it. [get_fixed_team] and [get_team_games] are the
    contract [fetchWithFallback] of the design document, run on their key
    and their upstream operation, in every state where the entry of the
    key, if any, is servable: same value and same state, so the same
    reads and writes of the cache and the same requests. [get_lakers_games]
    is not: whatever the cache holds, each call sends one request and
    leaves the cache untouched. *)
Theorem cached_queries_follow_contract up (q : query) (w : world) (season per_page : Z) :
  entry_servable q w = true →
  run up q w = spec_run up q w ∧
  (get_lakers_games up season per_page w).2 =
    World (cache w) (rep_clock (up (lakers_request season per_page)))
      (http_log w ++ [lakers_request season per_page]).
Proof.
  intros Hserv. split.
  - by apply CacheFacts.run_refines_spec.
  - apply NbaFacts.get_lakers_games_world.
Qed.

(** C2 at a concrete state: the games stored at time 0, ten minutes later,
    with an API that answers. *)
Lemma contract_on_stale_games :
  let q := TeamGames 14 2024 25 in
  let w := at_time 600000000 (set_cache (key_of q) (PList Sample.three_games) Sample.boot).2 in
  let up := Sample.answers 200 (Some (Sample.games_body (PList Sample.three_games))) 600000001 in
  entry_servable q w = true ∧
  run up q w = spec_run up q w ∧
  (get_lakers_games up 2023 50 w).2 =
    World (cache w) (rep_clock (up (lakers_request 2023 50)))
      (http_log w ++ [lakers_request 2023 50]).
Proof.
  intros q w up.
  assert (Hserv : entry_servable q w = true) by (vm_compute; reflexivity).
  split; [exact Hserv|].
  apply (cached_queries_follow_contract up q w 2023 50 Hserv).
Defined.

(** C2 as stated fails for [get_lakers_games]: for no key, no upstream
    operation and no no-data value is it [fetchWithFallback]. With a fresh
    entry under the key the contract returns it without a request, while
    [get_lakers_games] sends one. So it is one second after the records of
    the season were stored under the key of the games: the call sends its
    request, lets the network error through when the API cannot be
    reached, and returns the empty list on a status 429. *)
Lemma lakers_games_is_not_fetch_with_fallback :
  (¬ ∃ (season per_page : Z) (key : string) (absent : pyval)
       (upstreamFetch : (request → reply) → M pyval),
       ∀ up w,
         get_lakers_games up season per_page w =
         Spec.fetchWithFallback key (upstreamFetch up) absent w) ∧
  let w :=
    at_time 1000000
      (set_cache "games_14_2023_50" (PList Sample.three_records) Sample.boot).2 in
  (Spec.get "games_14_2023_50" w).1 = Ok (Some (PList Sample.three_records, true)) ∧
  get_lakers_games (Sample.unreachable 1000001) 2023 50 w =
    (Raise RequestException,
     World (cache w) 1000001 [lakers_request 2023 50]) ∧
  get_lakers_games (Sample.answers 429 None 1000001) 2023 50 w =
    (Ok (PList []), World (cache w) 1000001 [lakers_request 2023 50]).
Proof.
  split.
  - intros (season & per_page & key & absent & upstreamFetch & Hsame).
    specialize (Hsame (Sample.unreachable 0) (World {[key := (PInt 1, 0)]} 0 [])).
    apply (f_equal (λ r, http_log r.2)) in Hsame. cbv beta in Hsame.
    rewrite NbaFacts.get_lakers_games_world in Hsame.
    unfold Spec.fetchWithFallback, Spec.get, mbind, M_bind, read_cache in Hsame.
    simpl in Hsame. rewrite lookup_singleton_eq in Hsame. simpl in Hsame.
    discriminate Hsame.
  - by repeat split.
Qed.

(** ** Normalisation: [get_lakers_games] *)

(** C6. Normalisation looks at who the subject team is, not at where it
    plays. Take a raw record [g] in which the subject team (the one whose
    id equals 14) is the home team, with [m] points against [n], and a
    record [g'] with the two sides swapped: both normalise to the same
    scores, the same opponent, the same [won] and [point_diff], and differ
    in [location] only. With 100 points against 90: [lakers_score = 100],
    [opponent_score = 90], [won = True], [point_diff = 10], "Home" for the
    first record and "Away" for the second. *)
Theorem normalisation_symmetry (g g' subject opponent : list (string * pyval)) (m n : Z) :
  py_eq (raw_field subject "id" PNone) (PInt LAKERS_TEAM_ID) = true →
  py_eq (raw_field opponent "id" PNone) (PInt LAKERS_TEAM_ID) = false →
  raw_game_has g (PDict subject) (PDict opponent) (PInt m) (PInt n) →
  raw_game_has g' (PDict opponent) (PDict subject) (PInt n) (PInt m) →
  dict_lookup "date" g' = dict_lookup "date" g →
  dict_lookup "status" g' = dict_lookup "status" g →
  process_game (PDict g) =
    Ok (game_record (raw_field g "date" (PStr "")) (PInt m) (PInt n)
          (raw_field opponent "full_name" (PStr "Unknown")) (PStr "Home")
          (PBool (n <? m)) (PInt (m - n)) (raw_field g "status" (PStr ""))) ∧
  process_game (PDict g') =
    Ok (game_record (raw_field g "date" (PStr "")) (PInt m) (PInt n)
          (raw_field opponent "full_name" (PStr "Unknown")) (PStr "Away")
          (PBool (n <? m)) (PInt (m - n)) (raw_field g "status" (PStr ""))).
Proof.
  intros Hsubject Hopponent (Hh & Hv & Hhs & Hvs) (Hh' & Hv' & Hhs' & Hvs') Hdate Hstatus.
  split; apply NbaFacts.process_game_normalised.
  - replace (PInt m) with (raw_field g "home_team_score" (PInt 0))
      by (unfold raw_field; by rewrite Hhs).
    replace (PInt n) with (raw_field g "visitor_team_score" (PInt 0))
      by (unfold raw_field; by rewrite Hvs).
    apply normalised_home with (home_team := subject);
      unfold raw_field; rewrite ?Hh, ?Hv, ?Hhs, ?Hvs; done.
  - replace (raw_field g "date" (PStr "")) with (raw_field g' "date" (PStr ""))
      by (unfold raw_field; by rewrite Hdate).
    replace (raw_field g "status" (PStr "")) with (raw_field g' "status" (PStr ""))
      by (unfold raw_field; by rewrite Hstatus).
    replace (PInt m) with (raw_field g' "visitor_team_score" (PInt 0))
      by (unfold raw_field; by rewrite Hvs').
    replace (PInt n) with (raw_field g' "home_team_score" (PInt 0))
      by (unfold raw_field; by rewrite Hhs').
    apply normalised_away with (home_team := opponent);
      unfold raw_field; rewrite ?Hh', ?Hv', ?Hhs', ?Hvs'; done.
Qed.

(** C6 on the records of the design document: 100 to 90 at home, and the
    same game mirrored. *)
Lemma normalisation_symmetry_100_90 :
  (py_eq (raw_field Sample.lakers "id" PNone) (PInt LAKERS_TEAM_ID) = true ∧
   py_eq (raw_field Sample.celtics "id" PNone) (PInt LAKERS_TEAM_ID) = false ∧
   raw_game_has Sample.home_game (PDict Sample.lakers) (PDict Sample.celtics)
     (PInt 100) (PInt 90) ∧
   raw_game_has Sample.away_game (PDict Sample.celtics) (PDict Sample.lakers)
     (PInt 90) (PInt 100) ∧
   dict_lookup "date" Sample.away_game = dict_lookup "date" Sample.home_game ∧
   dict_lookup "status" Sample.away_game = dict_lookup "status" Sample.home_game) ∧
  process_game (PDict Sample.home_game) =
    Ok (game_record (PStr "2024-01-10") (PInt 100) (PInt 90) (PStr "Boston Celtics")
          (PStr "Home") (PBool true) (PInt 10) (PStr "Final")) ∧
  process_game (PDict Sample.away_game) =
    Ok (game_record (PStr "2024-01-10") (PInt 100) (PInt 90) (PStr "Boston Celtics")
          (PStr "Away") (PBool true) (PInt 10) (PStr "Final")).
Proof.
  split; [by repeat split|].
  apply (normalisation_symmetry Sample.home_game Sample.away_game
           Sample.lakers Sample.celtics 100 90);
    by repeat split.
Defined.





(** C9. Raw records with missing fields do not stop [get_lakers_games]:
    when each record of the answer is a game of the API in which any field
    may be missing, every record is normalised, with the defaults of
    [defaults_applied] (0 for a missing score, "Unknown" for a missing
    name of the opponent, the empty string for a missing status or date),
    and the list returned holds the normalised record of each of them. *)
Theorem missing_fields_are_defaulted up (season per_page : Z) (w : world)
    (resp : response) (body : pyval) (items : list pyval) :
  rep_outcome (up (lakers_request season per_page)) = Ok resp →
  status_code resp = 200 →
  json_body resp = Some body →
  py_get body "data" (PList []) = Ok (PList items) →
  forallb partial_game items = true →
  ∃ processed sorted,
    Forall2 (λ game r, process_game game = Ok r ∧ defaults_applied game r)
      items processed ∧
    (get_lakers_games up season per_page w).1 = Ok (PList sorted) ∧
    sorted ≡ₚ processed.
Proof.
  intros Hresp Hstatus Hbody Hdata Hitems.
  assert (Hpart : Forall (λ game, partial_game game = true) items).
  { apply Forall_forall. intros game Hgame. rewrite forallb_forall in Hitems.
    apply Hitems. by apply list_elem_of_In. }
  clear Hitems.
  destruct (NbaFacts.mapM_result_total process_game items) as [processed Hproc].
  { eapply Forall_impl; [exact Hpart|]. intros game Hgame.
    destruct (NbaFacts.partial_game_normalised game Hgame) as [r Hr].
    exists r. by apply NbaFacts.process_game_normalised. }
  pose proof (NbaFacts.mapM_result_Forall2 _ _ _ Hproc) as Hall.
  destruct (NbaFacts.list_sort_sorted processed) as (sorted & Hsort & _).
  { by eapply NbaFacts.processed_str_dated. }
  exists processed, sorted. split_and!.
  - eapply Forall2_impl; [exact Hall|]. intros game r Hr. split; [exact Hr|].
    by apply NbaFacts.normalised_defaults, NbaFacts.process_game_normalised.
  - by eapply NbaFacts.get_lakers_games_200.
  - by eapply NbaFacts.list_sort_perm.
Qed.

(** C9 on two records, one with nothing but its home team and one with
    nothing at all. *)
Lemma sparse_games_are_defaulted :
  let body := Sample.games_body (PList Sample.sparse_games) in
  let resp := Response 200 (Some body) in
  let up := Sample.answers 200 (Some body) 1 in
  (rep_outcome (up (lakers_request 2023 50)) = Ok resp ∧
   status_code resp = 200 ∧
   json_body resp = Some body ∧
   py_get body "data" (PList []) = Ok (PList Sample.sparse_games) ∧
   forallb partial_game Sample.sparse_games = true) ∧
  (∃ processed sorted,
     Forall2 (λ game r, process_game game = Ok r ∧ defaults_applied game r)
       Sample.sparse_games processed ∧
     (get_lakers_games up 2023 50 Sample.boot).1 = Ok (PList sorted) ∧
     sorted ≡ₚ processed) ∧
  (get_lakers_games up 2023 50 Sample.boot).1 = Ok (PList Sample.sparse_records).
Proof.
  intros body resp up. split_and!; try reflexivity.
  apply (missing_fields_are_defaulted up 2023 50 Sample.boot resp body Sample.sparse_games);
    reflexivity.
Defined.

(** * Further properties of the code *)

(** ** Cache keys *)

Module KeyFacts.
Import Main Props.
Import Stdlib.Strings.Ascii.

#[local] Abbreviation chars := String.list_ascii_of_string (only parsing).

Lemma append_cons (c : Ascii.ascii) (s t : string) :
  String c s +:+ t = String c (s +:+ t).
Proof. reflexivity. Qed.

Lemma append_empty (t : string) : "" +:+ t = t.
Proof. reflexivity. Qed.

Lemma pretty_N_char_not_underscore (x : N) : pretty_N_char x ≠ "_"%char.
Proof. unfold pretty_N_char. by repeat case_match. Qed.

Lemma pretty_N_go_no_underscore (x : N) (s : string) :
  ¬ In "_"%char (chars s) → ¬ In "_"%char (chars (pretty_N_go x s)).
Proof.
  revert s. induction (N.lt_wf_0 x) as [x _ IH]; intros s Hs.
  destruct (decide (x = 0)%N) as [->|Hx].
  - by rewrite pretty_N_go_0.
  - rewrite pretty_N_go_step by lia. apply IH.
    + apply N.div_lt; lia.
    + simpl. intros [Hc|Hc]; [|by apply Hs].
      by apply (pretty_N_char_not_underscore (x `mod` 10)%N).
Qed.

Lemma pretty_N_no_underscore (x : N) : ¬ In "_"%char (chars (pretty x)).
Proof.
  unfold pretty, pretty_N. destruct (decide (x = 0)%N).
  - simpl. intros [Hc|[]]. discriminate Hc.
  - apply pretty_N_go_no_underscore. simpl. tauto.
Qed.

Lemma pretty_Z_no_underscore (z : Z) : ¬ In "_"%char (chars (pretty z)).
Proof.
  destruct z as [|p|p]; unfold pretty, pretty_Z.
  - simpl. intros [Hc|[]]. discriminate Hc.
  - apply (pretty_N_no_underscore (Npos p)).
  - rewrite append_cons, append_empty. simpl. intros [Hc|Hc]; [discriminate Hc|].
    by apply (pretty_N_no_underscore (Npos p)).
Qed.

Lemma split_at_underscore (s s' r r' : string) :
  ¬ In "_"%char (chars s) → ¬ In "_"%char (chars s') →
  s +:+ String "_" r = s' +:+ String "_" r' → s = s' ∧ r = r'.
Proof.
  revert s'. induction s as [|c s IH]; intros [|c' s']; simpl; intros Hs Hs'.
  - rewrite !append_empty. by intros [= ->].
  - rewrite append_empty, append_cons. intros [= <- _]. destruct Hs'. by left.
  - rewrite append_empty, append_cons. intros [= -> _]. destruct Hs. by left.
  - rewrite !append_cons. intros [= -> Heq].
    destruct (IH s') as [-> ->]; [tauto..|done|done].
Qed.

Lemma key_of_inj (q q' : query) : key_of q = key_of q' → q = q'.
Proof.
  destruct q as [|a b c], q' as [|a' b' c']; [done|discriminate|discriminate|].
  unfold key_of. rewrite !append_cons, !append_empty. intros [= Heq].
  apply split_at_underscore in Heq as [Ha Heq]; [|apply pretty_Z_no_underscore..].
  apply split_at_underscore in Heq as [Hb Hc]; [|apply pretty_Z_no_underscore..].
  apply (inj pretty) in Ha, Hb, Hc. by subst.
Qed.

End KeyFacts.

(** ** The cached queries, case by case *)

Module QueryFacts.
Import Main Props Outcome.

(** A cached query in closed form: a fresh hit, or one request followed by
    a write of the value fetched or by the fallback. *)
Lemma run_cases up (q : query) (w : world) :
  run up q w =
  match fresh_value q w with
  | Some v => (Ok v, w)
  | None =>
      match fetch_result q (up (request_of q)) with
      | Ok v =>
          (Ok v,
           requested up q w (<[key_of q := (v, rep_clock (up (request_of q)))]> (cache w)))
      | Raise _ => (Ok (fallback_value q w), requested up q w (cache w))
      end
  end.
Proof.
  unfold fresh_value, fetch_result, fallback_value, requested, decoded.
  CacheFacts.open_query q; CacheFacts.run_m.
  all: destruct (cache w !! key) as [[v ts]|] eqn:Hk; simpl.
  all: try (destruct (clock w - ts <? CACHE_DURATION); simpl;
            destruct (py_is_not_none v); simpl; try reflexivity).
  all: destruct (rep_outcome (up req)) as [resp|e]; simpl.
  all: try destruct (status_code resp =? 200); simpl.
  all: CacheFacts.crunch Hk; try reflexivity.
Qed.

End QueryFacts.

(** ** The cache store, further *)

Import Main Nba Props Outcome.

(** X1. Last write wins: after two writes under the same key, a read sees
    the second value only, with the age counted from the second write. *)
Theorem last_write_wins (key : string) (v1 v2 : pyval) (w : world) (t t' : Z)
    (allow_stale : bool) :
  let w1 := at_time t (set_cache key v1 w).2 in
  let w2 := at_time t' (set_cache key v2 w1).2 in
  get_cached key allow_stale w2 =
  (Ok (if t' - t <? CACHE_DURATION then (v2, true)
       else if allow_stale then (v2, false)
       else (PNone, false)), w2).
Proof.
  intros w1 w2. rewrite CacheFacts.get_cached_run.
  assert (Hk : cache w2 !! key = Some (v2, t)) by apply lookup_insert_eq.
  by rewrite Hk.
Qed.

(** X2. A write under one key changes no read under another key. *)
Theorem set_cache_keeps_other_keys (key key' : string) (v : pyval) (w : world)
    (allow_stale : bool) :
  key ≠ key' →
  (get_cached key' allow_stale (set_cache key v w).2).1 =
  (get_cached key' allow_stale w).1.
Proof.
  intros Hne. rewrite !CacheFacts.get_cached_run. simpl.
  by rewrite lookup_insert_ne.
Qed.

Lemma set_cache_keeps_other_keys_sample :
  "games_14_2024_25"%string ≠ "team_14"%string ∧
  (get_cached "team_14" true
     (set_cache "games_14_2024_25" (PList Sample.three_games) Sample.boot).2).1 =
  (get_cached "team_14" true Sample.boot).1.
Proof.
  assert (Hne : "games_14_2024_25"%string ≠ "team_14"%string) by discriminate.
  split; [exact Hne|].
  apply (set_cache_keeps_other_keys _ _ (PList Sample.three_games) Sample.boot true Hne).
Defined.

(** X3. A read hands out nothing but what is stored: it leaves the state
    alone; data other than [None] is the value stored under the key; it is
    reported fresh only if it is younger than five minutes; and without
    [allow_stale] an entry that is not fresh is not handed out at all. *)
Theorem get_cached_provenance (key : string) (allow_stale : bool) (w w' : world)
    (data : pyval) (is_fresh : bool) :
  get_cached key allow_stale w = (Ok (data, is_fresh), w') →
  w' = w ∧
  (data ≠ PNone → ∃ ts, cache w !! key = Some (data, ts)) ∧
  (is_fresh = true →
   ∃ ts, cache w !! key = Some (data, ts) ∧ clock w - ts < CACHE_DURATION) ∧
  (allow_stale = false → is_fresh = false → data = PNone).
Proof.
  rewrite CacheFacts.get_cached_run.
  destruct (cache w !! key) as [[v ts]|]; [|intros [= <- <- <-]; by split_and!].
  destruct (clock w - ts <? CACHE_DURATION) eqn:Hfresh.
  - intros [= <- <- <-]. apply Z.ltb_lt in Hfresh. split_and!; try done; eauto.
  - destruct allow_stale; intros [= <- <- <-]; split_and!; try done; eauto.
Qed.

Lemma get_cached_provenance_sample :
  let w := at_time 1 (set_cache "team_14" Sample.lakers_tuple Sample.boot).2 in
  get_cached "team_14" false w = (Ok (Sample.lakers_tuple, true), w) ∧
  (w = w ∧
   (Sample.lakers_tuple ≠ PNone → ∃ ts, cache w !! "team_14" = Some (Sample.lakers_tuple, ts)) ∧
   (true = true →
    ∃ ts, cache w !! "team_14" = Some (Sample.lakers_tuple, ts) ∧
          clock w - ts < CACHE_DURATION) ∧
   (false = false → true = false → Sample.lakers_tuple = PNone)).
Proof.
  intros w.
  assert (Hrun : get_cached "team_14" false w = (Ok (Sample.lakers_tuple, true), w))
    by (vm_compute; reflexivity).
  split; [exact Hrun|].
  apply (get_cached_provenance "team_14" false w w Sample.lakers_tuple true Hrun).
Defined.

(** ** The cached queries, further *)


(** X5. A cached query sends at most one request, with a timeout of ten
    seconds: none on a fresh hit, otherwise exactly one, never a retry. *)
Theorem cached_queries_request_once up (q : query) (w : world) :
  req_timeout (request_of q) = Some 10 ∧
  http_log (run up q w).2 =
  match fresh_value q w with
  | Some _ => http_log w
  | None => http_log w ++ [request_of q]
  end.
Proof.
  split; [by destruct q|].
  rewrite QueryFacts.run_cases.
  destruct (fresh_value q w); [reflexivity|].
  by destruct (fetch_result q (up (request_of q))).
Qed.

(** X6. Two different queries never share a cache entry: a call of one
    query leaves the entry of every other query as it was, because their
    keys differ. *)
Theorem queries_do_not_interfere up (q q' : query) (w : world) :
  q ≠ q' →
  key_of q ≠ key_of q' ∧
  cache (run up q w).2 !! key_of q' = cache w !! key_of q'.
Proof.
  intros Hne.
  assert (Hkey : key_of q ≠ key_of q').
  { intros Heq. by apply Hne, KeyFacts.key_of_inj. }
  split; [exact Hkey|].
  rewrite QueryFacts.run_cases.
  destruct (fresh_value q w); [reflexivity|].
  destruct (fetch_result q (up (request_of q))); simpl; [|reflexivity].
  by rewrite lookup_insert_ne.
Qed.

Lemma queries_do_not_interfere_sample :
  let up := Sample.answers 200 (Some (Sample.games_body (PList Sample.three_games))) 1 in
  TeamGames 14 2024 5 ≠ TeamGames 14 2024 25 ∧
  key_of (TeamGames 14 2024 5) ≠ key_of (TeamGames 14 2024 25) ∧
  cache (run up (TeamGames 14 2024 5) Sample.boot).2 !! key_of (TeamGames 14 2024 25) =
  cache Sample.boot !! key_of (TeamGames 14 2024 25).
Proof.
  intros up.
  assert (Hne : TeamGames 14 2024 5 ≠ TeamGames 14 2024 25) by discriminate.
  split; [exact Hne|].
  apply (queries_do_not_interfere up _ _ Sample.boot Hne).
Defined.

(** X7. Entries are never evicted: a key that has an entry before a call
    of a cached query or of [get_lakers_games] has one after it. *)
Theorem entries_are_never_evicted up (q : query) (season per_page : Z) (w : world)
    (key : string) :
  is_Some (cache w !! key) →
  is_Some (cache (run up q w).2 !! key) ∧
  is_Some (cache (get_lakers_games up season per_page w).2 !! key).
Proof.
  intros Hsome. split.
  - rewrite QueryFacts.run_cases.
    destruct (fresh_value q w); [assumption|].
    destruct (fetch_result q (up (request_of q))); simpl; [|assumption].
    destruct (decide (key_of q = key)) as [<-|Hne].
    + by rewrite lookup_insert_eq.
    + by rewrite lookup_insert_ne.
  - by rewrite NbaFacts.get_lakers_games_world.
Qed.

Lemma entries_are_never_evicted_sample :
  let w := at_time 600000000 (set_cache "team_14" Sample.lakers_tuple Sample.boot).2 in
  let up := Sample.answers 200 (Some (Sample.games_body (PList Sample.three_games))) 600000001 in
  is_Some (cache w !! "team_14") ∧
  is_Some (cache (run up (TeamGames 14 2024 25) w).2 !! "team_14") ∧
  is_Some (cache (get_lakers_games up 2023 50 w).2 !! "team_14").
Proof.
  intros w up.
  assert (Hsome : is_Some (cache w !! "team_14")) by (vm_compute; eauto).
  split; [exact Hsome|].
  apply (entries_are_never_evicted up (TeamGames 14 2024 25) 2023 50 w "team_14" Hsome).
Defined.

Lemma fresh_value_after_store (q : query) (w : world) (v : pyval) (t t' : Z) :
  cache w !! key_of q = Some (v, t) → v ≠ PNone → t' - t < CACHE_DURATION →
  fresh_value q (at_time t' w) = Some v.
Proof.
  intros Hk Hv Hfresh. unfold fresh_value. simpl. rewrite Hk.
  apply Z.ltb_lt in Hfresh. rewrite Hfresh. by destruct v.
Qed.

(** X8. A refresh, a hit, a fallback. When a cached query misses and the
    API delivers a servable value [v], the call returns [v]; every call
    during the next five minutes returns [v] and leaves the state alone,
    whatever the API would answer; and once the five minutes are over, a
    call that finds the API failing (error, bad status or bad body) still
    returns [v]. *)
Theorem refresh_then_hit_then_fallback up1 up2 up3 (q : query) (w : world) (v : pyval)
    (t2 t3 : Z) (e : exn) :
  fresh_value q w = None →
  fetch_result q (up1 (request_of q)) = Ok v →
  servable q v = true →
  t2 - rep_clock (up1 (request_of q)) < CACHE_DURATION →
  CACHE_DURATION ≤ t3 - rep_clock (up1 (request_of q)) →
  fetch_result q (up3 (request_of q)) = Raise e →
  let w1 := (run up1 q w).2 in
  let w2 := (run up2 q (at_time t2 w1)).2 in
  (run up1 q w).1 = Ok v ∧
  run up2 q (at_time t2 w1) = (Ok v, at_time t2 w1) ∧
  (run up3 q (at_time t3 w2)).1 = Ok v.
Proof.
  intros Hmiss Hfetch Hserv Ht2 Ht3 Hfail w1 w2.
  destruct (CacheFacts.servable_spec q v Hserv) as [Hnn Hv].
  assert (Hvn : v ≠ PNone) by (intros ->; discriminate).
  assert (Hw1 : w1 = requested up1 q w
                  (<[key_of q := (v, rep_clock (up1 (request_of q)))]> (cache w))).
  { unfold w1. by rewrite QueryFacts.run_cases, Hmiss, Hfetch. }
  assert (Hk1 : cache w1 !! key_of q = Some (v, rep_clock (up1 (request_of q)))).
  { rewrite Hw1. apply lookup_insert_eq. }
  assert (Hrun2 : run up2 q (at_time t2 w1) = (Ok v, at_time t2 w1)).
  { by rewrite QueryFacts.run_cases, (fresh_value_after_store q w1 v _ t2 Hk1 Hvn Ht2). }
  split_and!.
  - by rewrite QueryFacts.run_cases, Hmiss, Hfetch.
  - exact Hrun2.
  - assert (Hw2 : w2 = at_time t2 w1) by (unfold w2; by rewrite Hrun2).
    rewrite QueryFacts.run_cases. unfold fresh_value, fallback_value. rewrite Hw2. simpl.
    rewrite Hk1. replace (t3 - _ <? CACHE_DURATION) with false
      by (symmetry; apply Z.ltb_ge; lia).
    rewrite andb_false_r, Hfail. simpl. by rewrite Hv.
Qed.

(** X8 on the scenario of the design document: one game, 120 to 115 at
    home; a second call four minutes later; a third call an hour later
    with the API out of reach. *)
Lemma refresh_then_hit_then_fallback_sample :
  let q := TeamGames 14 2024 25 in
  let game := PList [PDict (Sample.raw_game "2024-03-01" Sample.lakers 120 Sample.celtics 115)] in
  let up1 := Sample.answers 200 (Some (Sample.games_body game)) 1000000 in
  let up2 := Sample.answers 500 None 241000001 in
  let up3 := Sample.unreachable 3601000001 in
  let w1 := (run up1 q Sample.boot).2 in
  let w2 := (run up2 q (at_time 241000000 w1)).2 in
  (fresh_value q Sample.boot = None ∧
   fetch_result q (up1 (request_of q)) = Ok game ∧
   servable q game = true ∧
   241000000 - rep_clock (up1 (request_of q)) < CACHE_DURATION ∧
   CACHE_DURATION ≤ 3601000000 - rep_clock (up1 (request_of q)) ∧
   fetch_result q (up3 (request_of q)) = Raise RequestException) ∧
  (run up1 q Sample.boot).1 = Ok game ∧
  run up2 q (at_time 241000000 w1) = (Ok game, at_time 241000000 w1) ∧
  (run up3 q (at_time 3601000000 w2)).1 = Ok game.
Proof.
  intros q game up1 up2 up3 w1 w2.
  assert (H1 : fresh_value q Sample.boot = None) by reflexivity.
  assert (H2 : fetch_result q (up1 (request_of q)) = Ok game) by reflexivity.
  assert (H3 : servable q game = true) by reflexivity.
  assert (H4 : 241000000 - rep_clock (up1 (request_of q)) < CACHE_DURATION)
    by (vm_compute; reflexivity).
  assert (H5 : CACHE_DURATION ≤ 3601000000 - rep_clock (up1 (request_of q)))
    by (vm_compute; discriminate).
  assert (H6 : fetch_result q (up3 (request_of q)) = Raise RequestException) by reflexivity.
  split; [by split_and!|].
  apply (refresh_then_hit_then_fallback up1 up2 up3 q Sample.boot game
           241000000 3601000000 RequestException H1 H2 H3 H4 H5 H6).
Defined.

(** X9. A 200 response whose body cannot be used counts as a failure: if
    the body is not JSON, or is JSON without the members the query reads
    (for the team: "data" with "name", "city" and "abbreviation"; for the
    games: any JSON object will do), a call that misses returns the
    fallback value and writes nothing to the cache. *)
Theorem unusable_body_is_a_failure up (q : query) (w : world) (resp : response) :
  fresh_value q w = None →
  rep_outcome (up (request_of q)) = Ok resp →
  status_code resp = 200 →
  match json_body resp with
  | None => True
  | Some body => ∃ e, decoded q body = Raise e
  end →
  run up q w = (Ok (fallback_value q w), requested up q w (cache w)).
Proof.
  intros Hmiss Hresp Hstatus Hbody.
  rewrite QueryFacts.run_cases, Hmiss. unfold fetch_result. rewrite Hresp, Hstatus. simpl.
  destruct (json_body resp) as [body|]; [|reflexivity].
  destruct Hbody as [e ->]. reflexivity.
Qed.

(** X9 on a team without a city, an hour after the team was stored. *)
Lemma unusable_body_is_a_failure_sample :
  let w := at_time 3600000000 (set_cache (key_of TeamInfo) Sample.lakers_tuple Sample.boot).2 in
  let body := PDict [("data", PDict [("name", PStr "Lakers"); ("abbreviation", PStr "LAL")])] in
  let resp := Response 200 (Some body) in
  let up := Sample.answers 200 (Some body) 3600000001 in
  (fresh_value TeamInfo w = None ∧
   rep_outcome (up (request_of TeamInfo)) = Ok resp ∧
   status_code resp = 200 ∧
   ∃ e, decoded TeamInfo body = Raise e) ∧
  run up TeamInfo w = (Ok Sample.lakers_tuple, requested up TeamInfo w (cache w)).
Proof.
  intros w body resp up.
  assert (H1 : fresh_value TeamInfo w = None) by (vm_compute; reflexivity).
  assert (H2 : rep_outcome (up (request_of TeamInfo)) = Ok resp) by reflexivity.
  assert (H3 : status_code resp = 200) by reflexivity.
  assert (H4 : ∃ e, decoded TeamInfo body = Raise e) by (by exists KeyError).
  split; [by split_and!|].
  replace (Ok Sample.lakers_tuple) with (Ok (A := pyval) (fallback_value TeamInfo w))
    by (vm_compute; reflexivity).
  apply (unusable_body_is_a_failure up TeamInfo w resp H1 H2 H3 H4).
Defined.

(** X10. A 200 response whose JSON object has no "data" member is a
    success for [get_team_games]: the empty list is returned and stored,
    and for the next five minutes every call returns the empty list
    without asking the API again. *)
Theorem missing_data_is_cached_as_empty up up' (team_id season per_page : Z) (w : world)
    (resp : response) (b : list (string * pyval)) (t : Z) :
  let q := TeamGames team_id season per_page in
  fresh_value q w = None →
  rep_outcome (up (request_of q)) = Ok resp →
  status_code resp = 200 →
  json_body resp = Some (PDict b) →
  dict_lookup "data" b = None →
  t - rep_clock (up (request_of q)) < CACHE_DURATION →
  let w1 := (get_team_games up team_id season per_page w).2 in
  (get_team_games up team_id season per_page w).1 = Ok (PList []) ∧
  get_team_games up' team_id season per_page (at_time t w1) = (Ok (PList []), at_time t w1).
Proof.
  intros q Hmiss Hresp Hstatus Hbody Hdata Ht w1.
  assert (Hfetch : fetch_result q (up (request_of q)) = Ok (PList [])).
  { unfold fetch_result. rewrite Hresp, Hstatus, Hbody. simpl. by rewrite Hdata. }
  assert (Hrun : run up q w =
            (Ok (PList []), requested up q w
               (<[key_of q := (PList [], rep_clock (up (request_of q)))]> (cache w)))).
  { by rewrite QueryFacts.run_cases, Hmiss, Hfetch. }
  change (get_team_games up team_id season per_page w) with (run up q w) in *.
  change (get_team_games up' team_id season per_page (at_time t w1))
    with (run up' q (at_time t w1)).
  split; [by rewrite Hrun|].
  rewrite QueryFacts.run_cases.
  rewrite (fresh_value_after_store q w1 (PList []) (rep_clock (up (request_of q))) t);
    [reflexivity| |discriminate|exact Ht].
  unfold w1. rewrite Hrun. apply lookup_insert_eq.
Qed.

Lemma missing_data_is_cached_as_empty_sample :
  let q := TeamGames 14 2024 25 in
  let resp := Response 200 (Some (PDict [])) in
  let up := Sample.answers 200 (Some (PDict [])) 1 in
  let up' := Sample.answers 200 (Some (Sample.games_body (PList Sample.three_games))) 3 in
  let w1 := (get_team_games up 14 2024 25 Sample.boot).2 in
  (fresh_value q Sample.boot = None ∧
   rep_outcome (up (request_of q)) = Ok resp ∧
   status_code resp = 200 ∧
   json_body resp = Some (PDict []) ∧
   dict_lookup "data" ([] : list (string * pyval)) = None ∧
   2 - rep_clock (up (request_of q)) < CACHE_DURATION) ∧
  (get_team_games up 14 2024 25 Sample.boot).1 = Ok (PList []) ∧
  get_team_games up' 14 2024 25 (at_time 2 w1) = (Ok (PList []), at_time 2 w1).
Proof.
  intros q resp up up' w1.
  assert (H6 : 2 - rep_clock (up (request_of q)) < CACHE_DURATION) by (vm_compute; reflexivity).
  split; [by split_and!|].
  apply (missing_data_is_cached_as_empty up up' 14 2024 25 Sample.boot resp [] 2
           eq_refl eq_refl eq_refl eq_refl eq_refl H6).
Defined.

Lemma team_fetch_is_triple (r : reply) (v : pyval) :
  fetch_result TeamInfo r = Ok v → is_triple v = true.
Proof.
  unfold fetch_result. intros Hfetch.
  destruct (rep_outcome r) as [resp|]; [|discriminate].
  destruct (negb _); [discriminate|].
  destruct (json_body resp) as [body|]; [|discriminate].
  unfold decoded in Hfetch.
  destruct (py_getitem body "data") as [data|]; [|discriminate].
  simpl in Hfetch.
  repeat match type of Hfetch with
         | context [py_getitem ?a ?k] => destruct (py_getitem a k); simpl in Hfetch
         end; try discriminate.
  by injection Hfetch as <-.
Qed.

Lemma reachable_team_entry (w : world) (v : pyval) (ts : Z) :
  reachable w → cache w !! key_of TeamInfo = Some (v, ts) → is_triple v = true.
Proof.
  intros Hreach. revert v ts.
  induction Hreach as [t|t w _ IH|up q w _ IH|up season per_page w _ IH].
  - intros v ts Hk. simpl in Hk. by rewrite lookup_empty in Hk.
  - exact IH.
  - rewrite QueryFacts.run_cases.
    destruct (fresh_value q w); [exact IH|].
    destruct (fetch_result q (up (request_of q))) as [v'|] eqn:Hfetch; [|exact IH].
    simpl. intros v ts.
    destruct (decide (key_of q = key_of TeamInfo)) as [Heq|Hne].
    + rewrite Heq, lookup_insert_eq. intros [= <- _].
      apply KeyFacts.key_of_inj in Heq as ->. by eapply team_fetch_is_triple.
    + rewrite lookup_insert_ne by done. apply IH.
  - rewrite NbaFacts.get_lakers_games_world. exact IH.
Qed.

(** X11. In every state a process can reach, [get_fixed_team] returns
    [None] or a tuple of three items: the cache never holds anything else
    under the key of the team, since no other query writes under it. *)
Theorem team_is_none_or_triple up (w : world) (v : pyval) :
  reachable w →
  (get_fixed_team up w).1 = Ok v →
  v = PNone ∨ is_triple v = true.
Proof.
  intros Hreach.
  change (get_fixed_team up w) with (run up TeamInfo w).
  rewrite QueryFacts.run_cases. unfold fresh_value, fallback_value.
  destruct (cache w !! key_of TeamInfo) as [[v' ts]|] eqn:Hk.
  - pose proof (reachable_team_entry w v' ts Hreach Hk) as Htriple.
    destruct (py_is_not_none v' && _); [intros [= <-]; by right|].
    destruct (fetch_result _ _) as [v''|] eqn:Hfetch; simpl.
    + intros [= <-]. right. by eapply team_fetch_is_triple.
    + destruct (py_truthy v'); intros [= <-]; auto.
  - destruct (fetch_result _ _) as [v''|] eqn:Hfetch; simpl.
    + intros [= <-]. right. by eapply team_fetch_is_triple.
    + intros [= <-]. by left.
Qed.

(** X11 in the state reached by storing games and then asking for the
    team. *)
Lemma team_is_none_or_triple_sample :
  let up := Sample.answers 200 (Some Sample.team_body) 2 in
  let w := (run (Sample.answers 200 (Some (Sample.games_body (PList Sample.three_games))) 1)
              (TeamGames 14 2024 25) Sample.boot).2 in
  reachable w ∧
  (get_fixed_team up w).1 = Ok Sample.lakers_tuple ∧
  (Sample.lakers_tuple = PNone ∨ is_triple Sample.lakers_tuple = true).
Proof.
  intros up w.
  assert (Hreach : reachable w) by (apply reachable_query, reachable_boot).
  assert (Hrun : (get_fixed_team up w).1 = Ok Sample.lakers_tuple) by (vm_compute; reflexivity).
  split_and!; [exact Hreach|exact Hrun|].
  apply (team_is_none_or_triple up w Sample.lakers_tuple Hreach Hrun).
Defined.

(** ** Normalisation and sorting, further *)

Module SortFacts.
Import Nba Props Outcome.

Lemma ltb_irrefl (s : string) : String.ltb s s = false.
Proof.
  unfold String.ltb. pose proof (String.compare_antisym s s) as H.
  by destruct (String.compare s s).
Qed.

Lemma py_lt_str_l (s : string) (k : pyval) (b : bool) :
  py_lt (PStr s) k = Ok b → ∃ t, k = PStr t ∧ b = String.ltb s t.
Proof.
  destruct k; try discriminate. unfold py_lt. simpl. intros [= <-]. eauto.
Qed.

Lemma sort_insert_stable (s : string) kx l r :
  sort_insert kx l = Ok r → filter (λ p, keyed_on s p = true) r
                           = filter (λ p, keyed_on s p = true) (kx :: l).
Proof.
  revert r. induction l as [|ky l IH]; intros r; simpl.
  - by intros [= <-].
  - unfold mbind, result_bind, mret, result_ret.
    destruct (py_lt ky.1 kx.1) as [[]|] eqn:Hlt; [| |discriminate].
    + destruct (sort_insert kx l) as [r'|]; [|discriminate].
      intros [= <-]. rewrite !filter_cons, (IH r' eq_refl), !filter_cons.
      destruct (decide (keyed_on s ky = true)) as [Hky|Hky]; [|reflexivity].
      destruct (decide (keyed_on s kx = true)) as [Hkx|Hkx]; [|reflexivity].
      exfalso. unfold keyed_on in Hky, Hkx.
      destruct ky.1 as [| | |sy| | |] eqn:Ey; try discriminate.
      apply py_lt_str_l in Hlt as (sx & Ex & Hlt). rewrite Ex in Hkx.
      apply String.eqb_eq in Hky as <-. apply String.eqb_eq in Hkx as <-.
      by rewrite ltb_irrefl in Hlt.
    + by intros [= <-].
Qed.

Lemma sort_keyed_stable (s : string) l r :
  sort_keyed l = Ok r → filter (λ p, keyed_on s p = true) r
                        = filter (λ p, keyed_on s p = true) l.
Proof.
  revert r. induction l as [|kx l IH]; intros r; simpl.
  - by intros [= <-].
  - unfold mbind, result_bind.
    destruct (sort_keyed l) as [r'|]; [|discriminate].
    intros Hins. rewrite (sort_insert_stable s _ _ _ Hins), !filter_cons.
    by rewrite (IH r' eq_refl).
Qed.

Lemma dated_on_keyed (s : string) (p : pyval * pyval) :
  date_key p.2 = Ok p.1 → dated_on s p.2 = keyed_on s p.
Proof.
  destruct p as [k x]. simpl. unfold date_key, py_getitem, dated_on, keyed_on, record_field.
  destruct x; try discriminate. simpl.
  destruct (dict_lookup "date" d); [|discriminate]. by intros [= ->].
Qed.

Lemma filter_snd_keyed (s : string) (l : list (pyval * pyval)) :
  Forall (λ p, date_key p.2 = Ok p.1) l →
  filter (λ r, dated_on s r = true) (l.*2) = (filter (λ p, keyed_on s p = true) l).*2.
Proof.
  induction 1 as [|p l Hp _ IH]; [reflexivity|].
  rewrite fmap_cons, !filter_cons, IH, (dated_on_keyed s p Hp).
  by destruct (decide (keyed_on s p = true)).
Qed.

Lemma zip_keys_dated (l keys : list pyval) :
  mapM date_key l = Ok keys → Forall (λ p, date_key p.2 = Ok p.1) (zip keys l).
Proof.
  intros Hkeys. apply NbaFacts.mapM_result_Forall2 in Hkeys.
  induction Hkeys; simpl; constructor; auto.
Qed.

Lemma list_sort_stable (s : string) l r :
  list_sort date_key l = Ok r →
  filter (λ x, dated_on s x = true) r = filter (λ x, dated_on s x = true) l.
Proof.
  unfold list_sort.
  destruct (mapM date_key l) as [keys|] eqn:Hkeys; [|discriminate].
  rewrite NbaFacts.result_bind_Ok.
  destruct (sort_keyed (zip keys l)) as [sorted|] eqn:Hsorted; [|discriminate].
  intros [= <-].
  pose proof (zip_keys_dated l keys Hkeys) as Hzip.
  rewrite filter_snd_keyed by (by rewrite (NbaFacts.sort_keyed_perm _ _ Hsorted)).
  rewrite (sort_keyed_stable s _ _ Hsorted), <- filter_snd_keyed by assumption.
  rewrite snd_zip; [done|].
  apply NbaFacts.mapM_result_Forall2, Forall2_length in Hkeys. lia.
Qed.

Lemma mapM_result_raise {A B : Type} (f : A → result B) (good rest : list A) (bad : A) e :
  Forall (λ x, ∃ y, f x = Ok y) good → f bad = Raise e →
  mapM f (good ++ bad :: rest) = Raise e.
Proof.
  intros Hgood Hbad. induction Hgood as [|x good [y Hy] _ IH].
  - by rewrite app_nil_l, NbaFacts.mapM_result_cons, Hbad.
  - by rewrite <- app_comm_cons, NbaFacts.mapM_result_cons, Hy, IH.
Qed.

End SortFacts.

Module LakersFacts.
Import Nba Props Outcome.

(** The value of [get_lakers_games], read off the answer of the API. *)
Lemma get_lakers_games_value up (season per_page : Z) (w : world) :
  (get_lakers_games up season per_page w).1 =
  match rep_outcome (up (lakers_request season per_page)) with
  | Raise e => Raise e
  | Ok resp =>
      if negb (status_code resp =? 200) then Ok (PList [])
      else
        match json_body resp with
        | None => Raise ValueError
        | Some body =>
            games ← py_get body "data" (PList []);
            items ← py_iter games;
            processed ← mapM process_game items;
            sorted ← list_sort date_key processed;
            mret (PList sorted)
        end
  end.
Proof.
  unfold get_lakers_games. cbv zeta.
  change (Request _ _ None) with (lakers_request season per_page).
  generalize (lakers_request season per_page). intros req.
  unfold mbind at 1. unfold M_bind, requests_get.
  destruct (rep_outcome (up req)) as [resp|e]; [|reflexivity].
  destruct (negb (status_code resp =? 200)); [reflexivity|].
  unfold mbind at 1, M_bind, response_json, lift, mret, M_ret, raise.
  destruct (json_body resp) as [body|]; [|reflexivity].
  unfold mbind at 1. unfold M_bind.
  destruct (py_get body "data" (PList [])) as [games|]; [|reflexivity].
  rewrite NbaFacts.result_bind_Ok. unfold mbind at 1. unfold M_bind.
  destruct (py_iter games) as [items|]; [|reflexivity].
  rewrite NbaFacts.result_bind_Ok. unfold mbind at 1. unfold M_bind.
  destruct (mapM process_game items) as [processed|]; [|reflexivity].
  rewrite NbaFacts.result_bind_Ok. unfold mbind at 1. unfold M_bind.
  change (λ x, py_getitem x "date") with date_key.
  destruct (list_sort date_key processed); reflexivity.
Qed.

End LakersFacts.

(** X12. [get_lakers_games] has no fallback of its own: a network error
    and a 200 response whose body is not JSON both reach the caller as an
    exception, after the one request has been sent. *)
Theorem lakers_games_lets_errors_through up (season per_page : Z) (w : world) :
  match rep_outcome (up (lakers_request season per_page)) with
  | Raise _ => True
  | Ok resp => status_code resp = 200 ∧ json_body resp = None
  end →
  ∃ e, get_lakers_games up season per_page w =
       (Raise e,
        World (cache w) (rep_clock (up (lakers_request season per_page)))
          (http_log w ++ [lakers_request season per_page])).
Proof.
  intros Hfail.
  assert (∃ e, (get_lakers_games up season per_page w).1 = Raise e) as [e He].
  { rewrite LakersFacts.get_lakers_games_value.
    destruct (rep_outcome _) as [resp|e]; [|by eexists].
    destruct Hfail as [-> ->]. by eexists. }
  exists e. rewrite <- He, <- NbaFacts.get_lakers_games_world.
  by destruct (get_lakers_games up season per_page w).
Qed.

Lemma lakers_games_lets_errors_through_sample :
  let up := Sample.unreachable 1 in
  match rep_outcome (up (lakers_request 2023 50)) with
  | Raise _ => True
  | Ok resp => status_code resp = 200 ∧ json_body resp = None
  end ∧
  ∃ e, get_lakers_games up 2023 50 Sample.boot =
       (Raise e,
        World (cache Sample.boot) (rep_clock (up (lakers_request 2023 50)))
          (http_log Sample.boot ++ [lakers_request 2023 50])).
Proof.
  intros up. split; [exact I|].
  apply (lakers_games_lets_errors_through up 2023 50 Sample.boot). exact I.
Defined.

(** X13. One record that does not normalise stops the whole call: if the
    records before it normalise and [process_game] raises on it,
    [get_lakers_games] raises the same exception and returns no record at
    all. *)
Theorem one_bad_record_aborts up (season per_page : Z) (w : world) (resp : response)
    (body : pyval) (good rest : list pyval) (bad : pyval) (e : exn) :
  rep_outcome (up (lakers_request season per_page)) = Ok resp →
  status_code resp = 200 →
  json_body resp = Some body →
  py_get body "data" (PList []) = Ok (PList (good ++ bad :: rest)) →
  forallb partial_game good = true →
  process_game bad = Raise e →
  (get_lakers_games up season per_page w).1 = Raise e.
Proof.
  intros Hresp Hstatus Hbody Hdata Hgood Hbad.
  rewrite LakersFacts.get_lakers_games_value, Hresp, Hstatus, Hbody.
  change (negb (200 =? 200)) with false. cbv iota.
  rewrite Hdata, NbaFacts.result_bind_Ok.
  change (py_iter (PList (good ++ bad :: rest))) with (Ok (good ++ bad :: rest)).
  rewrite NbaFacts.result_bind_Ok.
  rewrite (SortFacts.mapM_result_raise process_game good rest bad e); [reflexivity| |exact Hbad].
  apply Forall_forall. intros game Hgame. rewrite forallb_forall in Hgood.
  destruct (NbaFacts.partial_game_normalised game) as [r Hr].
  { apply Hgood. by apply list_elem_of_In. }
  exists r. by apply NbaFacts.process_game_normalised.
Qed.

(** X13 on three games followed by a record whose home team is null. *)
Lemma one_bad_record_aborts_sample :
  let bad := PDict [("date", PStr "2024-03-05"); ("home_team", PNone)] in
  let body := Sample.games_body (PList (Sample.three_games ++ bad :: [])) in
  let resp := Response 200 (Some body) in
  let up := Sample.answers 200 (Some body) 1 in
  (rep_outcome (up (lakers_request 2023 50)) = Ok resp ∧
   status_code resp = 200 ∧
   json_body resp = Some body ∧
   py_get body "data" (PList []) = Ok (PList (Sample.three_games ++ bad :: [])) ∧
   forallb partial_game Sample.three_games = true ∧
   process_game bad = Raise AttributeError) ∧
  (get_lakers_games up 2023 50 Sample.boot).1 = Raise AttributeError.
Proof.
  intros bad body resp up. split; [by split_and!|].
  apply (one_bad_record_aborts up 2023 50 Sample.boot resp body Sample.three_games [] bad
           AttributeError eq_refl eq_refl eq_refl eq_refl eq_refl eq_refl).
Defined.

(** X14. The sort keeps every record and is stable: the list returned
    holds the normalised record of each raw record once, and the records
    of one date come in the order in which the API sent them. *)
Theorem same_day_games_keep_order up (season per_page : Z) (w : world) (resp : response)
    (body : pyval) (items processed l : list pyval) (day : string) :
  rep_outcome (up (lakers_request season per_page)) = Ok resp →
  status_code resp = 200 →
  json_body resp = Some body →
  py_get body "data" (PList []) = Ok (PList items) →
  mapM process_game items = Ok processed →
  (get_lakers_games up season per_page w).1 = Ok (PList l) →
  l ≡ₚ processed ∧
  filter (λ r, dated_on day r = true) l = filter (λ r, dated_on day r = true) processed.
Proof.
  intros Hresp Hstatus Hbody Hdata Hproc.
  rewrite LakersFacts.get_lakers_games_value, Hresp, Hstatus, Hbody.
  change (negb (200 =? 200)) with false. cbv iota.
  rewrite Hdata, NbaFacts.result_bind_Ok.
  change (py_iter (PList items)) with (Ok items).
  rewrite NbaFacts.result_bind_Ok, Hproc, NbaFacts.result_bind_Ok.
  destruct (list_sort date_key processed) as [sorted|] eqn:Hsort; [|discriminate].
  intros [= <-]. split.
  - by eapply NbaFacts.list_sort_perm.
  - by apply SortFacts.list_sort_stable.
Qed.

(** X14 on two games of the same day around an earlier one. *)
Lemma same_day_games_keep_order_sample :
  let items :=
    [PDict (Sample.raw_game "2024-03-01" Sample.lakers 120 Sample.celtics 115);
     PDict (Sample.raw_game "2024-01-10" Sample.celtics 101 Sample.lakers 99);
     PDict (Sample.raw_game "2024-03-01" Sample.celtics 95 Sample.lakers 98)] in
  let r1 := game_record (PStr "2024-03-01") (PInt 120) (PInt 115) (PStr "Boston Celtics")
              (PStr "Home") (PBool true) (PInt 5) (PStr "Final") in
  let r2 := game_record (PStr "2024-01-10") (PInt 99) (PInt 101) (PStr "Boston Celtics")
              (PStr "Away") (PBool false) (PInt (-2)) (PStr "Final") in
  let r3 := game_record (PStr "2024-03-01") (PInt 98) (PInt 95) (PStr "Boston Celtics")
              (PStr "Away") (PBool true) (PInt 3) (PStr "Final") in
  let body := Sample.games_body (PList items) in
  let resp := Response 200 (Some body) in
  let up := Sample.answers 200 (Some body) 1 in
  (rep_outcome (up (lakers_request 2023 50)) = Ok resp ∧
   status_code resp = 200 ∧
   json_body resp = Some body ∧
   py_get body "data" (PList []) = Ok (PList items) ∧
   mapM process_game items = Ok [r1; r2; r3] ∧
   (get_lakers_games up 2023 50 Sample.boot).1 = Ok (PList [r2; r1; r3])) ∧
  [r2; r1; r3] ≡ₚ [r1; r2; r3] ∧
  filter (λ r, dated_on "2024-03-01" r = true) [r2; r1; r3] =
  filter (λ r, dated_on "2024-03-01" r = true) [r1; r2; r3].
Proof.
  intros items r1 r2 r3 body resp up.
  assert (Hrun : (get_lakers_games up 2023 50 Sample.boot).1 = Ok (PList [r2; r1; r3]))
    by (vm_compute; reflexivity).
  split; [by split_and!|].
  apply (same_day_games_keep_order up 2023 50 Sample.boot resp body items [r1; r2; r3]
           [r2; r1; r3] "2024-03-01" eq_refl eq_refl eq_refl eq_refl eq_refl Hrun).
Defined.

(** X15. The side of the Lakers is read off the id of the home team
    alone. A record in which neither team has id 14 normalises all the
    same, as an away game of the Lakers: the visitor's score is reported
    as [lakers_score], the home team's as [opponent_score]. *)
Theorem game_without_lakers_is_away (d home visitor : list (string * pyval)) (m n : Z) :
  raw_game_has d (PDict home) (PDict visitor) (PInt m) (PInt n) →
  py_eq (raw_field home "id" PNone) (PInt LAKERS_TEAM_ID) = false →
  py_eq (raw_field visitor "id" PNone) (PInt LAKERS_TEAM_ID) = false →
  process_game (PDict d) =
  Ok (game_record (raw_field d "date" (PStr "")) (PInt n) (PInt m)
        (raw_field home "full_name" (PStr "Unknown")) (PStr "Away")
        (PBool (m <? n)) (PInt (n - m)) (raw_field d "status" (PStr ""))).
Proof.
  intros (Hh & Hv & Hhs & Hvs) Hhome _.
  apply NbaFacts.process_game_normalised.
  replace (PInt m) with (raw_field d "home_team_score" (PInt 0))
    by (unfold raw_field; by rewrite Hhs).
  replace (PInt n) with (raw_field d "visitor_team_score" (PInt 0))
    by (unfold raw_field; by rewrite Hvs).
  apply normalised_away with (home_team := home);
    unfold raw_field; rewrite ?Hh, ?Hhs, ?Hvs; done.
Qed.

Lemma game_without_lakers_is_away_sample :
  let heat := [("id", PInt 16); ("full_name", PStr "Miami Heat")] in
  let d := Sample.raw_game "2024-01-10" Sample.celtics 110 heat 105 in
  (raw_game_has d (PDict Sample.celtics) (PDict heat) (PInt 110) (PInt 105) ∧
   py_eq (raw_field Sample.celtics "id" PNone) (PInt LAKERS_TEAM_ID) = false ∧
   py_eq (raw_field heat "id" PNone) (PInt LAKERS_TEAM_ID) = false) ∧
  process_game (PDict d) =
  Ok (game_record (PStr "2024-01-10") (PInt 105) (PInt 110) (PStr "Boston Celtics")
        (PStr "Away") (PBool false) (PInt (-5)) (PStr "Final")).
Proof.
  intros heat d. split; [by repeat split|].
  apply (game_without_lakers_is_away d Sample.celtics heat 110 105); by repeat split.
Defined.

(** X16. A field that is there but null is not defaulted: the defaults of
    [process_game] are for missing keys only. With a null home team, home
    score or visitor score, [process_game] raises. *)
Theorem null_field_is_not_defaulted (d : list (string * pyval)) :
  dict_lookup "home_team" d = Some PNone ∨
  dict_lookup "home_team_score" d = Some PNone ∨
  dict_lookup "visitor_team_score" d = Some PNone →
  ∃ e, process_game (PDict d) = Raise e.
Proof.
  intros Hnull.
  destruct (process_game (PDict d)) as [r|e] eqn:Hrun; [|by eexists].
  exfalso. apply NbaFacts.process_game_normalised in Hrun.
  inversion Hrun as [d' ht vt m n Hht _ _ Hm Hn|d' ht m n Hht _ Hm Hn]; subst;
    unfold raw_field in *;
    destruct Hnull as [H|[H|H]]; rewrite H in *; discriminate.
Qed.

Lemma null_field_is_not_defaulted_sample :
  let d := [("home_team", PDict Sample.lakers); ("home_team_score", PNone)] in
  (dict_lookup "home_team" d = Some PNone ∨
   dict_lookup "home_team_score" d = Some PNone ∨
   dict_lookup "visitor_team_score" d = Some PNone) ∧
  ∃ e, process_game (PDict d) = Raise e.
Proof.
  intros d.
  assert (Hnull : dict_lookup "home_team" d = Some PNone ∨
                  dict_lookup "home_team_score" d = Some PNone ∨
                  dict_lookup "visitor_team_score" d = Some PNone)
    by (right; left; reflexivity).
  split; [exact Hnull|]. apply (null_field_is_not_defaulted d Hnull).
Defined.
(** ** Loops, counts and sums *)

Module LoopFacts.
Import PyMore Tally.

Lemma mapM_result_map {A B : Type} (f : A → result B) (g : A → B) (l : list A) :
  Forall (λ x, f x = Ok (g x)) l → mapM f l = Ok (map g l).
Proof.
  induction 1 as [|x l Hx _ IH]; [reflexivity|].
  by rewrite NbaFacts.mapM_result_cons, Hx, IH.
Qed.

Lemma filter_result_Ok {A : Type} (test : A → result bool) (p : A → bool) (l : list A) :
  Forall (λ x, test x = Ok (p x)) l → filter_result test l = Ok (List.filter p l).
Proof.
  induction 1 as [|x l Hx _ IH]; [reflexivity|].
  simpl. rewrite Hx, NbaFacts.result_bind_Ok, IH, NbaFacts.result_bind_Ok.
  by destruct (p x).
Qed.

Lemma count_if_Ok {A : Type} (test : A → result bool) (p : A → bool) (l : list A) :
  Forall (λ x, test x = Ok (p x)) l → count_if test l = Ok (count p l).
Proof.
  unfold count. induction 1 as [|x l Hx _ IH]; [reflexivity|].
  simpl. rewrite Hx, NbaFacts.result_bind_Ok, IH, NbaFacts.result_bind_Ok.
  destruct (p x); simpl; f_equal; lia.
Qed.

Lemma count_bounds {A : Type} (p : A → bool) (l : list A) :
  0 ≤ count p l ≤ Z.of_nat (length l).
Proof.
  unfold count. pose proof (List.filter_length_le p l). lia.
Qed.

(** A count over the whole list is the sum of the counts over two parts
    that split the list. *)
Lemma count_split {A : Type} (p q1 q2 : A → bool) (l : list A) :
  Forall (λ x, q2 x = negb (q1 x)) l →
  count p (List.filter q1 l) + count p (List.filter q2 l) = count p l ∧
  Z.of_nat (length (List.filter q1 l)) + Z.of_nat (length (List.filter q2 l)) =
    Z.of_nat (length l).
Proof.
  unfold count. induction 1 as [|x l Hx _ [IH1 IH2]]; [done|].
  simpl. rewrite Hx. destruct (q1 x); simpl; destruct (p x); simpl; lia.
Qed.

Lemma count_if_bounds {A : Type} (test : A → result bool) (l : list A) (n : Z) :
  count_if test l = Ok n → 0 ≤ n ≤ Z.of_nat (length l).
Proof.
  revert n. induction l as [|x l IH]; intros n; simpl.
  - intros [= <-]. done.
  - destruct (test x) as [b|]; [|discriminate]. rewrite NbaFacts.result_bind_Ok.
    destruct (count_if test l) as [k|]; [|discriminate].
    rewrite NbaFacts.result_bind_Ok. intros [= <-].
    specialize (IH k eq_refl). destruct b; lia.
Qed.

Lemma py_sum_from_total (acc : Z) (l : list pyval) :
  Forall (λ v, is_number v = true) l → ∃ t, py_sum_from acc l = Ok t.
Proof.
  intros Hl. revert acc. induction Hl as [|v l Hv _ IH]; intros acc; simpl; [eauto|].
  unfold is_number in Hv. destruct (py_num v); [apply IH|discriminate].
Qed.

Lemma py_average_Ok (l : list pyval) (a : average) :
  py_average l = Ok a →
  match l with
  | [] => a = Zero
  | _ :: _ => ∃ t, py_sum l = Ok t ∧ a = Quotient t (Z.of_nat (length l))
  end.
Proof.
  destruct l as [|v l]; simpl.
  - by intros [= <-].
  - unfold py_sum. simpl. destruct (py_num v) as [n|]; [|discriminate].
    destruct (py_sum_from (0 + n) l) as [t|]; [|discriminate].
    rewrite NbaFacts.result_bind_Ok. intros [= <-]. eauto.
Qed.

Lemma py_average_numbers (l : list pyval) :
  Forall (λ v, is_number v = true) l → l ≠ [] →
  ∃ t, py_sum l = Ok t ∧ py_average l = Ok (Quotient t (Z.of_nat (length l))).
Proof.
  intros Hl Hne. destruct l as [|v l]; [done|].
  destruct (py_sum_from_total 0 (v :: l) Hl) as [t Ht].
  exists t. split; [exact Ht|]. unfold py_average, py_sum. by rewrite Ht.
Qed.

(** A loop raises as soon as its body raises on one item, whatever the
    variables hold at that point. *)
Lemma for_loop_raises {A S : Type} (body : A → S → result S) (l : list A) (x : A) (s : S) :
  x ∈ l → (∀ s', ∃ e, body x s' = Raise e) → ∃ e, for_loop body l s = Raise e.
Proof.
  intros Hin Hx. revert s. induction Hin as [x l|x y l _ IH]; intros s; simpl.
  - destruct (Hx s) as [e ->]. eauto.
  - destruct (body y s) as [s'|e]; [|eauto].
    rewrite NbaFacts.result_bind_Ok. apply IH, Hx.
Qed.




End LoopFacts.
(** ** The records of [get_lakers_games] in the dashboard *)

Module DashFacts.
Import PyMore Tally Dash.

Lemma normalised_processed game r : normalised game r → processed_record r.
Proof.
  destruct 1 as [d home_team visitor_team m n _ _ _ Hm Hn|d home_team m n _ _ Hm Hn].
  - by eexists _, _, _, _, true, m, n, _.
  - by eexists _, _, _, _, false, m, n, _.
Qed.

Lemma Forall_list_filter {A : Type} (P : A → Prop) (p : A → bool) (l : list A) :
  Forall P l → Forall P (List.filter p l).
Proof.
  induction 1 as [|x l Hx _ IH]; simpl; [constructor|].
  destruct (p x); [by constructor|assumption].
Qed.

(** What [get_lakers_games] returns is a list of records of [process_game]. *)
Lemma lakers_games_are_records up season per_page w v :
  (get_lakers_games up season per_page w).1 = Ok v →
  ∃ rs, v = PList rs ∧ Forall processed_record rs.
Proof.
  intros Hrun. apply NbaFacts.get_lakers_games_Ok in Hrun as (resp & _ & Hcases).
  destruct Hcases as [[_ ->]|(_ & body & games & items & processed & sorted & Hrest)].
  - exists []. by split.
  - destruct Hrest as (_ & _ & _ & Hproc & Hsort & ->).
    exists sorted. split; [reflexivity|].
    apply NbaFacts.list_sort_perm in Hsort. rewrite Hsort. clear Hsort.
    apply NbaFacts.mapM_result_Forall2 in Hproc.
    induction Hproc as [|game r items processed Hr _ IH]; constructor; [|exact IH].
    by eapply normalised_processed, NbaFacts.process_game_normalised.
Qed.

Ltac by_shape :=
  intros (date & ls & os & opp & home & m & n & st & -> & Hm & Hn);
  try reflexivity.

Lemma record_getitem_date r : processed_record r → py_getitem r "date" = Ok (field "date" r).
Proof. by_shape. Qed.
Lemma record_getitem_lakers_score r :
  processed_record r → py_getitem r "lakers_score" = Ok (field "lakers_score" r).
Proof. by_shape. Qed.
Lemma record_getitem_opponent_score r :
  processed_record r → py_getitem r "opponent_score" = Ok (field "opponent_score" r).
Proof. by_shape. Qed.
Lemma record_getitem_opponent r :
  processed_record r → py_getitem r "opponent" = Ok (field "opponent" r).
Proof. by_shape. Qed.
Lemma record_getitem_point_diff r :
  processed_record r → py_getitem r "point_diff" = Ok (field "point_diff" r).
Proof. by_shape. Qed.
Lemma record_getitem_location r :
  processed_record r → py_getitem r "location" = Ok (field "location" r).
Proof. by_shape. Qed.
Lemma record_getitem_won r : processed_record r → py_getitem r "won" = Ok (field "won" r).
Proof. by_shape. Qed.

Lemma record_located_home r : processed_record r → located "Home" r = Ok (at_home r).
Proof. by_shape. Qed.
Lemma record_located_away r : processed_record r → located "Away" r = Ok (away r).
Proof. by_shape. Qed.
Lemma record_won r : processed_record r → won r = Ok (is_win r).
Proof. by_shape. Qed.
Lemma record_away r : processed_record r → away r = negb (at_home r).
Proof. by_shape. by destruct home. Qed.
Lemma record_lakers_score_number r :
  processed_record r → is_number (field "lakers_score" r) = true.
Proof. by_shape. unfold is_number, field. simpl. by rewrite Hm. Qed.
Lemma record_opponent_score_number r :
  processed_record r → is_number (field "opponent_score" r) = true.
Proof. by_shape. unfold is_number, field. simpl. by rewrite Hn. Qed.

(** The colour of a bar: [diff > 0] is the [won] of the record. *)
Lemma record_color r :
  processed_record r → py_gt (field "point_diff" r) (PInt 0) = Ok (is_win r).
Proof.
  by_shape. unfold is_win, field. simpl.
  by rewrite NbaFacts.won_iff_positive_diff.
Qed.

Lemma records_colors rs :
  Forall processed_record rs →
  mapM (λ diff, py_gt diff (PInt 0)) (map (field "point_diff") rs) = Ok (map is_win rs).
Proof.
  induction 1 as [|r rs Hr _ IH]; [reflexivity|].
  rewrite !map_cons, NbaFacts.mapM_result_cons, (record_color r Hr), IH. reflexivity.
Qed.

Ltac over_records lem :=
  eapply Forall_impl; [eassumption|]; intros ? ?; by apply lem.

(** The layout of a non-empty list of records, in closed form. *)
Lemma layout_of_records rs :
  Forall processed_record rs → rs ≠ [] →
  ∃ t1 t2,
    py_sum (map (field "lakers_score") rs) = Ok t1 ∧
    py_sum (map (field "opponent_score") rs) = Ok t2 ∧
    layout_of (PList rs) =
    Ok (Dashboard
          (DashLists (map (field "date") rs) (map (field "lakers_score") rs)
             (map (field "opponent_score") rs) (map (field "opponent") rs)
             (map (field "point_diff") rs) (map (field "location") rs)
             (map (field "won") rs))
          (DashStats (map is_win rs)
             (count is_win (List.filter at_home rs))
             (Z.of_nat (length (List.filter at_home rs)) - count is_win (List.filter at_home rs))
             (count is_win (List.filter away rs))
             (Z.of_nat (length (List.filter away rs)) - count is_win (List.filter away rs))
             (count is_win rs)
             (Z.of_nat (length rs) - count is_win rs)
             (Quotient t1 (Z.of_nat (length rs)))
             (Quotient t2 (Z.of_nat (length rs))))).
Proof.
  intros Hrs Hne.
  destruct (LoopFacts.py_average_numbers (map (field "lakers_score") rs)) as (t1 & Hs1 & Ht1).
  { apply Forall_map. over_records record_lakers_score_number. }
  { by destruct rs. }
  destruct (LoopFacts.py_average_numbers (map (field "opponent_score") rs)) as (t2 & Hs2 & Ht2).
  { apply Forall_map. over_records record_opponent_score_number. }
  { by destruct rs. }
  rewrite length_map in Ht1, Ht2.
  exists t1, t2. split; [exact Hs1|]. split; [exact Hs2|]. unfold layout_of.
  assert (py_truthy (PList rs) = true) as -> by (by destruct rs).
  change (py_iter (PList rs)) with (Ok rs).
  cbv iota beta delta [negb]. rewrite NbaFacts.result_bind_Ok.
  rewrite (LoopFacts.mapM_result_map (λ g, py_getitem g "date") (field "date") rs)
    by over_records record_getitem_date.
  rewrite NbaFacts.result_bind_Ok.
  rewrite (LoopFacts.mapM_result_map (λ g, py_getitem g "lakers_score")
             (field "lakers_score") rs) by over_records record_getitem_lakers_score.
  rewrite NbaFacts.result_bind_Ok.
  rewrite (LoopFacts.mapM_result_map (λ g, py_getitem g "opponent_score")
             (field "opponent_score") rs) by over_records record_getitem_opponent_score.
  rewrite NbaFacts.result_bind_Ok.
  rewrite (LoopFacts.mapM_result_map (λ g, py_getitem g "opponent") (field "opponent") rs)
    by over_records record_getitem_opponent.
  rewrite NbaFacts.result_bind_Ok.
  rewrite (LoopFacts.mapM_result_map (λ g, py_getitem g "point_diff")
             (field "point_diff") rs) by over_records record_getitem_point_diff.
  rewrite NbaFacts.result_bind_Ok.
  rewrite (LoopFacts.mapM_result_map (λ g, py_getitem g "location") (field "location") rs)
    by over_records record_getitem_location.
  rewrite NbaFacts.result_bind_Ok.
  rewrite (LoopFacts.mapM_result_map (λ g, py_getitem g "won") (field "won") rs)
    by over_records record_getitem_won.
  rewrite NbaFacts.result_bind_Ok.
  rewrite (records_colors rs Hrs), NbaFacts.result_bind_Ok.
  rewrite (LoopFacts.filter_result_Ok (located "Home") at_home rs)
    by over_records record_located_home.
  rewrite NbaFacts.result_bind_Ok.
  rewrite (LoopFacts.filter_result_Ok (located "Away") away rs)
    by over_records record_located_away.
  rewrite NbaFacts.result_bind_Ok.
  rewrite (LoopFacts.count_if_Ok won is_win (List.filter at_home rs)).
  2: { apply Forall_list_filter. over_records record_won. }
  rewrite NbaFacts.result_bind_Ok.
  rewrite (LoopFacts.count_if_Ok won is_win (List.filter away rs)).
  2: { apply Forall_list_filter. over_records record_won. }
  rewrite NbaFacts.result_bind_Ok.
  rewrite (LoopFacts.count_if_Ok won is_win rs) by over_records record_won.
  rewrite NbaFacts.result_bind_Ok.
  cbv zeta. rewrite Ht1, NbaFacts.result_bind_Ok, Ht2, NbaFacts.result_bind_Ok.
  reflexivity.
Qed.

(** [create_dash_app] is [get_lakers_games] followed by [layout_of]. *)
Lemma create_dash_app_run up w :
  create_dash_app up w =
  (match (get_lakers_games up 2023 50 w).1 with
   | Ok games => layout_of games
   | Raise e => Raise e
   end,
   (get_lakers_games up 2023 50 w).2).
Proof.
  unfold create_dash_app. unfold mbind at 1. unfold M_bind.
  destruct (get_lakers_games up 2023 50 w) as [[games|e] w']; [|reflexivity].
  simpl. unfold lift. by destruct (layout_of games).
Qed.

(** A layout with charts comes from a non-empty list of records. *)
Lemma dashboard_from_records up w lists stats :
  (create_dash_app up w).1 = Ok (Dashboard lists stats) →
  ∃ rs, Forall processed_record rs ∧ rs ≠ [] ∧
        layout_of (PList rs) = Ok (Dashboard lists stats).
Proof.
  rewrite create_dash_app_run. simpl.
  destruct (get_lakers_games up 2023 50 w).1 as [games|e] eqn:Hrun; [|discriminate].
  apply lakers_games_are_records in Hrun as (rs & -> & Hrs).
  intros Hlayout. exists rs. split_and!; [assumption| |assumption].
  intros ->. discriminate Hlayout.
Qed.

End DashFacts.
(** ** The dashboard *)

Import PyMore Tally.

(** X17. The dashboard has no fallback either: when the API cannot be
    reached, or answers 200 with a body that is not JSON,
    [create_dash_app] raises after its one request, and no layout is
    built. *)
Theorem dashboard_fails_with_the_api up (w : world) :
  match rep_outcome (up (lakers_request 2023 50)) with
  | Raise _ => True
  | Ok resp => status_code resp = 200 ∧ json_body resp = None
  end →
  ∃ e, Dash.create_dash_app up w =
       (Raise e,
        World (cache w) (rep_clock (up (lakers_request 2023 50)))
          (http_log w ++ [lakers_request 2023 50])).
Proof.
  intros Hfail. rewrite DashFacts.create_dash_app_run.
  rewrite NbaFacts.get_lakers_games_world, LakersFacts.get_lakers_games_value.
  destruct (rep_outcome (up (lakers_request 2023 50))) as [resp|e]; [|by exists e].
  destruct Hfail as [-> ->]. by exists ValueError.
Qed.

Lemma dashboard_fails_with_the_api_sample :
  let up := Sample.unreachable 1 in
  match rep_outcome (up (lakers_request 2023 50)) with
  | Raise _ => True
  | Ok resp => status_code resp = 200 ∧ json_body resp = None
  end ∧
  ∃ e, Dash.create_dash_app up Sample.boot =
       (Raise e, World ∅ 1 [lakers_request 2023 50]).
Proof.
  intros up.
  assert (Hfail : match rep_outcome (up (lakers_request 2023 50)) with
                  | Raise _ => True
                  | Ok resp => status_code resp = 200 ∧ json_body resp = None
                  end) by exact I.
  split; [exact Hfail|].
  apply (dashboard_fails_with_the_api up Sample.boot Hfail).
Defined.

(** X18. A status other than 200 is not an error for the dashboard: it
    gets the layout that says there is no game data. *)
Theorem dashboard_without_data_on_bad_status up (w : world) (resp : response) :
  rep_outcome (up (lakers_request 2023 50)) = Ok resp →
  status_code resp ≠ 200 →
  (Dash.create_dash_app up w).1 = Ok Dash.NoGameData.
Proof.
  intros Hresp Hstatus. rewrite DashFacts.create_dash_app_run. simpl.
  rewrite LakersFacts.get_lakers_games_value, Hresp.
  apply Z.eqb_neq in Hstatus. by rewrite Hstatus.
Qed.

Lemma dashboard_without_data_on_bad_status_sample :
  let up := Sample.answers 429 None 1 in
  (rep_outcome (up (lakers_request 2023 50)) = Ok (Response 429 None) ∧ 429 ≠ 200) ∧
  (Dash.create_dash_app up Sample.boot).1 = Ok Dash.NoGameData.
Proof.
  intros up.
  assert (Hresp : rep_outcome (up (lakers_request 2023 50)) = Ok (Response 429 None))
    by reflexivity.
  assert (Hstatus : status_code (Response 429 None) ≠ 200) by (simpl; lia).
  split; [split; [exact Hresp|exact Hstatus]|].
  apply (dashboard_without_data_on_bad_status up Sample.boot _ Hresp Hstatus).
Defined.



(** X20. The tallies of the dashboard add up: every game counts once at
    home or away, so the home and away wins make the total wins, the home
    and away losses the total losses, wins and losses the number of games
    shown, and no tally is negative. *)
Theorem dashboard_tallies_add_up up (w : world) (lists : Dash.dash_lists)
    (stats : Dash.dash_stats) :
  (Dash.create_dash_app up w).1 = Ok (Dash.Dashboard lists stats) →
  Dash.home_wins stats + Dash.away_wins stats = Dash.total_wins stats ∧
  Dash.home_losses stats + Dash.away_losses stats = Dash.total_losses stats ∧
  Dash.total_wins stats + Dash.total_losses stats = Z.of_nat (length (Dash.dates lists)) ∧
  0 ≤ Dash.home_wins stats ∧ 0 ≤ Dash.home_losses stats ∧
  0 ≤ Dash.away_wins stats ∧ 0 ≤ Dash.away_losses stats.
Proof.
  intros Hrun.
  apply DashFacts.dashboard_from_records in Hrun as (rs & Hrs & Hne & Hlayout).
  destruct (DashFacts.layout_of_records rs Hrs Hne) as (t1 & t2 & _ & _ & Hclosed).
  rewrite Hclosed in Hlayout. injection Hlayout as <- <-. simpl.
  rewrite length_map.
  destruct (LoopFacts.count_split is_win at_home away rs) as [Hwins Hgames].
  { eapply Forall_impl; [exact Hrs|]. intros r Hr. by apply DashFacts.record_away. }
  pose proof (LoopFacts.count_bounds is_win (List.filter at_home rs)).
  pose proof (LoopFacts.count_bounds is_win (List.filter away rs)).
  lia.
Qed.

Lemma dashboard_tallies_add_up_sample :
  let up := PageSample.three_games_api 1 in
  let stats := PageSample.three_stats in
  (Dash.create_dash_app up Sample.boot).1 =
    Ok (Dash.Dashboard PageSample.three_lists stats) ∧
  Dash.home_wins stats + Dash.away_wins stats = Dash.total_wins stats ∧
  Dash.home_losses stats + Dash.away_losses stats = Dash.total_losses stats ∧
  Dash.total_wins stats + Dash.total_losses stats =
    Z.of_nat (length (Dash.dates PageSample.three_lists)) ∧
  0 ≤ Dash.home_wins stats ∧ 0 ≤ Dash.home_losses stats ∧
  0 ≤ Dash.away_wins stats ∧ 0 ≤ Dash.away_losses stats.
Proof.
  intros up stats.
  assert (Hrun : (Dash.create_dash_app up Sample.boot).1 =
                 Ok (Dash.Dashboard PageSample.three_lists stats)) by reflexivity.
  split; [exact Hrun|].
  apply (dashboard_tallies_add_up up Sample.boot _ _ Hrun).
Defined.



(** X22. In a layout with charts the two averages are quotients of the
    sum of the scores by the number of games, which is not zero: the
    [else 0] of the two conditional expressions is never taken. *)
Theorem dashboard_averages_are_quotients up (w : world) (lists : Dash.dash_lists)
    (stats : Dash.dash_stats) :
  (Dash.create_dash_app up w).1 = Ok (Dash.Dashboard lists stats) →
  ∃ total_lakers total_opponent games,
    py_sum (Dash.lakers_scores lists) = Ok total_lakers ∧
    py_sum (Dash.opponent_scores lists) = Ok total_opponent ∧
    games = Z.of_nat (length (Dash.dates lists)) ∧ 0 < games ∧
    Dash.avg_lakers_score stats = Quotient total_lakers games ∧
    Dash.avg_opponent_score stats = Quotient total_opponent games.
Proof.
  intros Hrun.
  apply DashFacts.dashboard_from_records in Hrun as (rs & Hrs & Hne & Hlayout).
  destruct (DashFacts.layout_of_records rs Hrs Hne) as (t1 & t2 & Ht1 & Ht2 & Hclosed).
  rewrite Hclosed in Hlayout. injection Hlayout as <- <-. simpl.
  exists t1, t2, (Z.of_nat (length rs)). rewrite length_map. split_and!; try done.
  destruct rs; [done|]. simpl. lia.
Qed.

Lemma dashboard_averages_are_quotients_sample :
  let up := PageSample.three_games_api 1 in
  let lists := PageSample.three_lists in
  let stats := PageSample.three_stats in
  (Dash.create_dash_app up Sample.boot).1 = Ok (Dash.Dashboard lists stats) ∧
  ∃ total_lakers total_opponent games,
    py_sum (Dash.lakers_scores lists) = Ok total_lakers ∧
    py_sum (Dash.opponent_scores lists) = Ok total_opponent ∧
    games = Z.of_nat (length (Dash.dates lists)) ∧ 0 < games ∧
    Dash.avg_lakers_score stats = Quotient total_lakers games ∧
    Dash.avg_opponent_score stats = Quotient total_opponent games.
Proof.
  intros up lists stats.
  assert (Hrun : (Dash.create_dash_app up Sample.boot).1 =
                 Ok (Dash.Dashboard lists stats)) by reflexivity.
  split; [exact Hrun|].
  apply (dashboard_averages_are_quotients up Sample.boot _ _ Hrun).
Defined.
(** ** The [/team] page and the legacy chart *)

Module PageFacts.
Import PyMore Tally Pages.

Lemma fetch_result_fails q r : upstream_fails r → ∃ e, fetch_result q r = Raise e.
Proof.
  unfold upstream_fails, fetch_result. destruct (rep_outcome r) as [resp|e]; [|eauto].
  intros Hstatus. apply Z.eqb_neq in Hstatus. rewrite Hstatus. simpl. eauto.
Qed.

(** A cached query of the other key leaves the entry of a key alone. *)
Lemma run_other_key up q q' w :
  q ≠ q' → cache (run up q w).2 !! key_of q' = cache w !! key_of q'.
Proof.
  intros Hne.
  assert (Hkey : key_of q ≠ key_of q').
  { intros Heq. by apply Hne, KeyFacts.key_of_inj. }
  rewrite QueryFacts.run_cases.
  destruct (fresh_value q w); [reflexivity|].
  destruct (fetch_result q (up (request_of q))); simpl; [|reflexivity].
  by rewrite lookup_insert_ne.
Qed.

Section PageFacts.

Variable datetime : Type.
Variable fromisoformat : string → result datetime.

(** What one round of the loop of [get_team_info] reads and appends. *)
Lemma chart_row_Ok g acc acc' :
  chart_row datetime fromisoformat g acc = Ok acc' →
  ∃ raw_date date_str date home_team home_id lakers_score opponent_score opponent_team
      opponent_name point_diff,
    let home := py_eq home_id (PInt FIXED_TEAM_ID) in
    py_getitem g "date" = Ok raw_date ∧
    py_replace_Z raw_date = Ok date_str ∧
    fromisoformat date_str = Ok date ∧
    py_getitem g "home_team" = Ok home_team ∧
    py_getitem home_team "id" = Ok home_id ∧
    py_getitem g (if home then "home_team_score" else "visitor_team_score") =
      Ok lakers_score ∧
    py_getitem g (if home then "visitor_team_score" else "home_team_score") =
      Ok opponent_score ∧
    py_getitem g (if home then "visitor_team" else "home_team") = Ok opponent_team ∧
    py_getitem opponent_team "abbreviation" = Ok opponent_name ∧
    py_sub lakers_score opponent_score = Ok point_diff ∧
    acc' = ChartLists (dates acc ++ [date])
             (lakers_scores acc ++ [lakers_score])
             (opponent_scores acc ++ [opponent_score])
             (opponents acc ++ [opponent_name])
             (point_diffs acc ++ [point_diff])
             (locations acc ++ [PStr (if home then "Home" else "Away")]).
Proof.
  unfold chart_row.
  destruct (py_getitem g "date") as [raw_date|] eqn:Hraw; [|discriminate].
  rewrite NbaFacts.result_bind_Ok.
  destruct (py_replace_Z raw_date) as [date_str|] eqn:Hstr; [|discriminate].
  rewrite NbaFacts.result_bind_Ok.
  destruct (fromisoformat date_str) as [date|] eqn:Hdate; [|discriminate].
  rewrite NbaFacts.result_bind_Ok.
  destruct (py_getitem g "home_team") as [home_team|] eqn:Hhome; [|discriminate].
  rewrite NbaFacts.result_bind_Ok.
  destruct (py_getitem home_team "id") as [home_id|] eqn:Hid; [|discriminate].
  rewrite NbaFacts.result_bind_Ok.
  destruct (py_eq home_id (PInt FIXED_TEAM_ID)) eqn:Heq.
  - destruct (py_getitem g "home_team_score") as [ls|] eqn:Hls; [|discriminate].
    rewrite NbaFacts.result_bind_Ok.
    destruct (py_getitem g "visitor_team_score") as [os|] eqn:Hos; [|discriminate].
    rewrite NbaFacts.result_bind_Ok.
    destruct (py_getitem g "visitor_team") as [team|] eqn:Hteam; [|discriminate].
    rewrite NbaFacts.result_bind_Ok.
    destruct (py_getitem team "abbreviation") as [name|] eqn:Hname; [|discriminate].
    rewrite !NbaFacts.result_bind_Ok.
    destruct (py_sub ls os) as [pd|] eqn:Hpd; [|discriminate].
    rewrite NbaFacts.result_bind_Ok. intros [= <-].
    exists raw_date, date_str, date, home_team, home_id, ls, os, team, name, pd.
    cbv zeta. rewrite Heq. by split_and!.
  - destruct (py_getitem g "visitor_team_score") as [ls|] eqn:Hls; [|discriminate].
    rewrite NbaFacts.result_bind_Ok.
    destruct (py_getitem g "home_team_score") as [os|] eqn:Hos; [|discriminate].
    rewrite !NbaFacts.result_bind_Ok.
    destruct (py_getitem home_team "abbreviation") as [name|] eqn:Hname; [|discriminate].
    rewrite !NbaFacts.result_bind_Ok.
    destruct (py_sub ls os) as [pd|] eqn:Hpd; [|discriminate].
    rewrite NbaFacts.result_bind_Ok. intros [= <-].
    exists raw_date, date_str, date, home_team, home_id, ls, os, home_team, name, pd.
    cbv zeta. rewrite Heq. by split_and!.
Qed.

(** The loop appends one item to each of the six lists per game, and the
    point differences it appends are integers. *)
Lemma chart_loop_lengths items acc lists :
  for_loop (chart_row datetime fromisoformat) items acc = Ok lists →
  length (dates lists) = (length (dates acc) + length items)%nat ∧
  length (lakers_scores lists) = (length (lakers_scores acc) + length items)%nat ∧
  length (opponent_scores lists) = (length (opponent_scores acc) + length items)%nat ∧
  length (opponents lists) = (length (opponents acc) + length items)%nat ∧
  length (point_diffs lists) = (length (point_diffs acc) + length items)%nat ∧
  length (locations lists) = (length (locations acc) + length items)%nat ∧
  (Forall (λ v, is_number v = true) (point_diffs acc) →
   Forall (λ v, is_number v = true) (point_diffs lists)) ∧
  (Forall (λ v, is_number v = true) (lakers_scores acc) →
   Forall (λ v, is_number v = true) (lakers_scores lists)) ∧
  (Forall (λ v, is_number v = true) (opponent_scores acc) →
   Forall (λ v, is_number v = true) (opponent_scores lists)).
Proof.
  revert acc. induction items as [|g items IH]; intros acc; simpl.
  - intros [= <-]. rewrite !Nat.add_0_r. by split_and!.
  - destruct (chart_row datetime fromisoformat g acc) as [acc'|] eqn:Hrow; [|discriminate].
    rewrite NbaFacts.result_bind_Ok. intros Hloop.
    apply chart_row_Ok in Hrow
      as (? & ? & date & ? & ? & ls & os & ? & name & pd & Hrow).
    cbv zeta in Hrow. destruct Hrow as (_ & _ & _ & _ & _ & _ & _ & _ & _ & Hpd & ->).
    apply NbaFacts.py_sub_Ok in Hpd as (m & n & Hm & Hn & ->).
    specialize (IH _ Hloop). simpl in IH. rewrite !length_app in IH. simpl in IH.
    destruct IH as (? & ? & ? & ? & ? & ? & Hnum & Hnum1 & Hnum2).
    split_and!; try lia.
    + intros Hacc. apply Hnum. apply Forall_app. split; [assumption|].
      by repeat constructor.
    + intros Hacc. apply Hnum1. apply Forall_app. split; [assumption|].
      repeat constructor. unfold is_number. by rewrite Hm.
    + intros Hacc. apply Hnum2. apply Forall_app. split; [assumption|].
      repeat constructor. unfold is_number. by rewrite Hn.
Qed.

(** A truthy value that can be iterated has an item. *)
Lemma py_iter_truthy v items : py_truthy v = true → py_iter v = Ok items → items ≠ [].
Proof.
  destruct v as [| | |s|l|l|d]; simpl; try discriminate.
  - destruct s; [discriminate|]. by intros _ [= <-].
  - destruct l; [discriminate|]. by intros _ [= <-].
  - destruct l; [discriminate|]. by intros _ [= <-].
  - destruct d; [discriminate|]. by intros _ [= <-].
Qed.

(** What [page_content] returns when there are games. *)
Lemma page_content_Some games lists stats :
  page_content datetime fromisoformat games = Ok (Some (lists, stats)) →
  ∃ items wins,
    py_truthy games = true ∧ py_iter games = Ok items ∧ items ≠ [] ∧
    for_loop (chart_row datetime fromisoformat) items (ChartLists [] [] [] [] [] []) =
      Ok lists ∧
    count_if (λ diff, py_gt diff (PInt 0)) (point_diffs lists) = Ok wins ∧
    total_wins stats = wins ∧
    total_losses stats = Z.of_nat (length (point_diffs lists)) - wins ∧
    py_average (lakers_scores lists) = Ok (avg_lakers stats) ∧
    py_average (opponent_scores lists) = Ok (avg_opponent stats).
Proof.
  unfold page_content.
  destruct (py_truthy games) eqn:Htruthy; [|discriminate]. cbv iota beta delta [negb].
  destruct (py_iter games) as [items|] eqn:Hitems; [|discriminate].
  rewrite NbaFacts.result_bind_Ok.
  destruct (for_loop _ items _) as [lists'|] eqn:Hloop; [|discriminate].
  rewrite NbaFacts.result_bind_Ok.
  destruct (count_if _ (point_diffs lists')) as [wins|] eqn:Hwins; [|discriminate].
  rewrite NbaFacts.result_bind_Ok. cbv zeta.
  destruct (py_average (lakers_scores lists')) as [a1|] eqn:Ha1; [|discriminate].
  rewrite NbaFacts.result_bind_Ok.
  destruct (py_average (opponent_scores lists')) as [a2|] eqn:Ha2; [|discriminate].
  rewrite NbaFacts.result_bind_Ok. intros [= <- <-].
  exists items, wins. split_and!; try done.
  by eapply py_iter_truthy.
Qed.

Variable upstream : request → reply.

(** [get_team_info] is the two cached queries followed by [page_content]. *)
Lemma get_team_info_run w :
  get_team_info datetime fromisoformat upstream w =
  let r1 := run upstream TeamInfo w in
  match r1.1 with
  | Raise e => (Raise e, r1.2)
  | Ok result =>
      if negb (py_is_not_none result) then (Ok ErrorPage, r1.2)
      else
        match py_unpack3 result with
        | Raise e => (Raise e, r1.2)
        | Ok (team_name, team_city, team_abbreviation) =>
            let r2 := run upstream (TeamGames FIXED_TEAM_ID 2024 25) r1.2 in
            (games ← r2.1;
             content ← page_content datetime fromisoformat games;
             mret (TeamPage team_name team_city team_abbreviation content),
             r2.2)
        end
  end.
Proof.
  unfold get_team_info. cbv zeta.
  change (get_fixed_team upstream) with (run upstream TeamInfo).
  change (get_team_games upstream FIXED_TEAM_ID 2024 25)
    with (run upstream (TeamGames FIXED_TEAM_ID 2024 25)).
  unfold mbind at 1. unfold M_bind.
  destruct (run upstream TeamInfo w) as [[result|e] w1]; [|reflexivity].
  simpl. destruct (py_is_not_none result); [|reflexivity]. simpl.
  unfold mbind at 1. unfold M_bind, lift.
  destruct (py_unpack3 result) as [[[team_name team_city] team_abbreviation]|e];
    [|reflexivity].
  unfold mbind at 1. unfold M_bind. cbv zeta.
  change (run upstream (TeamGames FIXED_TEAM_ID 2024 25))
    with (get_team_games upstream FIXED_TEAM_ID 2024 25).
  destruct (get_team_games upstream FIXED_TEAM_ID 2024 25 w1) as [[games|e] w2];
    [|reflexivity].
  unfold mbind at 1. unfold M_bind. simpl.
  by destruct (page_content datetime fromisoformat games).
Qed.

(** The content of a page of the team is what [page_content] makes of
    some value of the games. *)
Lemma team_page_content w team_name team_city team_abbreviation content :
  (get_team_info datetime fromisoformat upstream w).1 =
    Ok (TeamPage team_name team_city team_abbreviation content) →
  ∃ games, page_content datetime fromisoformat games = Ok content.
Proof.
  rewrite get_team_info_run. cbv zeta.
  destruct (run upstream TeamInfo w).1 as [result|]; [|discriminate].
  destruct (negb (py_is_not_none result)); [discriminate|].
  destruct (py_unpack3 result) as [[[n c] a]|]; [|discriminate].
  cbn [fst].
  destruct (run upstream (TeamGames FIXED_TEAM_ID 2024 25) _).1 as [games|];
    [|discriminate].
  rewrite NbaFacts.result_bind_Ok.
  destruct (page_content datetime fromisoformat games) as [content'|] eqn:Hcontent;
    [|discriminate].
  rewrite NbaFacts.result_bind_Ok. intros [= _ _ _ <-]. eauto.
Qed.

(** A record without one of the four keys that both branches of the loop
    read ends the loop. *)
Lemma chart_row_missing d k acc :
  k ∈ ["date"; "home_team"; "home_team_score"; "visitor_team_score"]%string →
  dict_lookup k d = None →
  ∃ e, chart_row datetime fromisoformat (PDict d) acc = Raise e.
Proof.
  intros Hk Hmissing. unfold chart_row.
  destruct (py_getitem (PDict d) "date") as [raw_date|] eqn:Hraw; [|eauto].
  rewrite NbaFacts.result_bind_Ok.
  destruct (py_replace_Z raw_date) as [date_str|]; [|eauto].
  rewrite NbaFacts.result_bind_Ok.
  destruct (fromisoformat date_str) as [date|]; [|eauto].
  rewrite NbaFacts.result_bind_Ok.
  destruct (py_getitem (PDict d) "home_team") as [home_team|] eqn:Hhome; [|eauto].
  rewrite NbaFacts.result_bind_Ok.
  destruct (py_getitem home_team "id") as [home_id|]; [|eauto].
  rewrite NbaFacts.result_bind_Ok.
  assert (Hscore : py_getitem (PDict d) "home_team_score" = Raise KeyError ∨
                   py_getitem (PDict d) "visitor_team_score" = Raise KeyError).
  { simpl in Hraw, Hhome |- *.
    repeat (apply elem_of_cons in Hk as [->|Hk]); [| | | |by apply elem_of_nil in Hk];
      rewrite Hmissing in *; try discriminate; eauto. }
  destruct (py_eq home_id (PInt FIXED_TEAM_ID)).
  - destruct (py_getitem (PDict d) "home_team_score") as [ls|]; [|eauto].
    rewrite NbaFacts.result_bind_Ok.
    destruct Hscore as [Hscore|Hscore]; [discriminate|]. rewrite Hscore. eauto.
  - destruct (py_getitem (PDict d) "visitor_team_score") as [ls|]; [|eauto].
    rewrite NbaFacts.result_bind_Ok.
    destruct Hscore as [Hscore|Hscore]; [|discriminate]. rewrite Hscore. eauto.
Qed.

(** What one round of the legacy loop appends. *)
Lemma sample_loop_lengths items acc lists :
  for_loop (sample_row datetime fromisoformat) items acc = Ok lists →
  length (sample_lakers_scores lists) =
    (length (sample_lakers_scores acc) + length items)%nat ∧
  length (sample_opponent_scores lists) =
    (length (sample_opponent_scores acc) + length items)%nat ∧
  length (sample_opponents lists) = (length (sample_opponents acc) + length items)%nat ∧
  Z.of_nat (length (sample_dates lists)) + count lakers_at_home items =
    Z.of_nat (length (sample_dates acc)) + Z.of_nat (length items).
Proof.
  unfold count. revert acc. induction items as [|g items IH]; intros acc; simpl.
  - intros [= <-]. split_and!; lia.
  - destruct (sample_row datetime fromisoformat g acc) as [acc'|] eqn:Hrow; [|discriminate].
    rewrite NbaFacts.result_bind_Ok. intros Hloop. specialize (IH _ Hloop).
    unfold sample_row in Hrow. unfold lakers_at_home at 1.
    destruct (py_getitem g "date") as [raw_date|]; [|discriminate].
    rewrite NbaFacts.result_bind_Ok in Hrow.
    destruct (py_fromisoformat datetime fromisoformat raw_date) as [date|]; [|discriminate].
    rewrite NbaFacts.result_bind_Ok in Hrow.
    destruct (py_getitem g "home_team") as [home_team|]; [|discriminate].
    rewrite NbaFacts.result_bind_Ok in Hrow. rewrite NbaFacts.result_bind_Ok.
    destruct (py_getitem home_team "id") as [home_id|]; [|discriminate].
    rewrite NbaFacts.result_bind_Ok in Hrow.
    destruct (py_eq home_id (PInt LAL_TEAM_ID)).
    + destruct (py_getitem g "home_team_score") as [ls|]; [|discriminate].
      rewrite NbaFacts.result_bind_Ok in Hrow.
      destruct (py_getitem g "visitor_team_score") as [os|]; [|discriminate].
      rewrite NbaFacts.result_bind_Ok in Hrow.
      destruct (py_getitem g "visitor_team") as [team|]; [|discriminate].
      rewrite NbaFacts.result_bind_Ok in Hrow.
      destruct (py_getitem team "abbreviation") as [name|]; [|discriminate].
      rewrite NbaFacts.result_bind_Ok in Hrow. injection Hrow as <-.
      simpl in IH |- *. rewrite !length_app in IH. simpl in IH. split_and!; lia.
    + destruct (py_getitem g "visitor_team_score") as [ls|]; [|discriminate].
      rewrite NbaFacts.result_bind_Ok in Hrow.
      destruct (py_getitem g "home_team_score") as [os|]; [|discriminate].
      rewrite !NbaFacts.result_bind_Ok in Hrow.
      destruct (py_getitem home_team "abbreviation") as [name|]; [|discriminate].
      rewrite NbaFacts.result_bind_Ok in Hrow. injection Hrow as <-.
      simpl in IH |- *. rewrite !length_app in IH. simpl in IH. split_and!; lia.
Qed.


Lemma legacy_chart_lists_run w :
  legacy_chart_lists datetime fromisoformat upstream w =
  let r := run upstream (TeamGames FIXED_TEAM_ID 2024 5) w in
  (games_sample ← r.1; sample_lists_of datetime fromisoformat games_sample, r.2).
Proof.
  unfold legacy_chart_lists. cbv zeta.
  change (get_team_games upstream FIXED_TEAM_ID 2024 5)
    with (run upstream (TeamGames FIXED_TEAM_ID 2024 5)).
  unfold mbind at 1. unfold M_bind.
  destruct (run upstream (TeamGames FIXED_TEAM_ID 2024 5) w) as [[games|e] w1];
    [|reflexivity].
  simpl. unfold lift. by destruct (sample_lists_of datetime fromisoformat games).
Qed.

End PageFacts.

End PageFacts.
(** ** The page of the team *)

(** X23. Without the team there is no page: when the API fails and the
    cache has no entry for the team, [get_team_info] returns the error
    page after the one request for the team, and the games are not asked
    for, cached or not. *)
Theorem team_page_is_an_error_without_team (datetime : Type)
    (fromisoformat : string → result datetime) up (w : world) :
  upstream_fails (up (request_of TeamInfo)) →
  cache w !! key_of TeamInfo = None →
  Pages.get_team_info datetime fromisoformat up w =
  (Ok Pages.ErrorPage,
   World (cache w) (rep_clock (up (request_of TeamInfo)))
     (http_log w ++ [request_of TeamInfo])).
Proof.
  intros Hfails Hentry.
  rewrite PageFacts.get_team_info_run. cbv zeta.
  rewrite QueryFacts.run_cases. unfold fresh_value, fallback_value. rewrite Hentry.
  destruct (PageFacts.fetch_result_fails TeamInfo _ Hfails) as [e ->].
  reflexivity.
Qed.

Lemma team_page_is_an_error_without_team_sample :
  let up := Sample.answers 429 None 1 in
  let w := (set_cache (key_of (TeamGames 14 2024 25)) (PList Sample.three_games)
              Sample.boot).2 in
  (upstream_fails (up (request_of TeamInfo)) ∧ cache w !! key_of TeamInfo = None) ∧
  Pages.get_team_info string PageSample.any_date up w =
  (Ok Pages.ErrorPage, World (cache w) 1 [request_of TeamInfo]).
Proof.
  intros up w.
  assert (Hfails : upstream_fails (up (request_of TeamInfo)))
    by (vm_compute; discriminate).
  assert (Hentry : cache w !! key_of TeamInfo = None) by (vm_compute; reflexivity).
  split; [split; [exact Hfails|exact Hentry]|].
  apply (team_page_is_an_error_without_team string PageSample.any_date up w Hfails Hentry).
Defined.

(** X24. With both entries fresh the page is made of the cache alone: no
    request is sent and the state of the process is left as it was,
    whether the page is built or the handler raises. *)
Theorem warm_team_page_makes_no_request (datetime : Type)
    (fromisoformat : string → result datetime) up (w : world) (team games : pyval) :
  fresh_value TeamInfo w = Some team →
  fresh_value (TeamGames FIXED_TEAM_ID 2024 25) w = Some games →
  Pages.get_team_info datetime fromisoformat up w =
  ('(team_name, team_city, team_abbreviation) ← py_unpack3 team;
   content ← Pages.page_content datetime fromisoformat games;
   mret (Pages.TeamPage team_name team_city team_abbreviation content),
   w).
Proof.
  intros Hteam Hgames.
  assert (Hnot_none : py_is_not_none team = true).
  { unfold fresh_value in Hteam. destruct (cache w !! key_of TeamInfo) as [[v ts]|];
      [|discriminate].
    destruct (py_is_not_none v) eqn:Hv; [|discriminate].
    destruct (clock w - ts <? CACHE_DURATION); [|discriminate].
    by injection Hteam as <-. }
  rewrite PageFacts.get_team_info_run. cbv zeta.
  rewrite (QueryFacts.run_cases up TeamInfo w), Hteam. cbn [fst snd].
  rewrite Hnot_none. cbn [negb].
  destruct (py_unpack3 team) as [[[team_name team_city] team_abbreviation]|e];
    [|reflexivity].
  rewrite QueryFacts.run_cases, Hgames. reflexivity.
Qed.

Lemma warm_team_page_makes_no_request_sample :
  let w := (set_cache (key_of (TeamGames 14 2024 25)) (PList Sample.three_games)
              (set_cache (key_of TeamInfo) Sample.lakers_tuple Sample.boot).2).2 in
  let up := Sample.unreachable 1 in
  (fresh_value TeamInfo w = Some Sample.lakers_tuple ∧
   fresh_value (TeamGames FIXED_TEAM_ID 2024 25) w = Some (PList Sample.three_games)) ∧
  Pages.get_team_info string PageSample.any_date up w =
  ('(team_name, team_city, team_abbreviation) ← py_unpack3 Sample.lakers_tuple;
   content ← Pages.page_content string PageSample.any_date (PList Sample.three_games);
   mret (Pages.TeamPage team_name team_city team_abbreviation content),
   w).
Proof.
  intros w up.
  assert (Hteam : fresh_value TeamInfo w = Some Sample.lakers_tuple) by reflexivity.
  assert (Hgames : fresh_value (TeamGames FIXED_TEAM_ID 2024 25) w =
                   Some (PList Sample.three_games)) by reflexivity.
  split; [split; [exact Hteam|exact Hgames]|].
  apply (warm_team_page_makes_no_request string PageSample.any_date up w _ _ Hteam Hgames).
Defined.

(** X25. The statistics of the page add up: the six lists have one item
    per game and there is at least one game, wins and losses make the
    number of games, neither is negative, and the two averages are
    quotients by the number of games (the [else 0] is never taken). *)
Theorem team_page_statistics_add_up (datetime : Type)
    (fromisoformat : string → result datetime) up (w : world)
    (team_name team_city team_abbreviation : pyval)
    (lists : Pages.chart_lists datetime) (stats : Pages.team_stats) :
  (Pages.get_team_info datetime fromisoformat up w).1 =
    Ok (Pages.TeamPage team_name team_city team_abbreviation (Some (lists, stats))) →
  ∃ games : nat,
    (0 < games)%nat ∧
    length (Pages.dates lists) = games ∧
    length (Pages.lakers_scores lists) = games ∧
    length (Pages.opponent_scores lists) = games ∧
    length (Pages.opponents lists) = games ∧
    length (Pages.point_diffs lists) = games ∧
    length (Pages.locations lists) = games ∧
    Pages.total_wins stats + Pages.total_losses stats = Z.of_nat games ∧
    0 ≤ Pages.total_wins stats ∧ 0 ≤ Pages.total_losses stats ∧
    ∃ total_lakers total_opponent,
      Pages.avg_lakers stats = Quotient total_lakers (Z.of_nat games) ∧
      Pages.avg_opponent stats = Quotient total_opponent (Z.of_nat games).
Proof.
  intros Hpage. apply PageFacts.team_page_content in Hpage as [games Hcontent].
  apply PageFacts.page_content_Some in Hcontent
    as (items & wins & _ & _ & Hne & Hloop & Hwins & Htw & Htl & Ha1 & Ha2).
  apply PageFacts.chart_loop_lengths in Hloop as (H1 & H2 & H3 & H4 & H5 & H6 & _).
  simpl in H1, H2, H3, H4, H5, H6.
  apply LoopFacts.count_if_bounds in Hwins. rewrite H5 in Hwins, Htl.
  apply LoopFacts.py_average_Ok in Ha1, Ha2.
  exists (length items). split_and!; try done; try lia.
  - destruct items; [done|]. simpl. lia.
  - destruct (Pages.lakers_scores lists) as [|x l1]; [by destruct items|].
    destruct (Pages.opponent_scores lists) as [|y l2]; [by destruct items|].
    destruct Ha1 as (t1 & _ & ->). destruct Ha2 as (t2 & _ & ->).
    exists t1, t2. by rewrite H2, H3.
Qed.

Lemma team_page_statistics_add_up_sample :
  let up := PageSample.api Sample.three_games 1 in
  let lists :=
    Pages.ChartLists ["2024-03-01"; "2024-01-10"; "2024-02-15"]%string
      [PInt 120; PInt 99; PInt 110] [PInt 115; PInt 101; PInt 110]
      [PStr "BOS"; PStr "BOS"; PStr "BOS"] [PInt 5; PInt (-2); PInt 0]
      [PStr "Home"; PStr "Away"; PStr "Home"] in
  let stats := Pages.TeamStats 1 2 (Quotient 329 3) (Quotient 326 3) in
  (Pages.get_team_info string PageSample.any_date up Sample.boot).1 =
    Ok (Pages.TeamPage (PStr "Lakers") (PStr "Los Angeles") (PStr "LAL")
          (Some (lists, stats))) ∧
  ∃ games : nat,
    (0 < games)%nat ∧
    length (Pages.dates lists) = games ∧
    length (Pages.lakers_scores lists) = games ∧
    length (Pages.opponent_scores lists) = games ∧
    length (Pages.opponents lists) = games ∧
    length (Pages.point_diffs lists) = games ∧
    length (Pages.locations lists) = games ∧
    Pages.total_wins stats + Pages.total_losses stats = Z.of_nat games ∧
    0 ≤ Pages.total_wins stats ∧ 0 ≤ Pages.total_losses stats ∧
    ∃ total_lakers total_opponent,
      Pages.avg_lakers stats = Quotient total_lakers (Z.of_nat games) ∧
      Pages.avg_opponent stats = Quotient total_opponent (Z.of_nat games).
Proof.
  intros up lists stats.
  assert (Hpage : (Pages.get_team_info string PageSample.any_date up Sample.boot).1 =
                  Ok (Pages.TeamPage (PStr "Lakers") (PStr "Los Angeles") (PStr "LAL")
                        (Some (lists, stats)))) by reflexivity.
  split; [exact Hpage|].
  apply (team_page_statistics_add_up string PageSample.any_date up Sample.boot _ _ _ _ _
           Hpage).
Defined.

(** X26. The page has none of the defaults of [get_lakers_games]: one
    game without its date, its home team or one of its two scores, and
    the handler raises instead of returning a page. *)
Theorem team_page_needs_every_field (datetime : Type)
    (fromisoformat : string → result datetime) up (w : world) (team : pyval)
    (items : list pyval) (d : list (string * pyval)) (k : string) :
  (run up TeamInfo w).1 = Ok team →
  is_triple team = true →
  (run up (TeamGames FIXED_TEAM_ID 2024 25) (run up TeamInfo w).2).1 = Ok (PList items) →
  PDict d ∈ items →
  k ∈ ["date"; "home_team"; "home_team_score"; "visitor_team_score"]%string →
  dict_lookup k d = None →
  ∃ e, (Pages.get_team_info datetime fromisoformat up w).1 = Raise e.
Proof.
  intros Hteam Htriple Hgames Hin Hk Hmissing.
  rewrite PageFacts.get_team_info_run. cbv zeta. rewrite Hteam.
  destruct team as [| | | | |[|n [|c [|a [|]]]]|]; try discriminate Htriple.
  cbn [py_is_not_none negb].
  change (py_unpack3 (PTuple [n; c; a])) with (Ok (n, c, a) : result _).
  cbv beta iota. cbn [fst]. rewrite Hgames, NbaFacts.result_bind_Ok.
  unfold Pages.page_content.
  assert (py_truthy (PList items) = true) as ->.
  { destruct items; [by apply elem_of_nil in Hin|reflexivity]. }
  cbn [negb py_iter]. rewrite NbaFacts.result_bind_Ok.
  destruct (LoopFacts.for_loop_raises (Pages.chart_row datetime fromisoformat) items
              (PDict d) (Pages.ChartLists [] [] [] [] [] []) Hin) as [e ->].
  { intros acc. by apply PageFacts.chart_row_missing with k. }
  by exists e.
Qed.

Lemma team_page_needs_every_field_sample :
  let up := PageSample.api Sample.sparse_games 1 in
  let d := [("home_team", PDict [("id", PInt 14)])]%string in
  ((run up TeamInfo Sample.boot).1 = Ok Sample.lakers_tuple ∧
   is_triple Sample.lakers_tuple = true ∧
   (run up (TeamGames FIXED_TEAM_ID 2024 25) (run up TeamInfo Sample.boot).2).1 =
     Ok (PList Sample.sparse_games) ∧
   PDict d ∈ Sample.sparse_games ∧
   "date"%string ∈ ["date"; "home_team"; "home_team_score"; "visitor_team_score"]%string ∧
   dict_lookup "date" d = None) ∧
  ∃ e, (Pages.get_team_info string PageSample.any_date up Sample.boot).1 = Raise e.
Proof.
  intros up d.
  assert (Hin : PDict d ∈ Sample.sparse_games) by repeat constructor.
  assert (Hk : "date"%string ∈
               ["date"; "home_team"; "home_team_score"; "visitor_team_score"]%string)
    by repeat constructor.
  split; [split_and!; try reflexivity; assumption|].
  apply (team_page_needs_every_field string PageSample.any_date up Sample.boot
           Sample.lakers_tuple Sample.sparse_games d "date"
           eq_refl eq_refl eq_refl Hin Hk eq_refl).
Defined.



(** X28. The loop of the page and [process_game] read a game the same
    way: a raw record that the loop accepts is one that [process_game]
    accepts, and the scores, the point difference and the location that
    the loop appends are those of the normalised record. *)
Theorem chart_row_agrees_with_process_game (datetime : Type)
    (fromisoformat : string → result datetime) (g : pyval)
    (acc acc' : Pages.chart_lists datetime) :
  Pages.chart_row datetime fromisoformat g acc = Ok acc' →
  ∃ r lakers_score opponent_score point_diff location,
    process_game g = Ok r ∧
    record_field r "lakers_score" = Some lakers_score ∧
    record_field r "opponent_score" = Some opponent_score ∧
    record_field r "point_diff" = Some point_diff ∧
    record_field r "location" = Some location ∧
    Pages.lakers_scores acc' = Pages.lakers_scores acc ++ [lakers_score] ∧
    Pages.opponent_scores acc' = Pages.opponent_scores acc ++ [opponent_score] ∧
    Pages.point_diffs acc' = Pages.point_diffs acc ++ [point_diff] ∧
    Pages.locations acc' = Pages.locations acc ++ [location].
Proof.
  intros Hrow. apply PageFacts.chart_row_Ok in Hrow
    as (raw_date & date_str & date & home_team & home_id & ls & os & team & name & pd & Hrow).
  cbv zeta in Hrow.
  destruct Hrow as (Hraw & _ & _ & Hhome & Hid & Hls & Hos & Hteam & Hname & Hpd & ->).
  apply NbaFacts.py_sub_Ok in Hpd as (m & n & Hm & Hn & ->).
  destruct g as [| | | | | |d]; try discriminate Hraw.
  destruct home_team as [| | | | | |h]; try discriminate Hid.
  destruct team as [| | | | | |t]; try discriminate Hname.
  simpl in Hhome, Hid, Hls, Hos, Hteam.
  destruct (dict_lookup "home_team" d) as [x|] eqn:Hd_home; [|discriminate].
  injection Hhome as ->.
  destruct (dict_lookup "id" h) as [x|] eqn:Hh_id; [|discriminate].
  injection Hid as ->.
  destruct (py_eq home_id (PInt FIXED_TEAM_ID)) eqn:Heq.
  - destruct (dict_lookup "home_team_score" d) as [x|] eqn:Hd_hs; [|discriminate].
    injection Hls as ->.
    destruct (dict_lookup "visitor_team_score" d) as [x|] eqn:Hd_vs; [|discriminate].
    injection Hos as ->.
    destruct (dict_lookup "visitor_team" d) as [x|] eqn:Hd_v; [|discriminate].
    injection Hteam as ->.
    eexists _, ls, os, (PInt (m - n)), (PStr "Home"). split.
    + apply NbaFacts.process_game_normalised.
      apply (normalised_home d h t m n); unfold raw_field;
        rewrite ?Hd_home, ?Hh_id, ?Hd_hs, ?Hd_vs, ?Hd_v; done.
    + unfold raw_field. rewrite Hd_hs, Hd_vs. by split_and!.
  - destruct (dict_lookup "visitor_team_score" d) as [x|] eqn:Hd_vs; [|discriminate].
    injection Hls as ->.
    destruct (dict_lookup "home_team_score" d) as [x|] eqn:Hd_hs; [|discriminate].
    injection Hos as ->.
    eexists _, ls, os, (PInt (m - n)), (PStr "Away"). split.
    + apply NbaFacts.process_game_normalised.
      apply (normalised_away d h m n); unfold raw_field;
        rewrite ?Hd_home, ?Hh_id, ?Hd_hs, ?Hd_vs; done.
    + unfold raw_field. rewrite Hd_hs, Hd_vs. by split_and!.
Qed.

Lemma chart_row_agrees_with_process_game_sample :
  let acc := Pages.ChartLists [] [] [] [] [] [] in
  let acc' :=
    Pages.ChartLists ["2024-01-10"%string] [PInt 100] [PInt 90] [PStr "BOS"] [PInt 10]
      [PStr "Home"] in
  Pages.chart_row string PageSample.any_date (PDict Sample.home_game) acc = Ok acc' ∧
  ∃ r lakers_score opponent_score point_diff location,
    process_game (PDict Sample.home_game) = Ok r ∧
    record_field r "lakers_score" = Some lakers_score ∧
    record_field r "opponent_score" = Some opponent_score ∧
    record_field r "point_diff" = Some point_diff ∧
    record_field r "location" = Some location ∧
    Pages.lakers_scores acc' = Pages.lakers_scores acc ++ [lakers_score] ∧
    Pages.opponent_scores acc' = Pages.opponent_scores acc ++ [opponent_score] ∧
    Pages.point_diffs acc' = Pages.point_diffs acc ++ [point_diff] ∧
    Pages.locations acc' = Pages.locations acc ++ [location].
Proof.
  intros acc acc'.
  assert (Hrow : Pages.chart_row string PageSample.any_date (PDict Sample.home_game) acc =
                 Ok acc') by reflexivity.
  split; [exact Hrow|].
  apply (chart_row_agrees_with_process_game string PageSample.any_date _ acc acc' Hrow).
Defined.

(** ** The legacy chart *)

(** X29. The legacy chart loses the dates of the home games: every game
    of the sample gets a score of each side and an opponent, but a date
    only when the Lakers play away, so the list of dates is shorter than
    the lists of scores by the number of home games. *)
Theorem legacy_chart_drops_home_dates (datetime : Type)
    (fromisoformat : string → result datetime) up (w : world) (games : pyval)
    (items : list pyval) (lists : Pages.sample_lists datetime) :
  (run up (TeamGames FIXED_TEAM_ID 2024 5) w).1 = Ok games →
  py_iter games = Ok items →
  (Pages.legacy_chart_lists datetime fromisoformat up w).1 = Ok lists →
  length (Pages.sample_lakers_scores lists) = length items ∧
  length (Pages.sample_opponent_scores lists) = length items ∧
  length (Pages.sample_opponents lists) = length items ∧
  Z.of_nat (length (Pages.sample_dates lists)) + count lakers_at_home items =
    Z.of_nat (length items).
Proof.
  intros Hgames Hitems. rewrite PageFacts.legacy_chart_lists_run. cbv zeta. cbn [fst].
  rewrite Hgames, NbaFacts.result_bind_Ok. unfold Pages.sample_lists_of.
  rewrite Hitems, NbaFacts.result_bind_Ok. intros Hloop.
  apply PageFacts.sample_loop_lengths in Hloop. simpl in Hloop.
  destruct Hloop as (? & ? & ? & ?). split_and!; lia.
Qed.

Lemma legacy_chart_drops_home_dates_sample :
  let up := PageSample.api Sample.three_games 1 in
  let lists :=
    Pages.SampleLists ["2024-01-10"%string] [PInt 120; PInt 99; PInt 110]
      [PInt 115; PInt 101; PInt 110] [PStr "BOS"; PStr "BOS"; PStr "BOS"] in
  ((run up (TeamGames FIXED_TEAM_ID 2024 5) Sample.boot).1 = Ok (PList Sample.three_games) ∧
   py_iter (PList Sample.three_games) = Ok Sample.three_games ∧
   (Pages.legacy_chart_lists string PageSample.any_date up Sample.boot).1 = Ok lists) ∧
  length (Pages.sample_lakers_scores lists) = length Sample.three_games ∧
  length (Pages.sample_opponent_scores lists) = length Sample.three_games ∧
  length (Pages.sample_opponents lists) = length Sample.three_games ∧
  Z.of_nat (length (Pages.sample_dates lists)) + count lakers_at_home Sample.three_games =
    Z.of_nat (length Sample.three_games).
Proof.
  intros up lists. split; [split_and!; reflexivity|].
  apply (legacy_chart_drops_home_dates string PageSample.any_date up Sample.boot
           (PList Sample.three_games) Sample.three_games lists eq_refl eq_refl eq_refl).
Defined.

(** X30. The sample of games fetched when the module is loaded does not
    warm the page: it is stored under the key of five games per page, and
    the entries of the page, the team and twenty-five games per page, are
    left as they were. *)
Theorem legacy_sample_does_not_warm_the_page (datetime : Type)
    (fromisoformat : string → result datetime) up (w : world) :
  cache (Pages.legacy_chart_lists datetime fromisoformat up w).2 !! key_of TeamInfo =
    cache w !! key_of TeamInfo ∧
  cache (Pages.legacy_chart_lists datetime fromisoformat up w).2
    !! key_of (TeamGames FIXED_TEAM_ID 2024 25) =
    cache w !! key_of (TeamGames FIXED_TEAM_ID 2024 25).
Proof.
  rewrite PageFacts.legacy_chart_lists_run. cbv zeta. cbn [snd].
  split; by apply PageFacts.run_other_key.
Qed.
